(** * Personal finance monitoring: ingestion, annotation and forecast pipeline

    A shallow embedding of [src/data.py] and [src/forecasting.py], and of
    [find_project_root] and [line_chart] of the backend.

    Python objects that are mutated in place (data frames) live in a heap
    of frames addressed by location; files live in a [World] record.  Code
    that can raise returns a [result].  Floating point columns are IEEE
    binary64 values ([PrimFloat.float]), with NaN as pandas' missing value.
    Calendar dates are day numbers (days since 1970-01-01). *)

From Stdlib Require Import ZArith List String Ascii Bool Lia PrimFloat Uint63.
From Stdlib Require Import Sorted Permutation.
From stdpp Require Import base gmap strings.
Import ListNotations.

Local Open Scope string_scope.
Local Open Scope Z_scope.
#[local] Set Warnings "-clear-no-such-hyp".

(* ===================================================================== *)
(** * Part I: the embedding                                               *)
(* ===================================================================== *)

(** ** Exceptions and fallible computations *)

Inductive exn : Type :=
  | KeyError | ValueError | IndexError | TypeError | AttributeError
  | FileNotFoundError | IsADirectoryError | JSONDecodeError.

Inductive result (A : Type) : Type :=
  | Ok (a : A)
  | Raise (e : exn).
Arguments Ok {A} a.
Arguments Raise {A} e.

Definition rbind {A B} (k : A -> result B) (r : result A) : result B :=
  match r with
  | Ok a => k a
  | Raise e => Raise e
  end.

#[export] Instance result_ret : MRet result := fun A a => Ok a.
#[export] Instance result_bind : MBind result := fun A B k r => rbind k r.

Definition is_ok {A} (r : result A) : bool :=
  match r with Ok _ => true | Raise _ => false end.

(** Traversal of a list with a fallible function, left to right. *)
Fixpoint rmapM {A B} (f : A -> result B) (l : list A) : result (list B) :=
  match l with
  | [] => Ok []
  | x :: l' =>
      match f x with
      | Raise e => Raise e
      | Ok y => match rmapM f l' with
                | Raise e => Raise e
                | Ok ys => Ok (y :: ys)
                end
      end
  end.

(** ** Python string methods *)

Module Str.

(** Text is held as its UTF-8 bytes: a character of ASCII is one byte, and
    no byte of another character is a byte of ASCII. *)

(** The capital letters of ASCII. *)
Definition is_capital (c : ascii) : bool :=
  let n := nat_of_ascii c in (Nat.leb 65 n && Nat.leb n 90)%bool.

Definition lower_ascii (c : ascii) : ascii :=
  if is_capital c then ascii_of_nat (nat_of_ascii c + 32) else c.

(** No capital letter of ASCII occurs in [s]. *)
Fixpoint no_capital (s : string) : bool :=
  match s with
  | EmptyString => true
  | String c s' => negb (is_capital c) && no_capital s'
  end.

(** [s.startswith(p)] *)
Fixpoint startswith (p s : string) : bool :=
  match p, s with
  | EmptyString, _ => true
  | String a p', String b s' => Ascii.eqb a b && startswith p' s'
  | String _ _, EmptyString => false
  end.

(** [p in s]: [p] occurs in [s] as a contiguous substring. *)
Fixpoint contains (p s : string) : bool :=
  startswith p s ||
  match s with
  | EmptyString => false
  | String _ s' => contains p s'
  end.

Fixpoint rev_onto (s acc : string) : string :=
  match s with
  | EmptyString => acc
  | String c s' => rev_onto s' (String c acc)
  end.

Definition rev (s : string) : string := rev_onto s EmptyString.

(** [s.endswith(p)] *)
Definition endswith (p s : string) : bool := startswith (rev p) (rev s).

(** [sep.join(parts)] *)
Fixpoint join (sep : string) (parts : list string) : string :=
  match parts with
  | [] => EmptyString
  | [p] => p
  | p :: rest => p ++ sep ++ join sep rest
  end.

(** [s.split(c)] for a one-character separator; [cur] is the field being
    read, reversed. *)
Fixpoint split_acc (c : ascii) (s cur : string) : list string :=
  match s with
  | EmptyString => [rev cur]
  | String a s' =>
      if Ascii.eqb a c then rev cur :: split_acc c s' EmptyString
      else split_acc c s' (String a cur)
  end.

Definition split (c : ascii) (s : string) : list string :=
  split_acc c s EmptyString.

(** [re.search(pattern, s) is not None] for the patterns [apply_fixed_rules]
    builds: a ['|'] alternation whose branches hold literal characters
    only (none of the declared keywords holds a regex metacharacter). *)
Definition re_search (pattern s : string) : bool :=
  existsb (fun alt => contains alt s) (split "|"%char pattern).

(** [s.replace(a, b)] for one-character [a] and [b]. *)
Fixpoint replace (a b : ascii) (s : string) : string :=
  match s with
  | EmptyString => EmptyString
  | String c s' => String (if Ascii.eqb c a then b else c) (replace a b s')
  end.

End Str.

(** ** FileRegistry: the processed-file register ([get_files]) *)

(** The register is the JSON object of [register.json]: file name to the
    ISO time stamp of its ingestion. *)
Abbreviation Register := (gmap string string).

(** A JSON text that is valid and is no object: an array (of which the
    elements that are strings matter), a string, or a number, [true],
    [false] or [null]. *)
Inductive NonObject : Type :=
  | JArray (strings : list string)
  | JString (s : string)
  | JScalar.

(** What is at [REGISTER_PATH]. *)
Inductive RegisterFile : Type :=
  | RegAbsent                       (* [os.path.exists] is false *)
  | RegJson (r : Register)          (* a JSON object *)
  | RegMalformed                    (* present, [json.load] raises *)
  | RegOther (v : NonObject).       (* present, valid JSON, no object *)

(** The value bound to the variable [register]. *)
Inductive Loaded : Type :=
  | Dict (r : Register)
  | NotDict (v : NonObject).

Definition in_register (file : string) (r : Register) : bool :=
  bool_decide (is_Some (r !! file)).

(** [file not in register] for a register that is no dict: membership in
    a list, the substring test in a string; a number, a boolean and [None]
    have no [in]. *)
Definition not_in (v : NonObject) (file : string) : result bool :=
  match v with
  | JArray strings => Ok (negb (existsb (String.eqb file) strings))
  | JString s => Ok (negb (Str.contains file s))
  | JScalar => Raise TypeError
  end.

(** [[x for x in l if test(x)]] with a test that can raise. *)
Fixpoint rfilter {A} (test : A -> result bool) (l : list A) : result (list A) :=
  match l with
  | [] => Ok []
  | x :: l' =>
      match test x with
      | Raise e => Raise e
      | Ok b => match rfilter test l' with
                | Raise e => Raise e
                | Ok kept => Ok (if b then x :: kept else kept)
                end
      end
  end.

(** [get_files(reprocess)]; [all_files] is [os.listdir] of the raw
    directory. *)
Definition get_files (all_files : list string) (reg : RegisterFile)
    (reprocess : bool) : result (list string * Loaded) :=
  match reprocess, reg with
  | true, _ => Ok (all_files, Dict ∅)
  | false, RegAbsent => Ok (all_files, Dict ∅)
  | false, RegMalformed => Raise JSONDecodeError
  | false, RegJson register =>
      Ok (List.filter (fun file => negb (in_register file register)) all_files,
          Dict register)
  | false, RegOther v =>
      match rfilter (not_in v) all_files with
      | Ok files => Ok (files, NotDict v)
      | Raise e => Raise e
      end
  end.

(** ** Data model *)

(** A cell of the [date] column: text as read from a file, a time stamp
    (a day number), or pandas' [NaT]. *)
Inductive DateVal : Type :=
  | DStr (s : string)
  | DTs (d : Z)
  | DNaT.

(** What a column that is read as text can be: of dtype [object], of
    dtype [str] (the default for text from pandas 3 on), or, when no cell
    of it holds text, of a numeric dtype. *)
Inductive Dtype : Type := object_dtype | str_dtype | numeric_dtype.

(** A cell of a frame read from files: a missing value, text, or a number,
    held as the text of the field it was read from. *)
Inductive Cell : Type :=
  | Missing
  | Txt (s : string)
  | Num (s : string).

(** The field a cell was read from. *)
Definition cell_text (c : Cell) : option string :=
  match c with
  | Missing => None
  | Txt s | Num s => Some s
  end.

(** A cell of the [description] column: text, or a cell that holds no
    text (a missing value, or a number), with the dtype of its column,
    which decides how the cell answers the [.str] methods. *)
Inductive Description : Type :=
  | Text (s : string)
  | NoText (column : Dtype).

(** One row of the transaction table.  [recipient] is [None] for a missing
    value (NaN); [extras] holds the bank columns that are neither renamed
    nor dropped. *)
Record Transaction : Type := mkTransaction {
  date : DateVal;
  sender : string;
  recipient : option string;
  description : Description;
  amount : float;
  balance : float;
  is_recurring : bool;
  is_essential : bool;
  concept : string;
  extras : list (string * option string)
}.

(** A data frame with the default [RangeIndex]: row [i] has label [i]. *)
Abbreviation DataFrame := (list Transaction).

Definition set_date (d : DateVal) (t : Transaction) : Transaction :=
  mkTransaction d (sender t) (recipient t) (description t) (amount t)
    (balance t) (is_recurring t) (is_essential t) (concept t) (extras t).

Definition set_sender (s : string) (t : Transaction) : Transaction :=
  mkTransaction (date t) s (recipient t) (description t) (amount t)
    (balance t) (is_recurring t) (is_essential t) (concept t) (extras t).

Definition set_is_recurring (b : bool) (t : Transaction) : Transaction :=
  mkTransaction (date t) (sender t) (recipient t) (description t) (amount t)
    (balance t) b (is_essential t) (concept t) (extras t).

Definition set_is_essential (b : bool) (t : Transaction) : Transaction :=
  mkTransaction (date t) (sender t) (recipient t) (description t) (amount t)
    (balance t) (is_recurring t) b (concept t) (extras t).

Definition set_concept (c : string) (t : Transaction) : Transaction :=
  mkTransaction (date t) (sender t) (recipient t) (description t) (amount t)
    (balance t) (is_recurring t) (is_essential t) c (extras t).

Definition day_of (v : DateVal) : option Z :=
  match v with
  | DTs d => Some d
  | DStr _ | DNaT => None
  end.

(** ** Library behaviour the repository relies on *)

(** Parsers, case mapping, dtype inference and the SARIMAX estimator are
    library code; the pipeline is modelled over any implementation of
    them. *)
Class Backend : Type := {
  (** [pd.to_datetime] on one text cell, format inferred; [None]: raises. *)
  parse_datetime : string -> option Z;
  (** [pd.to_datetime(format='%d/%m/%Y', errors='coerce')] on one cell;
      [None]: [NaT]. *)
  parse_dmy : string -> option Z;
  (** [astype(float)] on one text cell; [None]: raises. *)
  parse_float : string -> option float;
  (** [SARIMAX(endog, ...).fit().get_forecast(steps)]: the predicted mean
      and the rows (lower, upper) of [conf_int(alpha=0.05)]. *)
  sarimax_forecast : list float -> nat -> result (list float * list (float * float));
  (** [str.lower], on all of Unicode. *)
  lower : string -> string;
  (** Lower-cased text holds no capital letter of ASCII. *)
  lower_no_capital : forall s, Str.no_capital (lower s) = true;
  (** [NaN | p] between a column of dtype [object] and a boolean column,
      as [Series.__or__] computes it. *)
  nan_or : bool -> bool;
  (** The dtype [read_csv] gives to a column of a file, from the fields of
      the column ([None]: an empty field): numeric when the fields read
      as numbers. *)
  column_dtype : list (option string) -> Dtype;
  (** The dtype [concat] gives to a column, from its dtype in each of the
      frames ([None]: the frame has no such column). *)
  concat_dtype : list (option Dtype) -> Dtype;
  (** The sort on one key is not stable: the place of the row labelled
      [i] among the rows whose key equals its own, given the keys of the
      column. *)
  tie_rank : list (option Z) -> nat -> nat
}.

(** ** Heap of frames and the monad of Python code *)

Abbreviation loc := positive.
Abbreviation Heap := (gmap positive (list Transaction)).

Definition Py (A : Type) : Type := Heap -> result A * Heap.

Definition py_ret {A} (a : A) : Py A := fun h => (Ok a, h).

Definition py_bind {A B} (m : Py A) (k : A -> Py B) : Py B :=
  fun h => match m h with
           | (Ok a, h') => k a h'
           | (Raise e, h') => (Raise e, h')
           end.

Declare Scope py_scope.
Delimit Scope py_scope with py.
Notation "'let*' x ':=' m 'in' k" := (py_bind m (fun x => k))
  (at level 10, x name, m at level 100, k at level 200) : py_scope.
Notation "m ';;;' k" := (py_bind m (fun _ => k))
  (at level 100, k at level 200, right associativity) : py_scope.

Definition py_lift {A} (r : result A) : Py A := fun h => (r, h).

(** Reading a variable bound to a frame. *)
Definition deref (l : loc) : Py DataFrame :=
  fun h => match h !! l with
           | Some df => (Ok df, h)
           | None => (Raise KeyError, h)
           end.

(** In-place mutation of the frame at [l]. *)
Definition mutate (l : loc) (f : DataFrame -> DataFrame) : Py unit :=
  fun h => match h !! l with
           | Some df => (Ok tt, <[l := f df]> h)
           | None => (Raise KeyError, h)
           end.

(** [df.copy()]: a new frame with the same rows. *)
Definition copy (l : loc) : Py loc :=
  fun h => match h !! l with
           | Some df => let l' := fresh (dom h) in (Ok l', <[l' := df]> h)
           | None => (Raise KeyError, h)
           end.

(** [for x in xs: body(x)] *)
Fixpoint py_for {A} (xs : list A) (body : A -> Py unit) : Py unit :=
  match xs with
  | [] => py_ret tt
  | x :: xs' => py_bind (body x) (fun _ => py_for xs' body)
  end.

(** ** RecurrenceDetector ([flag_recurring]) *)

(** A row together with its index label. *)
Abbreviation IRow := (nat * Transaction)%type.

Definition indexed (rows : DataFrame) : list IRow :=
  combine (seq 0 (length rows)) rows.

Definition marker : string := "european direct debit creditor".

Section WithBackend.
Context `{Backend}.

(** The [.str] accessor: a column of a numeric dtype has none. *)
Definition str_accessor (rows : DataFrame) : result unit :=
  if existsb (fun t => match description t with
                       | NoText numeric_dtype => true
                       | _ => false
                       end) rows
  then Raise AttributeError
  else Ok tt.

(** [.str.lower().str.<test>(...)] on one cell: a cell without text
    answers NaN ([None]) in a column of dtype [object] and [False] in a
    column of dtype [str]. *)
Definition str_test (test : string -> bool) (d : Description) : option bool :=
  match d with
  | Text s => Some (test (lower s))
  | NoText str_dtype => Some false
  | NoText _ => None
  end.

(** [df['description'].str.lower().str.startswith(marker)] *)
Definition base_flag (rows : DataFrame) : list (option bool) :=
  List.map (fun t => str_test (Str.startswith marker) (description t)) rows.

End WithBackend.

(** Missing values sort last ([na_position='last']). *)
Definition opt_compare {A} (cmp : A -> A -> comparison) (a b : option A) : comparison :=
  match a, b with
  | Some x, Some y => cmp x y
  | Some _, None => Lt
  | None, Some _ => Gt
  | None, None => Eq
  end.

(** The key order of [sort_values(['recipient', 'date'])]. *)
Definition sort_compare (a b : Transaction) : comparison :=
  match opt_compare String.compare (recipient a) (recipient b) with
  | Eq => opt_compare Z.compare (day_of (date a)) (day_of (date b))
  | c => c
  end.

Definition le_of (c : comparison) : bool :=
  match c with Gt => false | _ => true end.

(** Stable insertion sort: [x], which comes before the rows of [l] in the
    frame, goes before the rows it ties with. *)
Fixpoint insert_by {A} (le : A -> A -> bool) (x : A) (l : list A) : list A :=
  match l with
  | [] => [x]
  | y :: l' => if le x y then x :: y :: l' else y :: insert_by le x l'
  end.

Definition sort_by {A} (le : A -> A -> bool) (l : list A) : list A :=
  fold_right (insert_by le) [] l.

Definition recipient_date_le (a b : IRow) : bool :=
  le_of (sort_compare (snd a) (snd b)).

(** [df.sort_values(['recipient', 'date'])], index labels kept; a sort on
    two keys goes through [lexsort], which is stable. *)
Definition df_sorted (rows : DataFrame) : list IRow :=
  sort_by recipient_date_le (indexed rows).

(** Group membership of [groupby('recipient')]: rows whose recipient is
    missing belong to no group. *)
Definition same_recipient (a b : Transaction) : bool :=
  match recipient a, recipient b with
  | Some x, Some y => String.eqb x y
  | _, _ => false
  end.

(** [groupby('recipient')['date'].shift(1)]: for each row of the frame, in
    frame order, the date of the latest earlier row of its group; [before]
    holds the rows already passed, latest first. *)
Fixpoint groupby_shift (before rows : list IRow) : list (nat * option Z) :=
  match rows with
  | [] => []
  | x :: rest =>
      (fst x,
       match List.find (fun y => same_recipient (snd y) (snd x)) before with
       | Some y => day_of (date (snd y))
       | None => None
       end) :: groupby_shift (x :: before) rest
  end.

Definition prev_dates (sorted : list IRow) : list (nat * option Z) :=
  groupby_shift [] sorted.

(** [(df_sorted['date'] - prev_dates).dt.days]; [None] is NaN. *)
Definition days_diff (sorted : list IRow) : list (nat * option Z) :=
  List.map (fun '((i, t), (_, prev)) =>
              (i, match day_of (date t), prev with
                  | Some d, Some p => Some (d - p)
                  | _, _ => None
                  end))
           (combine sorted (prev_dates sorted)).

(** [Series.between(left, right)], both ends included; NaN is not between. *)
Definition between (left right : Z) (v : option Z) : bool :=
  match v with
  | Some n => (left <=? n) && (n <=? right)
  | None => false
  end.

Definition periodic_flag (sorted : list IRow) : list (nat * bool) :=
  List.map (fun '(i, dd) => (i, between 27 33 dd)) (days_diff sorted).

Section WithBackend.
Context `{Backend}.

(** [base | p] on one label. *)
Definition or_flag (base : option bool) (p : bool) : bool :=
  match base with
  | Some b => b || p
  | None => nan_or p
  end.

(** [is_recurring.loc[idx] = is_recurring.loc[idx] | periodic_flag]: the
    right-hand side is computed in full, then stored label by label. *)
Definition restore_order (base : list (option bool)) (periodic : list (nat * bool))
    : list (option bool) :=
  let rhs := List.map (fun '(i, p) => (i, Some (or_flag (nth i base None) p))) periodic in
  fold_left (fun acc '(i, v) => <[i := v]> acc) rhs base.

(** The computation of [flag_recurring] once the copy's dates are parsed
    and the accessor is found.  Every label has been stored under, so the
    series holds booleans only. *)
Definition recurring_flags (rows : DataFrame) : list bool :=
  List.map (fun v => match v with Some b => b | None => false end)
           (restore_order (base_flag rows) (periodic_flag (df_sorted rows))).

(** [pd.to_datetime] on one cell of a column. *)
Definition to_datetime (v : DateVal) : result DateVal :=
  match v with
  | DStr s => match parse_datetime s with
              | Some d => Ok (DTs d)
              | None => Raise ValueError
              end
  | DTs d => Ok (DTs d)
  | DNaT => Ok DNaT
  end.

(** [df['date'] = pd.to_datetime(df['date'])] on the rows of a frame. *)
Definition parse_date_column (rows : DataFrame) : result DataFrame :=
  rmapM (fun t => match to_datetime (date t) with
                  | Ok d => Ok (set_date d t)
                  | Raise e => Raise e
                  end) rows.

Local Open Scope py_scope.

(** [flag_recurring(df)]: [df] is the location of the caller's frame. *)
Definition flag_recurring (df : loc) : Py (list bool) :=
  let* df := copy df in
  let* rows := deref df in
  let* parsed := py_lift (parse_date_column rows) in
  mutate df (fun _ => parsed) ;;;
  let* rows := deref df in
  py_lift (str_accessor rows) ;;;
  py_ret (recurring_flags rows).

End WithBackend.

(** ** Sorting on one key ([sort_values(by='date')], [sort_index()]) *)

Section WithBackend.
Context `{Backend}.

(** The order [nargsort] leaves the labels in, with the default
    [kind='quicksort'] and [na_position='last']: by key; labels without
    a key last, in frame order; labels with the same key by
    [tie_rank]. *)
Definition key_rank_le (keys : list (option Z)) (a b : nat) : bool :=
  match opt_compare Z.compare (nth a keys None) (nth b keys None) with
  | Lt => true
  | Gt => false
  | Eq => match nth a keys None with
          | Some _ => (tie_rank keys a <=? tie_rank keys b)%nat
          | None => true
          end
  end.

Definition nargsort (keys : list (option Z)) : list nat :=
  sort_by (key_rank_le keys) (seq 0 (length keys)).

End WithBackend.

(** [take(indexer)]: the rows at the labels of [order]. *)
Definition take_rows {A} (order : list nat) (rows : list A) : list A :=
  omap (fun i => rows !! i) order.

(** The [date] column as sort keys: [NaT] is a missing key. *)
Definition date_keys (rows : DataFrame) : list (option Z) :=
  List.map (fun t => day_of (date t)) rows.

(** ** CategoryRuleEngine ([apply_fixed_rules]) *)

Record Rule : Type := mkRule {
  rule_concept : string;
  keywords : list string;
  rule_is_essential : bool
}.

(** The [fixed_rules] dictionary, in insertion order. *)
Definition fixed_rules : list Rule :=
  [ mkRule "Salary" ["arhs"] true;
    mkRule "Rent" ["despes"] true;
    mkRule "Groceries" ["delhaize"; "carrefour"; "crf exp"; "finest globe belliard"] true;
    mkRule "Insurance" ["FMSB-FSMB"] true;
    mkRule "Savings" ["estalvis"] true;
    mkRule "Grooming" ["sportoase"; "xxl nutrition"; "apotheek"; "knapper"] true;
    mkRule "Transport" ["stib"; "sncb"; "nmbs"; "bahn"] true;
    mkRule "Cantine" ["cantine"] false;
    mkRule "Subscriptions" ["kbc plus"] false ].

(** [df[col] = series]: the value of label [i] goes to row [i]. *)
Definition assign_is_recurring (flags : list bool) (rows : DataFrame) : DataFrame :=
  imap (fun i t => set_is_recurring (nth i flags false) t) rows.

(** [df.loc[mask, col] = value] *)
Definition assign_where (mask : list bool) (f : Transaction -> Transaction)
    (rows : DataFrame) : DataFrame :=
  imap (fun i t => if nth i mask false then f t else t) rows.

(** The values of a boolean mask; there are none when the mask holds
    NaN. *)
Fixpoint bool_mask (mask : list (option bool)) : option (list bool) :=
  match mask with
  | [] => Some []
  | Some b :: rest => option_map (cons b) (bool_mask rest)
  | None :: _ => None
  end.

(** [df.loc[mask, col] = value]: a mask that holds NaN is refused. *)
Definition loc_assign (df : loc) (mask : list (option bool))
    (f : Transaction -> Transaction) : Py unit :=
  match bool_mask mask with
  | Some m => mutate df (assign_where m f)
  | None => py_lift (Raise ValueError)
  end.

Section WithBackend.
Context `{Backend}.
Local Open Scope py_scope.

(** [df['description'].str.lower().str.contains(pattern)] *)
Definition contains_mask (pattern : string) (rows : DataFrame) : list (option bool) :=
  List.map (fun t => str_test (Str.re_search pattern) (description t)) rows.

Definition apply_rule (df : loc) (r : Rule) : Py unit :=
  let pattern := Str.join "|" (keywords r) in
  let* rows := deref df in
  py_lift (str_accessor rows) ;;;
  let mask := contains_mask pattern rows in
  loc_assign df mask (set_concept (rule_concept r)) ;;;
  loc_assign df mask (set_is_essential (rule_is_essential r)).

(** [apply_fixed_rules(df)]: mutates the frame at [df]. *)
Definition apply_fixed_rules (df : loc) : Py unit :=
  let* flags := flag_recurring df in
  mutate df (assign_is_recurring flags) ;;;
  mutate df (List.map (set_is_essential false)) ;;;
  mutate df (List.map (set_concept "Others")) ;;;
  py_for fixed_rules (apply_rule df).

End WithBackend.

(** ** StatementNormalizer: reading the batch *)

(** A raw statement file: the names [read_csv] gives its columns, one for
    each field of the header line, and the fields of each later line
    ([None]: an empty field, read as NaN). *)
Record RawFile : Type := mkRawFile {
  header : list string;
  body : list (list (option string))
}.

(** A frame as [read_csv] returns it: the names of its columns, their
    dtypes, and the cells of its lines. *)
Record RawFrame : Type := mkRawFrame {
  columns : list string;
  dtypes : list Dtype;
  cells : list (list Cell)
}.

(** The first [n] fields of a line, short lines filled with NaN. *)
Definition usecols (n : nat) (line : list (option string)) : list (option string) :=
  (firstn n line ++ repeat None (n - length line))%list.

(** The cell read from a field of a column of dtype [dtype]. *)
Definition read_cell (dtype : Dtype) (c : option string) : Cell :=
  match c with
  | None => Missing
  | Some s => match dtype with
              | numeric_dtype => Num s
              | _ => Txt s
              end
  end.

Fixpoint index_of (c : string) (cols : list string) : option nat :=
  match cols with
  | [] => None
  | c' :: rest => if String.eqb c c' then Some 0%nat
                  else option_map S (index_of c rest)
  end.

(** [frame[c]] on one line of the frame; NaN when the frame has no such
    column. *)
Definition cell (cols : list string) (line : list Cell) (c : string) : Cell :=
  match index_of c cols with
  | Some k => nth k line Missing
  | None => Missing
  end.

Definition has_column (cols : list string) (c : string) : bool :=
  existsb (String.eqb c) cols.

(** [frame[c].dtype] *)
Definition dtype_of (fr : RawFrame) (c : string) : Dtype :=
  match index_of c (columns fr) with
  | Some k => nth k (dtypes fr) object_dtype
  | None => object_dtype
  end.

(** Column names in order of first appearance. *)
Fixpoint union_columns (seen : list string) (frames : list RawFrame) : list string :=
  match frames with
  | [] => seen
  | fr :: rest =>
      union_columns
        (fold_left (fun acc c => if existsb (String.eqb c) acc then acc else (acc ++ [c])%list)
                   (columns fr) seen)
        rest
  end.

Section WithBackend.
Context `{Backend}.

(** What [read_csv] makes of a file with at least [n] columns: each of the
    first [n] columns is typed from its fields. *)
Definition frame_of (n : nat) (f : RawFile) : RawFrame :=
  let lines := List.map (usecols n) (body f) in
  let dts := List.map (fun i => column_dtype (List.map (fun line => nth i line None) lines))
                      (seq 0 n) in
  mkRawFrame (firstn n (header f)) dts
    (List.map (fun line => List.map (fun dc => read_cell (fst dc) (snd dc)) (combine dts line))
              lines).

(** [pd.read_csv(file, sep=';', usecols=range(ncols), index_col=False)] *)
Definition read_csv (ncols : nat) (f : RawFile) : result RawFrame :=
  if (length (header f) <? ncols)%nat then Raise ValueError
  else Ok (frame_of ncols f).

(** [pd.concat(frames, ignore_index=True)] *)
Definition concat_frames (frames : list RawFrame) : result RawFrame :=
  match frames with
  | [] => Raise ValueError
  | _ =>
      let cols := union_columns [] frames in
      Ok (mkRawFrame cols
            (List.map (fun c => concat_dtype
                                  (List.map (fun fr => if has_column (columns fr) c
                                                       then Some (dtype_of fr c)
                                                       else None) frames))
                      cols)
            (List.concat
               (List.map (fun fr => List.map (fun line => List.map (cell (columns fr) line) cols)
                                             (cells fr))
                         frames)))
  end.

End WithBackend.

(** An entry of the raw directory: a file, or a sub-directory
    ([os.listdir] lists both). *)
Inductive RawEntry : Type :=
  | File (f : RawFile)
  | Directory.

(** The raw directory: the names in [os.listdir] order with what they
    name. *)
Abbreviation RawDir := (list (string * RawEntry)).

(** Opening [name] for reading. *)
Fixpoint open_raw (dir : RawDir) (name : string) : result RawFile :=
  match dir with
  | [] => Raise FileNotFoundError
  | (n, entry) :: rest =>
      if String.eqb n name
      then match entry with
           | File f => Ok f
           | Directory => Raise IsADirectoryError
           end
      else open_raw rest name
  end.

(** Lines 61 to 66 of [preprocessing]: the column count of the first
    pending file, then every pending file named [*.csv] read with that
    count and the frames concatenated. *)
Definition header_ncols (dir : RawDir) (files : list string) : result nat :=
  match files with
  | [] => Raise IndexError
  | first :: _ =>
      match open_raw dir first with
      | Ok f => Ok (length (header f))
      | Raise e => Raise e
      end
  end.

Definition csv_files (files : list string) : list string :=
  List.filter (Str.endswith ".csv") files.

Section WithBackend.
Context `{Backend}.

Definition read_batch (dir : RawDir) (files : list string) : result RawFrame :=
  match header_ncols dir files with
  | Raise e => Raise e
  | Ok ncols =>
      match rmapM (fun file => match open_raw dir file with
                               | Ok f => read_csv ncols f
                               | Raise e => Raise e
                               end) (csv_files files) with
      | Raise e => Raise e
      | Ok frames => concat_frames frames
      end
  end.

End WithBackend.

(** The name ends in [.csv]. *)
Definition csv_name (name : string) : Prop := exists stem, name = stem ++ ".csv".

(** What a batch with the columns [cols] keeps of a line of the file [f]
    when [n] columns are used: under a column named by one of the first
    [n] fields of the header of [f], the cell read from the field of the
    line at the first such position (NaN when the line is shorter); under
    any other column, NaN. *)
Definition kept_line (n : nat) (f : RawFile) (cols : list string)
    (line : list (option string)) (row : list Cell) : Prop :=
  length row = length cols
  /\ forall k c, nth_error cols k = Some c ->
       (forall i, (i < n)%nat -> nth_error (header f) i = Some c ->
                  (forall i', (i' < i)%nat -> nth_error (header f) i' <> Some c) ->
                  exists x, nth_error row k = Some x /\ cell_text x = nth i line None)
       /\ ((forall i, (i < n)%nat -> nth_error (header f) i <> Some c) ->
           nth_error row k = Some Missing).

(** ** StatementNormalizer: from text cells to transactions *)

(** [df.rename(columns={...})] *)
Definition rename_column (c : string) : string :=
  if String.eqb c "Accountnumber" then "sender"
  else if String.eqb c "Counterparty account number" then "recipient"
  else c.

Definition dropped_columns : list string :=
  [ "Heading"; "Name"; "Currency"; "Value date"; "Credit"; "Debit";
    "Counterparty BIC"; "Counterparty name"; "Counterparty address";
    "Standard-format reference"; "Free-format reference" ].

(** The entries of [line] at the positions where [keep] is true. *)
Fixpoint select {A} (keep : list bool) (line : list A) : list A :=
  match keep, line with
  | k :: keep', x :: line' => if k then x :: select keep' line' else select keep' line'
  | _, _ => []
  end.

(** A column of the frame, as the cells of its lines. *)
Definition column (fr : RawFrame) (c : string) : list Cell :=
  List.map (fun line => cell (columns fr) line c) (cells fr).

Definition required_columns : list string :=
  [ "date"; "amount"; "balance"; "description"; "recipient"; "sender" ].

(** Ascending order of date, [NaT] last. *)
Definition date_le (a b : Transaction) : bool :=
  le_of (opt_compare Z.compare (day_of (date a)) (day_of (date b))).

(** The [sender_mapping] dictionary: a key given twice keeps its first
    position and its last value. *)
Definition sender_mapping (general savings : option string)
    : list (option string * string) :=
  if bool_decide (general = savings) then [(general, "Savings")]
  else [(general, "General"); (savings, "Savings")].

(** [replace_sender(value)]; [str.endswith(None)] raises. *)
Fixpoint replace_sender (mapping : list (option string * string)) (value : string)
    : result string :=
  match mapping with
  | [] => Ok value
  | (None, _) :: _ => Raise TypeError
  | (Some suffix, replacement) :: rest =>
      if Str.endswith suffix value then Ok replacement
      else replace_sender rest value
  end.

Section WithBackend.
Context `{Backend}.

(** [col.lower().replace(' ', '_')] *)
Definition normalize_name (c : string) : string :=
  Str.replace " "%char "_"%char (lower c).

(** Lines 67 to 84: rename, drop (absent columns ignored), normalise the
    names. *)
Definition clean_columns (fr : RawFrame) : RawFrame :=
  let renamed := List.map rename_column (columns fr) in
  let keep := List.map (fun c => negb (existsb (String.eqb c) dropped_columns)) renamed in
  mkRawFrame (List.map normalize_name (select keep renamed))
             (select keep (dtypes fr))
             (List.map (select keep) (cells fr)).

(** [pd.to_datetime(..., format='%d/%m/%Y', errors='coerce')] on one
    cell: what is no text of that format becomes [NaT]. *)
Definition coerce_date (c : Cell) : DateVal :=
  match c with
  | Txt s => match parse_dmy s with
             | Some d => DTs d
             | None => DNaT
             end
  | Missing | Num _ => DNaT
  end.

(** [.str.replace(',', '.').astype(float)] on one cell of a column that
    has the accessor: [.str.replace] gives NaN for a cell that is no
    text. *)
Definition decimal (c : Cell) : result float :=
  match c with
  | Txt s => match parse_float (Str.replace ","%char "."%char s) with
             | Some x => Ok x
             | None => Raise ValueError
             end
  | Missing | Num _ => Ok nan
  end.

(** [df[c].str.replace(',', '.').astype(float)] on a column of dtype
    [dtype]: a column of a numeric dtype has no [.str]. *)
Definition float_column (dtype : Dtype) (col : list Cell) : result (list float) :=
  match dtype with
  | numeric_dtype => Raise AttributeError
  | _ => rmapM decimal col
  end.

(** A cell of the description column of dtype [dtype]: a number in a
    column of dtype [object] answers the [.str] methods as a missing
    value does. *)
Definition typed_description (dtype : Dtype) (c : Cell) : Description :=
  match dtype, c with
  | numeric_dtype, _ => NoText numeric_dtype
  | _, Txt s => Text s
  | _, Missing => NoText dtype
  | _, Num _ => NoText object_dtype
  end.

(** One line of the cleaned frame as a transaction, not yet annotated,
    with its amount [a] and balance [b].  A sender that is no text has no
    [endswith] (line 99). *)
Definition typed_row (cols : list string) (dtype : Dtype)
    (line : list Cell) (a b : float) : result Transaction :=
  s ← match cell cols line "sender" with
      | Txt s => Ok s
      | Missing | Num _ => Raise AttributeError
      end;
  let keep := List.map (fun c => negb (has_column required_columns c)) cols in
  Ok (mkTransaction (coerce_date (cell cols line "date")) s
        (cell_text (cell cols line "recipient"))
        (typed_description dtype (cell cols line "description")) a b
        false false "Others"
        (combine (select keep cols) (List.map cell_text (select keep line)))).

(** Lines 85, 87 and 88, and the reading of the text columns: the amount
    column is converted first, then the balance column.  The checks that
    each required column is there and that every sender is text are made
    here, ahead of the annotation (the code makes them where the column
    is first read): the frame is built exactly when the code builds it,
    and a run in which two lines would raise may be given the exception
    of the later one. *)
Definition typed_frame (fr : RawFrame) : result DataFrame :=
  if forallb (has_column (columns fr)) required_columns
  then
    amounts ← float_column (dtype_of fr "amount") (column fr "amount");
    balances ← float_column (dtype_of fr "balance") (column fr "balance");
    let dtype := dtype_of fr "description" in
    rmapM (fun row => typed_row (columns fr) dtype (fst row) (fst (snd row)) (snd (snd row)))
          (combine (cells fr) (combine amounts balances))
  else Raise KeyError.

(** Line 86: [df.sort_values(by='date').reset_index(drop=True)]. *)
Definition sort_values_date (rows : DataFrame) : DataFrame :=
  take_rows (nargsort (date_keys rows)) rows.

(** [apply_fixed_rules] run on a frame held by the caller alone. *)
Definition annotate (rows : DataFrame) : result DataFrame :=
  let df : loc := 1%positive in
  match apply_fixed_rules df {[ df := rows ]} with
  | (Ok _, h) => match h !! df with
                 | Some rows' => Ok rows'
                 | None => Raise KeyError
                 end
  | (Raise e, _) => Raise e
  end.

(** Lines 61 to 99 of [preprocessing]: the new batch [df]. *)
Definition new_batch (dir : RawDir) (files : list string)
    (general savings : option string) : result DataFrame :=
  raw ← read_batch dir files;
  typed ← typed_frame (clean_columns raw);
  annotated ← annotate (sort_values_date typed);
  rmapM (fun t => match replace_sender (sender_mapping general savings) (sender t) with
                  | Ok s => Ok (set_sender s t)
                  | Raise e => Raise e
                  end) annotated.

End WithBackend.

(** ** TransactionStore and the ingestion run ([load], [preprocessing]) *)

(** The files and the environment the ingestion reads and writes.  A file
    holds the rows written to it (the CSV and JSON text codecs are not
    modelled).  [now k] is the [k]-th reading of the clock in a run. *)
Record World : Type := mkWorld {
  raw_dir : RawDir;
  register_file : RegisterFile;
  transactions_file : option DataFrame;
  general_ending : option string;
  savings_ending : option string;
  now : nat -> string
}.

Definition write_transactions (rows : DataFrame) (w : World) : World :=
  mkWorld (raw_dir w) (register_file w) (Some rows)
          (general_ending w) (savings_ending w) (now w).

Definition write_register (r : Register) (w : World) : World :=
  mkWorld (raw_dir w) (RegJson r) (transactions_file w)
          (general_ending w) (savings_ending w) (now w).

(** Lines 107 to 110: [register[file] = {"timestamp": now()}] for every
    pending file. *)
Fixpoint mark_processed (clock : nat -> string) (k : nat) (files : list string)
    (register : Register) : Register :=
  match files with
  | [] => register
  | file :: rest => mark_processed clock (S k) rest (<[file := clock k]> register)
  end.

Section WithBackend.
Context `{Backend}.

(** [load()] *)
Definition load (w : World) : result DataFrame :=
  match transactions_file w with
  | None => Raise FileNotFoundError
  | Some rows =>
      parsed ← parse_date_column rows;
      Ok (List.filter (fun t => String.eqb (sender t) "General") parsed)
  end.

(** [preprocessing(reprocess)]: the outcome and the files afterwards. *)
Definition preprocessing (reprocess : bool) (w : World) : result unit * World :=
  match get_files (List.map fst (raw_dir w)) (register_file w) reprocess with
  | Raise e => (Raise e, w)
  | Ok ([], _) => (Ok tt, w)
  | Ok (files, register) =>
      match new_batch (raw_dir w) files (general_ending w) (savings_ending w) with
      | Raise e => (Raise e, w)
      | Ok df =>
          if reprocess then
            let w1 := write_transactions df w in
            (Ok tt, write_register (mark_processed (now w) 0 files ∅) w1)
          else
            match load w with
            | Raise e => (Raise e, w)
            | Ok transactions =>
                let w1 := write_transactions (transactions ++ df)%list w in
                match register with
                | Dict r =>
                    (Ok tt, write_register (mark_processed (now w) 0 files r) w1)
                | NotDict _ => (Raise TypeError, w1)   (* [register[file] = ...] *)
                end
            end
      end
  end.

End WithBackend.

(** ** Calendar arithmetic on day numbers *)

Module Calendar.

(** Day number of the civil date [y]-[m]-[d] (proleptic Gregorian,
    1970-01-01 is day 0). *)
Definition days_from_civil (y m d : Z) : Z :=
  let y' := if m <=? 2 then y - 1 else y in
  let era := y' / 400 in
  let yoe := y' - era * 400 in
  let mp := if m >? 2 then m - 3 else m + 9 in
  let doy := (153 * mp + 2) / 5 + d - 1 in
  let doe := yoe * 365 + yoe / 4 - yoe / 100 + doy in
  era * 146097 + doe - 719468.

Definition civil_from_days (z : Z) : Z * Z * Z :=
  let z' := z + 719468 in
  let era := z' / 146097 in
  let doe := z' - era * 146097 in
  let yoe := (doe - doe / 1460 + doe / 36524 - doe / 146096) / 365 in
  let doy := doe - (365 * yoe + yoe / 4 - yoe / 100) in
  let mp := (5 * doy + 2) / 153 in
  let d := doy - (153 * mp + 2) / 5 + 1 in
  let m := if mp <? 10 then mp + 3 else mp - 9 in
  let y := yoe + era * 400 + (if m <=? 2 then 1 else 0) in
  (y, m, d).

(** Months counted from year 0. *)
Definition month_index (z : Z) : Z :=
  let '(y, m, _) := civil_from_days z in y * 12 + (m - 1).

Definition month_start (k : Z) : Z := days_from_civil (k / 12) (k mod 12 + 1) 1.

Definition month_end (k : Z) : Z := month_start (k + 1) - 1.

End Calendar.

(** ** Regular date grids ([pd.date_range]) *)

(** The frequency strings modelled: ['D'], ['ME'] and ['MS']. *)
Inductive Frequency : Type := Daily | MonthEnd | MonthStart.

(** [offset.rollforward(d)]: the first anchor at or after [d]. *)
Definition rollforward (f : Frequency) (d : Z) : Z :=
  let k := Calendar.month_index d in
  match f with
  | Daily => d
  | MonthEnd => Calendar.month_end k
  | MonthStart => if d =? Calendar.month_start k then d else Calendar.month_start (k + 1)
  end.

(** [offset.rollback(d)]: the last anchor at or before [d]. *)
Definition rollback (f : Frequency) (d : Z) : Z :=
  let k := Calendar.month_index d in
  match f with
  | Daily => d
  | MonthEnd => if d =? Calendar.month_end k then d else Calendar.month_end (k - 1)
  | MonthStart => Calendar.month_start k
  end.

(** [d + to_offset(freq)]: the first anchor after [d]. *)
Definition add_offset (f : Frequency) (d : Z) : Z :=
  let k := Calendar.month_index d in
  match f with
  | Daily => d + 1
  | MonthEnd => if d =? Calendar.month_end k then Calendar.month_end (k + 1)
                else Calendar.month_end k
  | MonthStart => Calendar.month_start (k + 1)
  end.

Fixpoint range_until (f : Frequency) (fuel : nat) (cur stop : Z) : list Z :=
  match fuel with
  | O => []
  | S n => if cur <=? stop then cur :: range_until f n (add_offset f cur) stop else []
  end.

(** [pd.date_range(start=start, end=stop, freq=f)].  An anchor is at least
    a day after the one before, so [stop - start + 1] steps reach [stop]. *)
Definition date_range (f : Frequency) (start stop : Z) : list Z :=
  let s := rollforward f start in
  let e := rollback f stop in
  range_until f (Z.to_nat (e - s + 1)) s e.

(** [pd.date_range(start, periods=n, freq=f)] *)
Fixpoint range_periods (f : Frequency) (n : nat) (cur : Z) : list Z :=
  match n with
  | O => []
  | S k => cur :: range_periods f k (add_offset f cur)
  end.

Definition date_range_periods (f : Frequency) (start : Z) (periods : nat) : list Z :=
  range_periods f periods (rollforward f start).

(** ** ForecastEngine ([sarima]) *)

(** A series of floats indexed by dates, in index order. *)
Abbreviation Series := (list (Z * float)).

Record ForecastResult : Type := mkForecastResult {
  daily : Series;
  daily_ci : list (Z * (float * float));
  cumulative : Series;
  cumulative_ci : list (Z * (float * float));
  observed_cumulative : Series;
  frequency : Frequency
}.

(** One step of [groupby(index).last()] over the sorted series: [acc] holds
    the groups met so far, latest first.  [last] takes the last value of a
    group that is not NaN; rows labelled [NaT] belong to no group. *)
Definition last_step (acc : Series) (row : option Z * float) : Series :=
  match row with
  | (None, _) => acc
  | (Some k, v) =>
      match acc with
      | (k', v') :: acc' =>
          if k =? k' then (k, if is_nan v then v' else v) :: acc'
          else (k, v) :: acc
      | [] => [(k, v)]
      end
  end.

Definition groupby_last (s : list (option Z * float)) : Series :=
  List.rev (fold_left last_step s []).

(** [series.reindex(grid)]: the value at each label of [grid], NaN where
    the series has no such label. *)
Definition reindex (s : Series) (grid : list Z) : Series :=
  List.map (fun g => (g, match List.find (fun kv => fst kv =? g) s with
                         | Some (_, v) => v
                         | None => nan
                         end)) grid.

(** [series.ffill()]; [prev] is the last value seen that is not NaN. *)
Fixpoint ffill_from (prev : float) (s : Series) : Series :=
  match s with
  | [] => []
  | (g, v) :: rest =>
      let v' := if is_nan v then prev else v in
      (g, v') :: ffill_from v' rest
  end.

Definition ffill (s : Series) : Series := ffill_from nan s.

Definition fillna (x : float) (s : Series) : Series :=
  List.map (fun '(g, v) => (g, if is_nan v then x else v)) s.

Fixpoint diff_from (prev : float) (s : Series) : Series :=
  match s with
  | [] => []
  | (g, v) :: rest => (g, (v - prev)%float) :: diff_from v rest
  end.

(** [series.diff()] *)
Definition diff (s : Series) : Series :=
  match s with
  | [] => []
  | (g, v) :: rest => (g, nan) :: diff_from v rest
  end.

(** [series.cumsum()]: NaN entries are skipped and stay NaN. *)
Fixpoint cumsum_from (acc : float) (xs : list float) : list float :=
  match xs with
  | [] => []
  | x :: rest =>
      if is_nan x then x :: cumsum_from acc rest
      else let acc' := (acc + x)%float in acc' :: cumsum_from acc' rest
  end.

Definition cumsum (xs : list float) : list float := cumsum_from 0%float xs.

Section WithBackend.
Context `{Backend}.

(** [df.set_index('date')['balance'].sort_index()] on the frame [load]
    returns, whose dates are time stamps or [NaT]: [NaT] labels last. *)
Definition balance_sorted (data : DataFrame) : list (option Z * float) :=
  take_rows (nargsort (date_keys data))
            (List.map (fun t => (day_of (date t), balance t)) data).

(** Lines 53 to 59: the observed cumulative series. *)
Definition observe (f : Frequency) (data : DataFrame) : result Series :=
  let balance := groupby_last (balance_sorted data) in
  match balance, List.last (List.map Some balance) None with
  | (first, _) :: _, Some (last, _) =>
      let full_index := date_range f first last in
      Ok (fillna 0%float (ffill (reindex balance full_index)))
  | _, _ => Raise ValueError      (* [date_range] on [NaT] bounds *)
  end.

(** [sarima(data, forecast_horizon, ..., frequency)].  The model orders
    only reach the estimator. *)
Definition sarima (data : DataFrame) (forecast_horizon : nat)
    (freq : Frequency) : result ForecastResult :=
  observed ← observe freq data;
  iloc0 ← match observed with
          | (_, v) :: _ => Ok v
          | [] => Raise IndexError
          end;
  let period_amounts := fillna iloc0 (diff observed) in
  last_obs ← match List.last (List.map Some observed) None with
             | Some (d, _) => Ok d
             | None => Raise IndexError
             end;
  let forecast_index :=
    date_range_periods freq (add_offset freq last_obs) forecast_horizon in
  pred ← sarimax_forecast (List.map snd period_amounts) forecast_horizon;
  let '(mean, ci) := pred in
  if negb ((length mean =? length forecast_index)%nat
           && (length ci =? length forecast_index)%nat)
  then Raise ValueError      (* index of another length *)
  else
    let last_cum := match List.last (List.map Some observed) None with
                    | Some (_, v) => v
                    | None => 0%float
                    end in
    let shift := List.map (fun c => (last_cum + c)%float) in
    let cum_forecast := shift (cumsum mean) in
    let cum_lower := shift (cumsum (List.map fst ci)) in
    let cum_upper := shift (cumsum (List.map snd ci)) in
    Ok (mkForecastResult
          (combine forecast_index mean)
          (combine forecast_index ci)
          (combine forecast_index cum_forecast)
          (combine forecast_index (combine cum_lower cum_upper))
          observed
          freq).

End WithBackend.

(** ** Recurrence, group by group *)

(** The second rule as the specification words it: the transactions of a
    recipient form a group, each group is sorted by date, and a
    transaction is compared with the one before it in its group. *)

Definition date_only_le (a b : IRow) : bool := date_le (snd a) (snd b).

(** The rows of the recipient of [t], with their labels, in frame order. *)
Definition group_of (rows : DataFrame) (t : Transaction) : list IRow :=
  List.filter (fun y => same_recipient (snd y) t) (indexed rows).

Definition sorted_group (rows : DataFrame) (t : Transaction) : list IRow :=
  sort_by date_only_le (group_of rows t).

(** The row just before the row labelled [i] in [g]; [prev] is the row
    passed last. *)
Fixpoint previous_in (prev : option IRow) (g : list IRow) (i : nat) : option IRow :=
  match g with
  | [] => None
  | x :: g' => if (fst x =? i)%nat then prev else previous_in (Some x) g' i
  end.

(** Days from the date of [p] to the date of [t]; [None] when there is no
    [p] or a date is missing. *)
Definition gap_days (t : Transaction) (p : option IRow) : option Z :=
  match p with
  | Some y => match day_of (date t), day_of (date (snd y)) with
              | Some d, Some q => Some (d - q)
              | _, _ => None
              end
  | None => None
  end.

Definition gap_to_previous (rows : DataFrame) (i : nat) (t : Transaction) : option Z :=
  gap_days t (previous_in None (sorted_group rows t) i).

Section WithBackend.
Context `{Backend}.

(** The description is text that, case-folded, starts with the marker
    phrase. *)
Definition starts_with_marker (t : Transaction) : bool :=
  match description t with
  | Text s => Str.startswith marker (lower s)
  | NoText _ => false
  end.

(** The flags for a window on the gap, row by row in frame order. *)
Definition flags_for (window : option Z -> bool) (rows : DataFrame) : list bool :=
  imap (fun i t => starts_with_marker t || window (gap_to_previous rows i t)) rows.

End WithBackend.


(** The last entry of [l], or [d] when [l] is empty. *)
Fixpoint last_or {A} (d : option A) (l : list A) : option A :=
  match l with
  | [] => d
  | x :: l' => last_or (Some x) l'
  end.

(** The entries of [periodic_flag]: one per row of the sorted frame, under
    the label of the row, computed from the latest earlier row of the same
    recipient. *)
Definition shifted (before rows : list IRow) : list (nat * bool) :=
  List.map (fun '(i, dd) => (i, between 27 33 dd))
    (List.map (fun '((i, t), (_, prev)) =>
                 (i, match day_of (date t), prev with
                     | Some d, Some p => Some (d - p)
                     | _, _ => None
                     end))
              (combine rows (groupby_shift before rows))).

(** A comparison that is a strict total order with [Eq] as equality. *)
Record Ordering {A} (cmp : A -> A -> comparison) : Prop := mkOrdering {
  cmp_eq : forall a b, cmp a b = Eq -> a = b;
  cmp_refl : forall a, cmp a a = Eq;
  cmp_antisym : forall a b, cmp a b = CompOpp (cmp b a);
  cmp_lt_trans : forall a b c, cmp a b = Lt -> cmp b c = Lt -> cmp a c = Lt
}.

(** Comparison of pairs, first component first. *)
Definition lex_compare {A B} (c1 : A -> A -> comparison) (c2 : B -> B -> comparison)
    (x y : A * B) : comparison :=
  match c1 (fst x) (fst y) with
  | Eq => c2 (snd x) (snd y)
  | c => c
  end.

(** The sort key of a row of [df_sorted]. *)
Definition sort_key (t : Transaction) : option string * option Z :=
  (recipient t, day_of (date t)).

(** ** The rule engine, row by row *)

Section WithBackend.
Context `{Backend}.

(** The description of [t] answers the [.str] tests with a boolean: it is
    text, or a missing value in a column of dtype [str]. *)
Definition answers (t : Transaction) : bool :=
  match description t with
  | Text _ | NoText str_dtype => true
  | NoText _ => false
  end.

(** A rule matches a transaction when the description is text that,
    case-folded, holds one of the rule's keywords as a substring. *)
Definition holds_keyword (r : Rule) (t : Transaction) : Prop :=
  exists k d pre post,
    In k (keywords r) /\ description t = Text d /\ lower d = (pre ++ k ++ post)%string.

Definition rule_matches (r : Rule) (t : Transaction) : bool :=
  match description t with
  | Text s => existsb (fun k => Str.contains k (lower s)) (keywords r)
  | NoText _ => false
  end.

(** The matching rule declared last. *)
Definition winning_rule (rules : list Rule) (t : Transaction) : option Rule :=
  List.find (fun r => rule_matches r t) (List.rev rules).

(** The annotated row: recurrence flag [b], category and essential flag of
    the winning rule, "Others" and false when no rule matches. *)
Definition categorized (rules : list Rule) (b : bool) (t : Transaction) : Transaction :=
  match winning_rule rules t with
  | Some r =>
      mkTransaction (date t) (sender t) (recipient t) (description t) (amount t)
        (balance t) b (rule_is_essential r) (rule_concept r) (extras t)
  | None =>
      mkTransaction (date t) (sender t) (recipient t) (description t) (amount t)
        (balance t) b false "Others" (extras t)
  end.

(** The row as [apply_fixed_rules] has it before the loop over the rules:
    the recurrence flag stored, essential flag and category reset. *)
Definition reset (b : bool) (t : Transaction) : Transaction :=
  set_concept "Others" (set_is_essential false (set_is_recurring b t)).

(** The mask of a pattern on one row, NaN read as no match. *)
Definition masked (pattern : string) (t : Transaction) : bool :=
  match str_test (Str.re_search pattern) (description t) with
  | Some b => b
  | None => false
  end.

(** What one pass of the loop of [apply_fixed_rules] does to one row, and
    to the rows of the frame, when the mask holds no NaN. *)
Definition rule_step (r : Rule) (t : Transaction) : Transaction :=
  if masked (Str.join "|" (keywords r)) t
  then set_is_essential (rule_is_essential r) (set_concept (rule_concept r) t)
  else t.

Definition apply_rule_rows (r : Rule) (rows : DataFrame) : DataFrame :=
  let mask := List.map (masked (Str.join "|" (keywords r))) rows in
  assign_where mask (set_is_essential (rule_is_essential r))
    (assign_where mask (set_concept (rule_concept r)) rows).

End WithBackend.

(** ** A reference backend

    Plain parsers for the formats the bank files use, and a persistence
    forecaster standing in for the estimator, to run the pipeline on
    concrete files. *)

Module Reference.

Definition digit_of (c : ascii) : option Z :=
  let n := Z.of_nat (nat_of_ascii c) in
  if (48 <=? n) && (n <=? 57) then Some (n - 48) else None.

Fixpoint number_acc (s : string) (acc : Z) : option Z :=
  match s with
  | EmptyString => Some acc
  | String c s' => match digit_of c with
                   | Some d => number_acc s' (10 * acc + d)
                   | None => None
                   end
  end.

Definition number (s : string) : option Z :=
  match s with
  | EmptyString => None
  | _ => number_acc s 0
  end.

(** The day number of a date that exists in the calendar. *)
Definition civil (y m d : Z) : option Z :=
  let z := Calendar.days_from_civil y m d in
  let '(y', m', d') := Calendar.civil_from_days z in
  if (y' =? y) && (m' =? m) && (d' =? d) then Some z else None.

(** [%d/%m/%Y]: day and month have one or two digits, the year four. *)
Definition dmy (s : string) : option Z :=
  match Str.split "/"%char s with
  | [d; m; y] => match number d, number m, number y with
                 | Some day, Some month, Some year =>
                     if (String.length d <=? 2)%nat && (String.length m <=? 2)%nat
                        && (String.length y =? 4)%nat
                     then civil year month day
                     else None
                 | _, _, _ => None
                 end
  | _ => None
  end.

Definition iso (s : string) : option Z :=
  match Str.split "-"%char s with
  | [y; m; d] => match number y, number m, number d with
                 | Some y, Some m, Some d => civil y m d
                 | _, _, _ => None
                 end
  | _ => None
  end.

Definition float_of_Z (n : Z) : float := of_uint63 (Uint63.of_Z n).

(** The digits without the point, divided by the power of ten: one
    rounding, exact for the amounts of a statement. *)
Definition unsigned_decimal (s : string) : option float :=
  match Str.split "."%char s with
  | [i] => option_map float_of_Z (number i)
  | [i; f] => match number i, number f, number (i ++ f) with
              | Some _, Some _, Some n =>
                  Some (float_of_Z n / float_of_Z (10 ^ Z.of_nat (String.length f)))%float
              | _, _, _ => None
              end
  | _ => None
  end.

Definition to_float (s : string) : option float :=
  match s with
  | String "-"%char s' => option_map PrimFloat.opp (unsigned_decimal s')
  | _ => unsigned_decimal s
  end.

(** Every future period repeats the last observed amount. *)
Definition persistence (endog : list float) (steps : nat)
    : result (list float * list (float * float)) :=
  let x := List.last endog 0%float in
  Ok (repeat x steps, repeat (x, x) steps).

Definition is_byte (n : nat) (c : ascii) : bool := (nat_of_ascii c =? n)%nat.

(** [str.lower] on the letters of ASCII and on the two characters outside
    ASCII whose lower case holds a letter of ASCII: the Kelvin sign
    (U+212A, bytes 226 132 170) becomes [k]; the capital I with dot above
    (U+0130, bytes 196 176) becomes [i] and a combining dot (U+0307, bytes
    204 135).  Other characters are left as they are. *)
Fixpoint lower (s : string) : string :=
  match s with
  | EmptyString => EmptyString
  | String c s1 =>
      match s1 with
      | String c2 s2 =>
          if is_byte 196 c && is_byte 176 c2
          then String "i"%char (String (ascii_of_nat 204) (String (ascii_of_nat 135) (lower s2)))
          else
            match s2 with
            | String c3 s3 =>
                if is_byte 226 c && is_byte 132 c2 && is_byte 170 c3
                then String "k"%char (lower s3)
                else String (Str.lower_ascii c) (lower s1)
            | EmptyString => String (Str.lower_ascii c) (lower s1)
            end
      | EmptyString => String (Str.lower_ascii c) (lower s1)
      end
  end.

(** A column of a file in which every field that is not empty reads as a
    number is of a numeric dtype; a column without lines is of dtype
    [object]. *)
Definition column_dtype (col : list (option string)) : Dtype :=
  match col with
  | [] => object_dtype
  | _ =>
      if forallb (fun c => match c with
                           | Some s => match to_float s with Some _ => true | None => false end
                           | None => true
                           end) col
      then numeric_dtype
      else object_dtype
  end.

(** A column is of dtype [object] as soon as it is in one frame, and
    numeric when it is numeric in every frame that has it. *)
Definition concat_dtype (dts : list (option Dtype)) : Dtype :=
  if existsb (fun d => match d with Some object_dtype => true | _ => false end) dts
  then object_dtype
  else if existsb (fun d => match d with Some str_dtype => true | _ => false end) dts
       then str_dtype
       else numeric_dtype.

#[export, refine] Instance backend : Backend := {
  parse_datetime := iso;
  parse_dmy := dmy;
  parse_float := to_float;
  sarimax_forecast := persistence;
  lower := lower;
  lower_no_capital := _;
  nan_or := fun _ => false;
  column_dtype := column_dtype;
  concat_dtype := concat_dtype;
  tie_rank := fun _ i => i
}.
Proof.
  assert (Hascii : forall c, Str.is_capital (Str.lower_ascii c) = false).
  { intros c. destruct c as [[] [] [] [] [] [] [] []]; reflexivity. }
  assert (Hlen : forall n s, (String.length s <= n)%nat -> Str.no_capital (lower s) = true).
  { induction n as [|n IH]; intros s Hs.
    - destruct s; [reflexivity | simpl in Hs; lia].
    - destruct s as [|c [|c2 s2]]; simpl in Hs.
      + reflexivity.
      + simpl. rewrite Hascii. reflexivity.
      + assert (Hlow : Str.no_capital (String (Str.lower_ascii c) (lower (String c2 s2)))
                       = true).
        { cbn [Str.no_capital]. rewrite Hascii, (IH (String c2 s2)) by (simpl; lia).
          reflexivity. }
        assert (Heq : lower (String c (String c2 s2))
                      = if is_byte 196 c && is_byte 176 c2
                        then String "i"%char
                               (String (ascii_of_nat 204)
                                  (String (ascii_of_nat 135) (lower s2)))
                        else match s2 with
                             | String c3 s3 =>
                                 if is_byte 226 c && is_byte 132 c2 && is_byte 170 c3
                                 then String "k"%char (lower s3)
                                 else String (Str.lower_ascii c) (lower (String c2 s2))
                             | EmptyString =>
                                 String (Str.lower_ascii c) (lower (String c2 s2))
                             end) by reflexivity.
        rewrite Heq. clear Heq.
        destruct (is_byte 196 c && is_byte 176 c2).
        * cbn [Str.no_capital]. rewrite (IH s2) by lia. reflexivity.
        * destruct s2 as [|c3 s3]; [exact Hlow |].
          destruct (is_byte 226 c && is_byte 132 c2 && is_byte 170 c3); [| exact Hlow].
          cbn [Str.no_capital]. rewrite (IH s3) by (simpl in Hs; lia). reflexivity. }
  intros s. apply (Hlen (String.length s)). lia.
Defined.

End Reference.

(** ** Sample files *)

Module Sample.
Import Reference.

Definition bank_header : list string :=
  [ "Accountnumber"; "Heading"; "Date"; "Description"; "Amount"; "Balance";
    "Counterparty account number" ].

(** Already ingested by an earlier run. *)
Definition january : RawFile :=
  mkRawFile bank_header
    [ [Some "BE00 1111"; Some "h"; Some "05/01/2026"; Some "ARHS salary";
       Some "5000,00"; Some "5000,00"; None] ].

Definition february : RawFile :=
  mkRawFile bank_header
    [ [Some "BE00 1111"; Some "h"; Some "03/02/2026"; Some "CARREFOUR market";
       Some "-15,50"; Some "4984,50"; Some "BE99"] ].

(** A statement with one column more than [february]. *)
Definition march : RawFile :=
  mkRawFile (bank_header ++ ["Remark"])%list
    [ [Some "BE00 2222"; Some "h"; Some "03/03/2026"; Some "Despes pis";
       Some "-800,00"; Some "200,00"; Some "BE77"; Some "paid late"] ].

Definition notes : RawFile := mkRawFile ["to do"] [ [Some "call the bank"] ].

Definition savings_row : Transaction :=
  mkTransaction (DTs 20458) "Savings" None (Text "estalvis gener") 300%float 300%float
    false true "Savings" [].

Definition general_row : Transaction :=
  mkTransaction (DTs 20458) "General" None (Text "ARHS salary") 5000%float 5000%float
    false true "Salary" [].

Definition world : World :=
  mkWorld [ ("january.csv", File january); ("february.csv", File february);
            ("notes.txt", File notes); ("march.csv", File march) ]
          (RegJson {[ "january.csv" := "2026-02-01T08:00:00" ]})
          (Some [savings_row; general_row])
          (Some "1111") (Some "2222")
          (fun _ => "2026-04-01T08:00:00").

Definition february_row : Transaction :=
  mkTransaction (DTs 20487) "General" (Some "BE99") (Text "CARREFOUR market")
    (-15.5)%float 4984.5%float false true "Groceries" [].

Definition march_row : Transaction :=
  mkTransaction (DTs 20515) "Savings" (Some "BE77") (Text "Despes pis")
    (-800)%float 200%float false true "Rent" [].

(** A description that holds a keyword of "Groceries" and one of
    "Transport". *)
Definition shop_at_station : Transaction :=
  mkTransaction (DTs 20490) "General" (Some "BE55") (Text "Carrefour Express STIB Merode")
    (-7.5)%float 4977%float false false "" [].

(** What [read_batch] makes of february.csv and march.csv, and the rows
    [typed_frame] makes of it. *)
Definition february_march : RawFrame :=
  mkRawFrame bank_header (repeat object_dtype 7)
    [ [Txt "BE00 1111"; Txt "h"; Txt "03/02/2026"; Txt "CARREFOUR market";
       Txt "-15,50"; Txt "4984,50"; Txt "BE99"];
      [Txt "BE00 2222"; Txt "h"; Txt "03/03/2026"; Txt "Despes pis";
       Txt "-800,00"; Txt "200,00"; Txt "BE77"] ].

Definition february_march_typed : DataFrame :=
  [ mkTransaction (DTs 20487) "BE00 1111" (Some "BE99") (Text "CARREFOUR market")
      (-15.5)%float 4984.5%float false false "Others" [];
    mkTransaction (DTs 20515) "BE00 2222" (Some "BE77") (Text "Despes pis")
      (-800)%float 200%float false false "Others" [] ].

(** A direct debit without a recipient. *)
Definition gym_debit : Transaction :=
  mkTransaction (DTs 20490) "General" None
    (Text "European Direct Debit Creditor: gym") (-30)%float 900%float
    false false "Others" [].

(** A row of a frame whose description column holds numbers. *)
Definition numbered : Transaction :=
  mkTransaction (DTs 20492) "General" (Some "BE57") (NoText numeric_dtype)
    (-5)%float 4960%float false false "" [].

(** A row whose description is missing, in a column of dtype [object]. *)
Definition undescribed : Transaction :=
  mkTransaction (DTs 20491) "General" (Some "BE56") (NoText object_dtype)
    (-12)%float 4965%float false false "" [].

(** The two transactions of the end-to-end example: 2026-01-01 and
    2026-02-01. *)
Definition two_transactions : DataFrame :=
  [ mkTransaction (DTs 20454) "General" None (Text "ARHS salary") 5000%float 5000%float
      false true "Salary" [];
    mkTransaction (DTs 20485) "General" (Some "BE99") (Text "Despes pis") (-1500)%float
      3500%float false true "Rent" [] ].


(** One transaction on 2026-01-15. *)
Definition mid_month : DataFrame :=
  [ mkTransaction (DTs 20468) "General" None (Text "ARHS salary") 5000%float 5000%float
      false true "Salary" [] ].

(** [world] with every raw file in the register. *)
Definition world_all_registered : World :=
  mkWorld (raw_dir world)
          (RegJson {[ "january.csv" := "2026-02-01T08:00:00";
                      "february.csv" := "2026-03-01T08:00:00";
                      "notes.txt" := "2026-03-01T08:00:00";
                      "march.csv" := "2026-04-01T08:00:00" ]})
          (transactions_file world) (general_ending world) (savings_ending world)
          (now world).

(** [world] with a register file that is not JSON. *)
Definition world_bad_register : World :=
  mkWorld (raw_dir world) RegMalformed (transactions_file world)
          (general_ending world) (savings_ending world) (now world).

(** [world] with a register file that holds the JSON array
    [["january.csv"]]. *)
Definition world_array_register : World :=
  mkWorld (raw_dir world) (RegOther (JArray ["january.csv"])) (transactions_file world)
          (general_ending world) (savings_ending world) (now world).

(** [world] before any table was persisted. *)
Definition world_no_table : World :=
  mkWorld (raw_dir world) (register_file world) None
          (general_ending world) (savings_ending world) (now world).

(** A raw directory that holds no statement. *)
Definition world_notes_only : World :=
  mkWorld [ ("notes.txt", File notes) ] RegAbsent (transactions_file world)
          (general_ending world) (savings_ending world) (now world).

(** A statement without the balance and counterparty columns. *)
Definition narrow : RawFile :=
  mkRawFile [ "Accountnumber"; "Heading"; "Date"; "Description"; "Amount" ]
    [ [Some "BE00 1111"; Some "h"; Some "04/04/2026"; Some "STIB"; Some "-2,10"] ].

Definition world_narrow_file : World :=
  mkWorld [ ("february.csv", File february); ("april.csv", File narrow) ] RegAbsent
          (transactions_file world) (general_ending world) (savings_ending world)
          (now world).

(** A statement whose amounts and balances are whole numbers. *)
Definition round : RawFile :=
  mkRawFile bank_header
    [ [Some "BE00 1111"; Some "h"; Some "10/02/2026"; Some "Bahn ticket";
       Some "-20"; Some "480"; Some "BE88"] ].

Definition round_dir : RawDir :=
  [ ("february.csv", File february); ("round.csv", File round) ].

(** A raw directory with a sub-directory named [archive.csv]. *)
Definition world_sub_directory : World :=
  mkWorld [ ("february.csv", File february); ("archive.csv", Directory) ] RegAbsent
          (transactions_file world) (general_ending world) (savings_ending world)
          (now world).

(** [world] with [GENERAL_ACCOUNT_ENDING] unset. *)
Definition world_no_general : World :=
  mkWorld (raw_dir world) (register_file world) (transactions_file world)
          None (savings_ending world) (now world).

(** A direct debit without a counterparty account. *)
Definition debit_without_recipient : DataFrame := [gym_debit].

(** A frame whose date is text that is no date. *)
Definition undated_text : DataFrame :=
  [ mkTransaction (DStr "soon") "General" None (Text "ARHS salary") 5000%float 5000%float
      false false "Others" [] ].

(** The directory of a source file, and a file system with one [.env]
    file, in [/home/emili/finance]. *)
Definition source_dir : list string := [ "home"; "emili"; "finance"; "backend"; "src" ].

Definition env_in_finance (p : list string) : bool :=
  bool_decide (p = [ "home"; "emili"; "finance" ]).

(** What [sarima] returns for [two_transactions], two periods ahead, at
    month-start frequency, with the reference backend. *)
Definition bundle : ForecastResult :=
  mkForecastResult
    [ (20513, (-1500)%float); (20544, (-1500)%float) ]
    [ (20513, ((-1500)%float, (-1500)%float)); (20544, ((-1500)%float, (-1500)%float)) ]
    [ (20513, 2000%float); (20544, 500%float) ]
    [ (20513, (2000%float, 2000%float)); (20544, (500%float, 500%float)) ]
    [ (20454, 5000%float); (20485, 3500%float) ]
    MonthStart.

End Sample.

(** The values recorded under the label [k], in the order of the series. *)
Definition values_at (k : Z) (s : list (option Z * float)) : list float :=
  List.map snd (List.filter (fun x => match fst x with
                                      | Some d => d =? k
                                      | None => false
                                      end) s).

(** The value recorded under the label [g], NaN when there is none. *)
Definition label_value (s : Series) (g : Z) : float :=
  match List.find (fun kv => fst kv =? g) s with
  | Some (_, v) => v
  | None => nan
  end.

(** The [n] consecutive days from [start]. *)
Definition days_from (start : Z) (n : nat) : list Z :=
  List.map (fun i => start + Z.of_nat i) (seq 0 n).

(** The values recorded up to the date [g], in the order of the series. *)
Definition values_upto (g : Z) (s : Series) : list float :=
  List.map snd (List.filter (fun kv => fst kv <=? g) s).

(** [fillna(0.0)] on one value. *)
Definition zero_if_nan (x : float) : float := if is_nan x then 0%float else x.

(** Two rows agree on the columns [flag_recurring] reads. *)
Definition same_keys (a b : Transaction) : Prop :=
  date a = date b /\ recipient a = recipient b /\ description a = description b.

Definition same_irow (a b : IRow) : Prop :=
  fst a = fst b /\ same_keys (snd a) (snd b).

(** ** Project root discovery ([find_project_root], utils.py) *)

Module Utils.

(** A directory as the list of its components below the root; the root is
    the empty list. *)
Abbreviation Path := (list string).

(** [os.path.dirname]: the root is its own parent. *)
Definition dirname (p : Path) : Path := removelast p.

(** The loop of [find_project_root]; [has_env p] is
    [os.path.exists(os.path.join(p, '.env'))].  Each turn moves to a path
    one component shorter, so [length current_path] turns are enough. *)
Fixpoint walk_up (has_env : Path -> bool) (fuel : nat) (current_path : Path)
    : result Path :=
  if has_env current_path then Ok current_path
  else
    let parent_path := dirname current_path in
    if bool_decide (parent_path = current_path) then Raise FileNotFoundError
    else match fuel with
         | O => Raise FileNotFoundError
         | S fuel' => walk_up has_env fuel' parent_path
         end.

Definition find_project_root (has_env : Path -> bool) (start_path : Path)
    : result Path :=
  walk_up has_env (length start_path) start_path.

End Utils.

(** ** The forecast chart ([line_chart], graphs.py) *)

(** The data of one [go.Scatter] trace. *)
Record Trace : Type := mkTrace {
  trace_x : list Z;
  trace_y : list float
}.

(** The traces of the figure, in the order they are added. *)
Record Figure : Type := mkFigure {
  forecast_trace : Trace;
  band_trace : Trace;
  observed_trace : Trace
}.

Section WithBackend.
Context `{Backend}.

(** [line_chart(data, forecast_horizon, ..., frequency)]: the forecast is
    joined to the last observed point when it starts after it; the band is
    the lower bounds followed by the upper bounds backwards. *)
Definition line_chart (data : DataFrame) (forecast_horizon : nat)
    (freq : Frequency) : result Figure :=
  forecast ← sarima data forecast_horizon freq;
  let observed_cum := observed_cumulative forecast in
  joined ← match List.last (List.map Some observed_cum) None with
           | None => Ok (cumulative forecast, cumulative_ci forecast)
           | Some (last_idx, last_val) =>
               match cumulative forecast with
               | [] => Raise IndexError        (* [cum_forecast.index[0]] *)
               | (first_idx, _) :: _ =>
                   if last_idx <? first_idx
                   then Ok ((last_idx, last_val) :: cumulative forecast,
                            (last_idx, (last_val, last_val)) :: cumulative_ci forecast)
                   else Ok (cumulative forecast, cumulative_ci forecast)
               end
           end;
  let cum_forecast := fst joined in
  let cum_ci := snd joined in
  Ok (mkFigure
        (mkTrace (List.map fst cum_forecast) (List.map snd cum_forecast))
        (mkTrace (List.map fst cum_ci ++ List.rev (List.map fst cum_ci))%list
                 (List.map (fun row => fst (snd row)) cum_ci
                  ++ List.rev (List.map (fun row => snd (snd row)) cum_ci))%list)
        (mkTrace (List.map fst observed_cum) (List.map snd observed_cum))).

End WithBackend.

(** The figure [line_chart] makes of [Sample.bundle]. *)
Definition sample_figure : Figure :=
  mkFigure
    (mkTrace [20485; 20513; 20544] [3500%float; 2000%float; 500%float])
    (mkTrace [20485; 20513; 20544; 20544; 20513; 20485]
             [3500%float; 2000%float; 500%float; 500%float; 2000%float; 3500%float])
    (mkTrace [20454; 20485] [5000%float; 3500%float]).

(** ** Vocabulary of the rule engine *)

(** The pairs of category and essential flag a row can leave
    [apply_fixed_rules] with. *)
Definition annotations : list (string * bool) :=
  [ ("Others", false); ("Salary", true); ("Rent", true); ("Groceries", true);
    ("Savings", true); ("Grooming", true); ("Transport", true);
    ("Cantine", false); ("Subscriptions", false) ].

(** ** Balances per date *)


(** Forward step over a value: NaN keeps what was there. *)
Definition carry (acc v : float) : float := if is_nan v then acc else v.

(** The last value of [vs] that is not NaN; the first value when all are
    NaN, NaN when there is none. *)
Definition last_valid (vs : list float) : float :=
  match vs with
  | [] => nan
  | v :: rest => fold_left carry rest v
  end.

(* ===================================================================== *)
(** * Part II: properties                                                 *)
(* ===================================================================== *)

(** ** FileRegistry *)

Lemma in_register_dom (file : string) (r : Register) :
  in_register file r = true <-> file ∈ dom r.
Proof.
  unfold in_register. rewrite bool_decide_eq_true. symmetry. apply elem_of_dom.
Qed.

Lemma filter_sublist {A} (p : A -> bool) (l : list A) : sublist (List.filter p l) l.
Proof.
  induction l as [|x l IH]; simpl.
  - constructor.
  - destruct (p x); [apply sublist_skip | apply sublist_cons]; exact IH.
Qed.

(** C5. With [reprocess=False] and a register [R] on disk, [get_files]
    returns the files of the raw directory that are not keys of [R], in
    directory order, paired with [R]; with [reprocess=True], or when no
    register file exists, it returns every file paired with the empty
    register. *)
Theorem get_files_pending (F : list string) (R : Register) (reg : RegisterFile) :
  (exists P, get_files F (RegJson R) false = Ok (P, Dict R)
             /\ sublist P F
             /\ forall file, file ∈ P <-> file ∈ F /\ file ∉ dom R)
  /\ get_files F reg true = Ok (F, Dict ∅)
  /\ get_files F RegAbsent false = Ok (F, Dict ∅).
Proof.
  split; [| split; [destruct reg |]; reflexivity].
  eexists. split; [reflexivity |]. split; [apply filter_sublist |].
  intros file. rewrite !list_elem_of_In, filter_In, negb_true_iff.
  rewrite <- in_register_dom. destruct (in_register file R); intuition congruence.
Qed.

(** ** TransactionStore and FileRegistry commit *)

Lemma mark_processed_dom (clock : nat -> string) (files : list string) :
  forall (k : nat) (r : Register),
    dom (mark_processed clock k files r) = dom r ∪ list_to_set files.
Proof.
  induction files as [|file rest IH]; intros k r; simpl.
  - set_solver.
  - rewrite IH, dom_insert_L. set_solver.
Qed.

Section StoreFacts.
Context `{Backend}.

(** A run that raises has written nothing, unless the register read is
    no dict: then the table is written before [register[file] = ...]
    raises. *)
Lemma preprocessing_raise_outcome (reprocess : bool) (w w' : World) (e : exn) :
  preprocessing reprocess w = (Raise e, w') ->
  w' = w
  \/ (reprocess = false /\ e = TypeError
      /\ exists v file files df old,
           get_files (List.map fst (raw_dir w)) (register_file w) false
           = Ok (file :: files, NotDict v)
           /\ new_batch (raw_dir w) (file :: files) (general_ending w) (savings_ending w)
              = Ok df
           /\ load w = Ok old
           /\ w' = write_transactions (old ++ df)%list w).
Proof.
  unfold preprocessing.
  destruct (get_files _ _ reprocess) as [[[|file files] register]|] eqn:Hfiles;
    try (intros [= _ <-]; left; reflexivity).
  destruct (new_batch _ _ _ _) as [df|] eqn:Hbatch;
    [| intros [= _ <-]; left; reflexivity].
  destruct reprocess; [discriminate |].
  destruct (load w) as [old|] eqn:Hload; [| intros [= _ <-]; left; reflexivity].
  destruct register as [r|v]; [discriminate |].
  intros [= <- <-]. right. split; [reflexivity |]. split; [reflexivity |].
  exists v, file, files, df, old. auto.
Qed.

(** What an incremental run that succeeds on a batch writes: the rows
    [load] returns, then the batch; and every pending file in the
    register. *)
Lemma preprocessing_incremental (w : World) (file : string) (files : list string)
    (register : Register) (df transactions : DataFrame) :
  get_files (List.map fst (raw_dir w)) (register_file w) false
    = Ok (file :: files, Dict register) ->
  new_batch (raw_dir w) (file :: files) (general_ending w) (savings_ending w) = Ok df ->
  load w = Ok transactions ->
  exists w' r',
    preprocessing false w = (Ok tt, w')
    /\ transactions_file w' = Some (transactions ++ df)%list
    /\ register_file w' = RegJson r'
    /\ dom r' = dom register ∪ list_to_set (file :: files).
Proof.
  intros Hfiles Hbatch Hload. unfold preprocessing.
  rewrite Hfiles, Hbatch, Hload.
  eexists _, _. split; [reflexivity |]. split; [reflexivity |].
  split; [reflexivity |]. apply (mark_processed_dom _ (file :: files)).
Qed.

(** [load] keeps the rows of sender "General" only. *)
Lemma load_general_only (w : World) (rows : DataFrame) :
  load w = Ok rows -> Forall (fun t => sender t = "General") rows.
Proof.
  unfold load. destruct (transactions_file w); [| discriminate].
  destruct (parse_date_column l); simpl; [| discriminate].
  intros [= <-]. apply Forall_forall. intros t Ht.
  apply list_elem_of_In, filter_In in Ht as [_ Ht].
  apply String.eqb_eq in Ht. exact Ht.
Qed.

End StoreFacts.

(** C1. On the sample files, an incremental run starts from a persisted
    table that holds a row of sender "Savings" and a row of sender
    "General", and persists the "General" row followed by the two rows of
    the new batch: the "Savings" row is gone. *)
Theorem incremental_run_drops_other_senders :
  transactions_file Sample.world = Some [Sample.savings_row; Sample.general_row]
  /\ exists w',
       @preprocessing Reference.backend false Sample.world = (Ok tt, w')
       /\ transactions_file w'
          = Some [Sample.general_row; Sample.february_row; Sample.march_row].
Proof.
  split; [reflexivity |]. eexists. split; vm_compute; reflexivity.
Qed.

(** C6. On the sample files, the pending files of an incremental run are
    [february.csv], [notes.txt] and [march.csv]; only the two [.csv] files
    are read, the run succeeds, and the register written at its end holds
    [notes.txt] as processed. *)
Theorem unparsed_file_marked_processed :
  exists w' r,
    get_files (List.map fst (raw_dir Sample.world)) (register_file Sample.world) false
      = Ok (["february.csv"; "notes.txt"; "march.csv"],
            Dict {[ "january.csv" := "2026-02-01T08:00:00" ]})
    /\ csv_files ["february.csv"; "notes.txt"; "march.csv"]
       = ["february.csv"; "march.csv"]
    /\ @preprocessing Reference.backend false Sample.world = (Ok tt, w')
    /\ register_file w' = RegJson r
    /\ r !! "notes.txt" = Some "2026-04-01T08:00:00".
Proof.
  eexists _, _.
  split; [vm_compute; reflexivity |]. split; [vm_compute; reflexivity |].
  split; [vm_compute; reflexivity |]. split; [reflexivity |].
  vm_compute. reflexivity.
Qed.

(** ** Facts on the string methods *)

Lemma str_app_cons (x : ascii) (a b : string) :
  (String x a ++ b = String x (a ++ b))%string.
Proof. reflexivity. Qed.

Lemma str_app_nil_l (s : string) : ("" ++ s = s)%string.
Proof. reflexivity. Qed.

Lemma str_app_assoc (a b c : string) : ((a ++ b) ++ c = a ++ (b ++ c))%string.
Proof.
  induction a as [|x a IH]; [reflexivity |].
  rewrite !str_app_cons, IH. reflexivity.
Qed.

Lemma str_app_nil_r (s : string) : (s ++ "" = s)%string.
Proof.
  induction s as [|x s IH]; [reflexivity |].
  rewrite str_app_cons, IH. reflexivity.
Qed.

Lemma rev_onto_app (s : string) :
  forall acc, Str.rev_onto s acc = (Str.rev s ++ acc)%string.
Proof.
  unfold Str.rev. induction s as [|c s IH]; intros acc; simpl; [reflexivity |].
  rewrite (IH (String c acc)), (IH (String c EmptyString)), str_app_assoc.
  reflexivity.
Qed.

Lemma rev_cons (c : ascii) (s : string) :
  Str.rev (String c s) = (Str.rev s ++ String c EmptyString)%string.
Proof. unfold Str.rev at 1. simpl. apply rev_onto_app. Qed.

Lemma rev_app (a b : string) : Str.rev (a ++ b) = (Str.rev b ++ Str.rev a)%string.
Proof.
  induction a as [|c a IH].
  - rewrite str_app_nil_l. symmetry. apply str_app_nil_r.
  - rewrite str_app_cons, !rev_cons, IH, str_app_assoc. reflexivity.
Qed.

Lemma rev_involutive (s : string) : Str.rev (Str.rev s) = s.
Proof.
  induction s as [|c s IH]; [reflexivity |].
  rewrite rev_cons, rev_app, IH. reflexivity.
Qed.

(** [s.startswith(p)] holds exactly when [s] is [p] followed by some
    text. *)
Lemma startswith_prefix (p : string) :
  forall s, Str.startswith p s = true <-> exists post, s = (p ++ post)%string.
Proof.
  induction p as [|a p IH]; intros s; simpl.
  - split; [intros _; exists s; reflexivity | reflexivity].
  - destruct s as [|b s].
    + split; [discriminate |]. intros [post Hpost].
      rewrite str_app_cons in Hpost. discriminate.
    + rewrite andb_true_iff, IH. split.
      * intros [Hab [post ->]]. apply Ascii.eqb_eq in Hab as ->.
        exists post. reflexivity.
      * intros [post Hpost]. rewrite str_app_cons in Hpost.
        injection Hpost as -> ->.
        split; [apply Ascii.eqb_refl | exists post; reflexivity].
Qed.

(** [s.endswith(p)] holds exactly when [s] is some text followed by
    [p]. *)
Lemma endswith_suffix (p s : string) :
  Str.endswith p s = true <-> exists pre, s = (pre ++ p)%string.
Proof.
  unfold Str.endswith. rewrite startswith_prefix. split.
  - intros [post Hpost]. exists (Str.rev post).
    rewrite <- (rev_involutive s), Hpost, rev_app, rev_involutive. reflexivity.
  - intros [pre ->]. exists (Str.rev pre). apply rev_app.
Qed.

(** [p in s] holds exactly when [p] occurs in [s]. *)
Lemma contains_substring (p : string) :
  forall s,
    Str.contains p s = true <-> exists pre post, s = (pre ++ p ++ post)%string.
Proof.
  induction s as [|c s IH]; simpl.
  - rewrite orb_false_r, startswith_prefix. split.
    + intros [post Hpost]. exists EmptyString, post. exact Hpost.
    + intros (pre & post & Hs). destruct pre as [|c' pre].
      * exists post. exact Hs.
      * rewrite str_app_cons in Hs. discriminate.
  - rewrite orb_true_iff, IH.
    pose proof (startswith_prefix p (String c s)) as Hstart. split.
    + intros [Hp | (pre & post & ->)].
      * apply Hstart in Hp as [post Hpost]. exists EmptyString, post. exact Hpost.
      * exists (String c pre), post. reflexivity.
    + intros (pre & post & Hs). destruct pre as [|c' pre].
      * left. apply Hstart. exists post. exact Hs.
      * right. rewrite str_app_cons in Hs. injection Hs as _ ->.
        exists pre, post. reflexivity.
Qed.

(** ** Facts on fallible traversals *)

Lemma rmapM_length {A B} (f : A -> result B) (l : list A) :
  forall l', rmapM f l = Ok l' -> length l' = length l.
Proof.
  induction l as [|x l IH]; simpl; intros l' Hl'.
  - injection Hl' as <-. reflexivity.
  - destruct (f x); [| discriminate]. destruct (rmapM f l) as [ys|]; [| discriminate].
    injection Hl' as <-. simpl. f_equal. apply IH. reflexivity.
Qed.

Lemma rmapM_Forall2 {A B} (f : A -> result B) (l : list A) :
  forall l', rmapM f l = Ok l' -> Forall2 (fun x y => f x = Ok y) l l'.
Proof.
  induction l as [|x l IH]; simpl; intros l' Hl'.
  - injection Hl' as <-. constructor.
  - destruct (f x) as [y|] eqn:Hx; [| discriminate].
    destruct (rmapM f l) as [ys|]; [| discriminate].
    injection Hl' as <-. constructor; [exact Hx | apply IH; reflexivity].
Qed.

Lemma rmapM_all_ok {A B} (f : A -> result B) (l : list A) :
  (forall x, In x l -> exists y, f x = Ok y) -> exists l', rmapM f l = Ok l'.
Proof.
  induction l as [|x l IH]; simpl; intros Hall; [eauto |].
  destruct (Hall x) as [y ->]; [left; reflexivity |].
  destruct IH as [ys ->]; [intros z Hz; apply Hall; right; exact Hz |]. eauto.
Qed.

Lemma Forall2_right_In {A B} (R : A -> B -> Prop) (l : list A) (k : list B) (y : B) :
  Forall2 R l k -> In y k -> exists x, In x l /\ R x y.
Proof.
  induction 1 as [|a b l k Hab _ IH]; simpl; [tauto |].
  intros [<- | Hy]; [eauto |]. destruct (IH Hy) as (x & Hx & Hxy). eauto.
Qed.

(** ** StatementNormalizer: the column count of a batch *)

Lemma usecols_length (n : nat) (line : list (option string)) :
  length (usecols n line) = n.
Proof.
  unfold usecols. rewrite length_app, length_firstn, repeat_length. lia.
Qed.

(** Below the column count, [usecols] keeps the field of the line. *)
Lemma usecols_nth (n i : nat) (line : list (option string)) :
  (i < n)%nat -> nth i (usecols n line) None = nth i line None.
Proof.
  intros Hi. unfold usecols.
  destruct (Nat.lt_ge_cases i (length line)) as [Hlt | Hge].
  - rewrite app_nth1 by (rewrite length_firstn; lia).
    rewrite nth_firstn. apply Nat.ltb_lt in Hi. rewrite Hi. reflexivity.
  - rewrite app_nth2 by (rewrite length_firstn; lia).
    rewrite (nth_overflow line) by lia.
    apply nth_repeat.
Qed.

Lemma cell_text_read (dtype : Dtype) (c : option string) :
  cell_text (read_cell dtype c) = c.
Proof. destruct c as [s|]; [destruct dtype |]; reflexivity. Qed.

(** Typing a line cell by cell. *)
Lemma read_cells_nth (dts : list Dtype) (line : list (option string)) :
  forall i,
    (i < length dts)%nat -> (i < length line)%nat ->
    nth i (List.map (fun dc => read_cell (fst dc) (snd dc)) (combine dts line)) Missing
    = read_cell (nth i dts object_dtype) (nth i line None).
Proof.
  revert line. induction dts as [|d dts IH]; intros [|c line] i Hd Hl; simpl in *; try lia.
  destruct i as [|i]; [reflexivity |]. apply IH; lia.
Qed.

(** The first position of a name in a list of names. *)
Lemma index_of_first (c : string) (cols : list string) :
  forall i,
    nth_error cols i = Some c ->
    (forall i', (i' < i)%nat -> nth_error cols i' <> Some c) ->
    index_of c cols = Some i.
Proof.
  induction cols as [|c' cols IH]; intros [|i] Hi Hfirst; simpl in *; try discriminate.
  - injection Hi as ->. rewrite String.eqb_refl. reflexivity.
  - destruct (String.eqb_spec c c') as [-> | _].
    + exfalso. apply (Hfirst 0%nat); [lia | reflexivity].
    + rewrite (IH i Hi); [reflexivity |].
      intros i' Hi'. apply (Hfirst (S i')). lia.
Qed.

Lemma index_of_absent (c : string) (cols : list string) :
  (forall i, nth_error cols i <> Some c) -> index_of c cols = None.
Proof.
  induction cols as [|c' cols IH]; intros Habsent; simpl; [reflexivity |].
  destruct (String.eqb_spec c c') as [-> | _].
  - exfalso. apply (Habsent 0%nat). reflexivity.
  - rewrite IH; [reflexivity |]. intros i. apply (Habsent (S i)).
Qed.

(** The names met by [union_columns]. *)
Lemma union_step_In (c : string) (cols : list string) :
  forall seen,
    In c (fold_left (fun acc c' => if existsb (String.eqb c') acc then acc
                                   else (acc ++ [c'])%list) cols seen)
    <-> In c seen \/ In c cols.
Proof.
  induction cols as [|c' cols IH]; intros seen; simpl; [tauto |].
  rewrite IH. destruct (existsb (String.eqb c') seen) eqn:Hseen.
  - apply existsb_exists in Hseen as (x & Hx & Heq).
    apply String.eqb_eq in Heq as <-. intuition (subst; auto).
  - rewrite in_app_iff. simpl. tauto.
Qed.

Lemma union_columns_In (c : string) (frames : list RawFrame) :
  forall seen,
    In c (union_columns seen frames)
    <-> In c seen \/ exists fr, In fr frames /\ In c (columns fr).
Proof.
  induction frames as [|fr frames IH]; intros seen; simpl.
  - split; [tauto | intros [H | (fr & [] & _)]; exact H].
  - rewrite IH, union_step_In. split.
    + intros [[H | H] | (fr' & Hfr' & Hc)]; eauto.
    + intros [H | (fr' & [<- | Hfr'] & Hc)]; eauto.
Qed.

Section BatchRead.
Context `{Backend}.

Lemma read_csv_wide (n : nat) (f : RawFile) :
  (n <= length (header f))%nat -> read_csv n f = Ok (frame_of n f).
Proof.
  intros Hn. unfold read_csv. apply Nat.ltb_ge in Hn. rewrite Hn. reflexivity.
Qed.

(** The files a successful batch read opened, and the frames made of them. *)
Lemma rmapM_read_inv (dir : RawDir) (n : nat) (names : list string) :
  forall frames,
    rmapM (fun file => match open_raw dir file with
                       | Ok f => read_csv n f
                       | Raise e => Raise e
                       end) names = Ok frames ->
    exists fs, rmapM (open_raw dir) names = Ok fs
               /\ Forall (fun f => (n <= length (header f))%nat) fs
               /\ frames = List.map (frame_of n) fs.
Proof.
  induction names as [|name names IH]; simpl; intros frames Hread.
  - injection Hread as <-. exists []. repeat split. constructor.
  - destruct (open_raw dir name) as [f|]; [| discriminate].
    unfold read_csv in Hread at 1.
    destruct (Nat.ltb_spec (length (header f)) n) as [|Hge]; [discriminate |].
    destruct (rmapM _ names) as [frames'|]; [| discriminate].
    injection Hread as <-.
    destruct (IH frames' eq_refl) as (fs & -> & Hall & ->).
    exists (f :: fs). repeat split. constructor; assumption.
Qed.

Lemma concat_frames_inv (frames : list RawFrame) (fr : RawFrame) :
  concat_frames frames = Ok fr ->
  columns fr = union_columns [] frames
  /\ cells fr
     = List.concat
         (List.map (fun fr0 => List.map (fun line => List.map (cell (columns fr0) line)
                                                       (union_columns [] frames))
                                        (cells fr0))
                   frames).
Proof.
  unfold concat_frames. destruct frames; [discriminate |]. intros [= <-].
  split; reflexivity.
Qed.

(** What the frame made of a file keeps of one of its lines. *)
Lemma frame_of_kept (n : nat) (f : RawFile) (cols : list string)
    (dts : list Dtype) (line : list (option string)) :
  length dts = n ->
  kept_line n f cols line
    (List.map (cell (firstn n (header f))
                 (List.map (fun dc => read_cell (fst dc) (snd dc))
                           (combine dts (usecols n line))))
              cols).
Proof.
  intros Hdts. split; [apply length_map |]. intros k c Hk.
  rewrite nth_error_map, Hk. simpl. unfold cell. split.
  - intros i Hi Hc Hfirst.
    rewrite (index_of_first c (firstn n (header f)) i).
    + eexists. split; [reflexivity |].
      rewrite read_cells_nth by (rewrite ?usecols_length; lia).
      rewrite cell_text_read. apply (usecols_nth n i line Hi).
    + rewrite nth_error_firstn. apply Nat.ltb_lt in Hi. rewrite Hi. exact Hc.
    + intros i' Hi'. rewrite nth_error_firstn.
      destruct (i' <? n)%nat; [apply Hfirst, Hi' | discriminate].
  - intros Habsent. rewrite index_of_absent; [reflexivity |].
    intros i. rewrite nth_error_firstn.
    destruct (Nat.ltb_spec i n) as [Hi | _]; [apply Habsent, Hi | discriminate].
Qed.

(** C10. The column count of a batch is the number of fields of the
    header of the first pending file.  The batch is read without error
    when some pending name ends in [.csv] and each of these names a file
    with at least that many header fields, more being no error.  The files
    that contribute are the pending files whose name ends in [.csv], in
    pending order; the columns of the batch are the first fields, up to
    the count, of their headers; its rows are their lines, file after
    file, each line with the cells read from its own fields under these
    columns and nothing of the fields beyond the count. *)
Theorem read_batch_first_header_columns (dir : RawDir) (first : string)
    (rest : list string) (f0 : RawFile) :
  open_raw dir first = Ok f0 ->
  ((exists name, In name (first :: rest) /\ csv_name name) ->
   (forall name, In name (first :: rest) -> csv_name name ->
      exists f, open_raw dir name = Ok f
                /\ (length (header f0) <= length (header f))%nat) ->
   exists fr, read_batch dir (first :: rest) = Ok fr)
  /\ (forall fr, read_batch dir (first :: rest) = Ok fr ->
        exists contrib : list (string * RawFile),
          sublist (List.map fst contrib) (first :: rest)
          /\ (forall name, In name (first :: rest) ->
                (In name (List.map fst contrib) <-> csv_name name))
          /\ Forall (fun nf => open_raw dir (fst nf) = Ok (snd nf)
                               /\ (length (header f0) <= length (header (snd nf)))%nat)
                    contrib
          /\ (forall c, In c (columns fr)
                        <-> exists nf i, In nf contrib
                                         /\ (i < length (header f0))%nat
                                         /\ nth_error (header (snd nf)) i = Some c)
          /\ exists blocks,
               cells fr = List.concat blocks
               /\ Forall2 (fun nf block =>
                             Forall2 (kept_line (length (header f0)) (snd nf) (columns fr))
                                     (body (snd nf)) block)
                          contrib blocks).
Proof.
  intros Hopen. set (n := length (header f0)).
  assert (Hn : header_ncols dir (first :: rest) = Ok n).
  { unfold header_ncols. rewrite Hopen. reflexivity. }
  assert (Hcsv : forall name, In name (csv_files (first :: rest))
                              <-> In name (first :: rest) /\ csv_name name).
  { intros name. unfold csv_files, csv_name. rewrite filter_In, endswith_suffix.
    reflexivity. }
  split.
  - intros (name & Hname & Hcsvname) Hall. unfold read_batch. rewrite Hn.
    destruct (rmapM_all_ok
                (fun file => match open_raw dir file with
                             | Ok f => read_csv n f
                             | Raise e => Raise e
                             end) (csv_files (first :: rest))) as [frames Hframes].
    { intros x Hx. apply Hcsv in Hx as [Hx Hxcsv].
      destruct (Hall x Hx Hxcsv) as (f & -> & Hwide).
      exists (frame_of n f). apply read_csv_wide, Hwide. }
    rewrite Hframes. unfold concat_frames.
    destruct frames as [|fr0 frames]; [| eauto].
    apply rmapM_length in Hframes.
    assert (Hin : In name (csv_files (first :: rest))) by (apply Hcsv; auto).
    destruct (csv_files (first :: rest)); [destruct Hin | discriminate].
  - intros fr Hfr. unfold read_batch in Hfr. rewrite Hn in Hfr.
    destruct (rmapM _ (csv_files (first :: rest))) as [frames|] eqn:Hread;
      [| discriminate].
    apply rmapM_read_inv in Hread as (fs & Hfs & Hwide & ->).
    pose proof (rmapM_length _ _ _ Hfs) as Hlen.
    pose proof (rmapM_Forall2 _ _ _ Hfs) as Hopened.
    exists (combine (csv_files (first :: rest)) fs).
    assert (Hnames : List.map fst (combine (csv_files (first :: rest)) fs)
                     = csv_files (first :: rest)).
    { clear -Hlen. revert fs Hlen.
      induction (csv_files (first :: rest)) as [|x l IH]; intros [|y fs] Hlen;
        simpl in *; try discriminate; [reflexivity |].
      rewrite IH by lia. reflexivity. }
    rewrite Hnames.
    split; [apply filter_sublist |].
    split; [intros name Hname; rewrite Hcsv; tauto |].
    split.
    { clear -Hopened Hwide. induction Hopened as [|x y l k Hxy _ IH]; simpl;
        [constructor |].
      inversion Hwide; subst. constructor; [split; assumption | apply IH; assumption]. }
    apply concat_frames_inv in Hfr as [-> ->].
    set (cols := union_columns [] (List.map (frame_of n) fs)).
    split.
    { intros c. unfold cols. rewrite union_columns_In. split.
      - intros [[] | (fr0 & Hfr & Hc)].
        apply in_map_iff in Hfr as (f & <- & Hf). simpl in Hc.
        destruct (In_nth_error _ _ Hc) as [i Hi].
        rewrite nth_error_firstn in Hi.
        destruct (Nat.ltb_spec i n) as [Hlt | _]; [| discriminate].
        assert (Hpair : exists name, In (name, f) (combine (csv_files (first :: rest)) fs)).
        { clear -Hf Hlen. revert fs Hf Hlen.
          induction (csv_files (first :: rest)) as [|x l IH]; intros [|y fs] Hf Hlen;
            simpl in *; try discriminate; [destruct Hf |].
          destruct Hf as [-> | Hf]; [eauto |].
          destruct (IH fs Hf) as [name Hname]; [lia | eauto]. }
        destruct Hpair as [name Hpair]. exists (name, f), i. auto.
      - intros ([name f] & i & Hnf & Hi & Hc). right.
        exists (frame_of n f). split.
        + apply in_map, (in_combine_r _ _ _ _ Hnf).
        + simpl. apply (nth_error_In _ i). rewrite nth_error_firstn.
          apply Nat.ltb_lt in Hi. rewrite Hi. exact Hc. }
    exists (List.map (fun f => List.map (fun row => List.map (cell (columns (frame_of n f)) row)
                                                      cols)
                                        (cells (frame_of n f))) fs).
    split.
    { rewrite List.map_map. reflexivity. }
    clearbody cols. clear Hfs Hwide Hopened Hnames Hcsv Hn. revert fs Hlen.
    induction (csv_files (first :: rest)) as [|x l IH]; intros [|f fs] Hlen;
      simpl in *; try discriminate; constructor.
    + simpl. rewrite !List.map_map.
      induction (body f) as [|line lines IHl] at 1 3; simpl; constructor;
        [| exact IHl].
      apply frame_of_kept. rewrite length_map, length_seq. reflexivity.
    + apply IH. lia.
Qed.

End BatchRead.

(** The batch of [february.csv], [notes.txt] and [march.csv]: the count is
    the seven columns of [february.csv]; [march.csv] has eight and is
    read. *)
Lemma read_batch_first_header_columns_witness :
  open_raw (raw_dir Sample.world) "february.csv" = Ok Sample.february
  /\ ((exists name, In name ["february.csv"; "notes.txt"; "march.csv"] /\ csv_name name) ->
      (forall name, In name ["february.csv"; "notes.txt"; "march.csv"] -> csv_name name ->
         exists f, open_raw (raw_dir Sample.world) name = Ok f
                   /\ (length (header Sample.february) <= length (header f))%nat) ->
      exists fr, @read_batch Reference.backend (raw_dir Sample.world)
                   ["february.csv"; "notes.txt"; "march.csv"] = Ok fr)
  /\ (forall fr,
        @read_batch Reference.backend (raw_dir Sample.world) ["february.csv"; "notes.txt"; "march.csv"]
        = Ok fr ->
        exists contrib : list (string * RawFile),
          sublist (List.map fst contrib) ["february.csv"; "notes.txt"; "march.csv"]
          /\ (forall name, In name ["february.csv"; "notes.txt"; "march.csv"] ->
                (In name (List.map fst contrib) <-> csv_name name))
          /\ Forall (fun nf => open_raw (raw_dir Sample.world) (fst nf) = Ok (snd nf)
                               /\ (length (header Sample.february)
                                   <= length (header (snd nf)))%nat)
                    contrib
          /\ (forall c, In c (columns fr)
                        <-> exists nf i, In nf contrib
                                         /\ (i < length (header Sample.february))%nat
                                         /\ nth_error (header (snd nf)) i = Some c)
          /\ exists blocks,
               cells fr = List.concat blocks
               /\ Forall2 (fun nf block =>
                             Forall2 (kept_line (length (header Sample.february))
                                        (snd nf) (columns fr))
                                     (body (snd nf)) block)
                          contrib blocks).
Proof.
  split; [reflexivity |].
  apply (@read_batch_first_header_columns Reference.backend
           (raw_dir Sample.world) "february.csv"
           ["notes.txt"; "march.csv"] Sample.february).
  reflexivity.
Defined.

(** The extra column of [march.csv] leaves no trace in the batch. *)
Example read_batch_sample :
  @read_batch Reference.backend (raw_dir Sample.world) ["february.csv"; "notes.txt"; "march.csv"]
  = Ok Sample.february_march.
Proof. reflexivity. Qed.

(** ** The heap monad *)

Lemma fresh_unbound (h : Heap) : h !! fresh (dom h) = None.
Proof. apply not_elem_of_dom, is_fresh. Qed.

Lemma deref_run (h : Heap) (l : loc) (df : DataFrame) :
  h !! l = Some df -> deref l h = (Ok df, h).
Proof. intros Hl. unfold deref. rewrite Hl. reflexivity. Qed.

Lemma mutate_run (h : Heap) (l : loc) (df : DataFrame) (f : DataFrame -> DataFrame) :
  h !! l = Some df -> mutate l f h = (Ok tt, <[l := f df]> h).
Proof. intros Hl. unfold mutate. rewrite Hl. reflexivity. Qed.

Lemma copy_run (h : Heap) (l : loc) (df : DataFrame) :
  h !! l = Some df -> copy l h = (Ok (fresh (dom h)), <[fresh (dom h) := df]> h).
Proof. intros Hl. unfold copy. rewrite Hl. reflexivity. Qed.

Lemma bool_mask_values (m : list bool) : bool_mask (List.map Some m) = Some m.
Proof. induction m as [|b m IH]; simpl; [reflexivity |]. rewrite IH. reflexivity. Qed.

Lemma loc_assign_run (h : Heap) (df : loc) (rows : DataFrame) (m : list bool)
    (f : Transaction -> Transaction) :
  h !! df = Some rows ->
  loc_assign df (List.map Some m) f h = (Ok tt, <[df := assign_where m f rows]> h).
Proof.
  intros Hdf. unfold loc_assign. rewrite bool_mask_values. apply mutate_run, Hdf.
Qed.

Section HeapFacts.
Context `{Backend}.

(** Parsing the dates leaves the other columns as they are. *)
Lemma parse_date_column_descriptions (rows : DataFrame) :
  forall parsed,
    parse_date_column rows = Ok parsed ->
    List.map description parsed = List.map description rows.
Proof.
  unfold parse_date_column. induction rows as [|t rows IH]; simpl; intros parsed Hp.
  - injection Hp as <-. reflexivity.
  - destruct (to_datetime (date t)) as [d|]; [| discriminate].
    destruct (rmapM _ rows) as [parsed'|]; [| discriminate].
    injection Hp as <-. simpl. rewrite (IH parsed' eq_refl). reflexivity.
Qed.

(** The accessor and the tests read the description column only. *)
Lemma str_accessor_descriptions (rows rows' : DataFrame) :
  List.map description rows = List.map description rows' ->
  str_accessor rows = str_accessor rows'.
Proof.
  unfold str_accessor. revert rows'.
  induction rows as [|t rows IH]; intros [|t' rows'] Heq; simpl in *;
    try discriminate; [reflexivity |].
  injection Heq as Ht Hrows. rewrite Ht.
  specialize (IH rows' Hrows).
  destruct (match description t' with NoText numeric_dtype => true | _ => false end);
    [reflexivity |].
  simpl. exact IH.
Qed.

Lemma str_accessor_raises (rows : DataFrame) (e : exn) :
  str_accessor rows = Raise e -> e = AttributeError.
Proof. unfold str_accessor. destruct (existsb _ rows); congruence. Qed.

(** What [flag_recurring] does to the heap: the copy is a new frame, with
    its dates parsed. *)
Lemma flag_recurring_run (h : Heap) (df : loc) (rows parsed : DataFrame) :
  h !! df = Some rows ->
  parse_date_column rows = Ok parsed ->
  str_accessor rows = Ok tt ->
  flag_recurring df h
  = (Ok (recurring_flags parsed), <[fresh (dom h) := parsed]> h).
Proof.
  intros Hdf Hparse Hstr. unfold flag_recurring, py_bind.
  rewrite (copy_run h df rows Hdf).
  rewrite (deref_run _ _ rows) by apply lookup_insert_eq.
  unfold py_lift. rewrite Hparse.
  rewrite (mutate_run _ _ rows) by apply lookup_insert_eq.
  rewrite insert_insert_eq.
  rewrite (deref_run _ _ parsed) by apply lookup_insert_eq.
  rewrite (str_accessor_descriptions parsed rows), Hstr;
    [reflexivity | apply parse_date_column_descriptions, Hparse].
Qed.

(** On a description column of a numeric dtype it raises. *)
Lemma flag_recurring_no_accessor (h : Heap) (df : loc) (rows parsed : DataFrame)
    (e : exn) :
  h !! df = Some rows ->
  parse_date_column rows = Ok parsed ->
  str_accessor rows = Raise e ->
  flag_recurring df h = (Raise e, <[fresh (dom h) := parsed]> h).
Proof.
  intros Hdf Hparse Hstr. unfold flag_recurring, py_bind.
  rewrite (copy_run h df rows Hdf).
  rewrite (deref_run _ _ rows) by apply lookup_insert_eq.
  unfold py_lift. rewrite Hparse.
  rewrite (mutate_run _ _ rows) by apply lookup_insert_eq.
  rewrite insert_insert_eq.
  rewrite (deref_run _ _ parsed) by apply lookup_insert_eq.
  rewrite (str_accessor_descriptions parsed rows), Hstr;
    [reflexivity | apply parse_date_column_descriptions, Hparse].
Qed.

(** On dates that do not parse it raises. *)
Lemma flag_recurring_raise (h : Heap) (df : loc) (rows : DataFrame) (e : exn) :
  h !! df = Some rows ->
  parse_date_column rows = Raise e ->
  flag_recurring df h = (Raise e, <[fresh (dom h) := rows]> h).
Proof.
  intros Hdf Hparse. unfold flag_recurring, py_bind.
  rewrite (copy_run h df rows Hdf).
  rewrite (deref_run _ _ rows) by apply lookup_insert_eq.
  unfold py_lift. rewrite Hparse. reflexivity.
Qed.

(** C9. [flag_recurring] leaves every frame of the heap as it was, the
    frame it is called on included: it writes only to the copy, a frame
    that did not exist before the call. *)
Theorem flag_recurring_input_unchanged (h : Heap) (df : loc) :
  h ⊆ snd (flag_recurring df h)
  /\ snd (flag_recurring df h) !! df = h !! df.
Proof.
  assert (Hsub : h ⊆ snd (flag_recurring df h)).
  { destruct (h !! df) as [rows|] eqn:Hdf.
    - destruct (parse_date_column rows) as [parsed|e] eqn:Hparse.
      + destruct (str_accessor rows) as [[]|e] eqn:Hstr.
        * rewrite (flag_recurring_run h df rows parsed Hdf Hparse Hstr).
          apply insert_subseteq, fresh_unbound.
        * rewrite (flag_recurring_no_accessor h df rows parsed e Hdf Hparse Hstr).
          apply insert_subseteq, fresh_unbound.
      + rewrite (flag_recurring_raise h df rows e Hdf Hparse).
        apply insert_subseteq, fresh_unbound.
    - unfold flag_recurring, py_bind, copy. rewrite Hdf. reflexivity. }
  split; [exact Hsub |].
  destruct (h !! df) as [rows|] eqn:Hdf.
  - eapply lookup_weaken; eassumption.
  - unfold flag_recurring, py_bind, copy. rewrite Hdf. simpl. exact Hdf.
Qed.

End HeapFacts.

(** A frame with a date held as text: the call parses the date of the copy
    (frame 2) and leaves the text in the caller's frame (frame 1). *)
Example flag_recurring_copy_parsed :
  let row d := mkTransaction d "General" None (Text "ARHS salary") 5000%float 5000%float
                 false false "Others" [] in
  @flag_recurring Reference.backend 1%positive {[ 1%positive := [row (DStr "2026-01-05")] ]}
  = (Ok [false],
     {[ 1%positive := [row (DStr "2026-01-05")]; 2%positive := [row (DTs 20458)] ]}).
Proof. vm_compute. reflexivity. Qed.

(** ** CategoryRuleEngine *)

Lemma lookup_nth_map {A B} (g : A -> B) (l : list A) (d : B) :
  forall i x, l !! i = Some x -> nth i (List.map g l) d = g x.
Proof.
  induction l as [|y l IH]; intros [|i] x Hx; simpl in *; try discriminate.
  - injection Hx as ->. reflexivity.
  - apply IH, Hx.
Qed.

(** [df.loc[mask, col] = v] with a mask computed from the rows is a map
    over the rows. *)
Lemma assign_where_map (g : Transaction -> bool) (f : Transaction -> Transaction)
    (rows : DataFrame) :
  assign_where (List.map g rows) f rows
  = List.map (fun t => if g t then f t else t) rows.
Proof.
  unfold assign_where.
  rewrite (imap_ext _ (fun _ t => if g t then f t else t)).
  - apply (imap_const (fun t => if g t then f t else t)).
  - intros i x Hx. simpl. rewrite (lookup_nth_map g rows false i x Hx). reflexivity.
Qed.

Section RuleRows.
Context `{Backend}.

Lemma apply_rule_rows_map (r : Rule) (rows : DataFrame) :
  apply_rule_rows r rows = List.map (rule_step r) rows.
Proof.
  unfold apply_rule_rows.
  set (g := masked (Str.join "|" (keywords r))).
  rewrite (assign_where_map g (set_concept (rule_concept r)) rows).
  transitivity
    (assign_where
       (List.map g (List.map (fun t => if g t then set_concept (rule_concept r) t else t) rows))
       (set_is_essential (rule_is_essential r))
       (List.map (fun t => if g t then set_concept (rule_concept r) t else t) rows)).
  - f_equal. rewrite List.map_map. apply map_ext. intros t.
    destruct (g t) eqn:Hg; symmetry; exact Hg.
  - rewrite assign_where_map, List.map_map. apply map_ext. intros t.
    unfold rule_step. fold g. destruct (g t) eqn:Hg.
    + assert (Hg' : g (set_concept (rule_concept r) t) = g t) by reflexivity.
      rewrite Hg', Hg. reflexivity.
    + rewrite Hg. reflexivity.
Qed.

Lemma fold_rule_rows (rules : list Rule) :
  forall rows,
    fold_left (fun rows r => apply_rule_rows r rows) rules rows
    = List.map (fun t => fold_left (fun t r => rule_step r t) rules t) rows.
Proof.
  induction rules as [|r rules IH]; intros rows; simpl.
  - symmetry. apply map_id.
  - rewrite IH, apply_rule_rows_map, List.map_map. reflexivity.
Qed.

(** For the declared keywords the regular expression is the keyword
    test. *)
Lemma fixed_rules_patterns :
  Forall (fun r => Str.split "|"%char (Str.join "|" (keywords r)) = keywords r)
         fixed_rules.
Proof. repeat constructor. Qed.

Lemma rule_step_matches (r : Rule) (t : Transaction) :
  Str.split "|"%char (Str.join "|" (keywords r)) = keywords r ->
  rule_step r t
  = if rule_matches r t
    then set_is_essential (rule_is_essential r) (set_concept (rule_concept r) t)
    else t.
Proof.
  intros Hsplit. unfold rule_step, rule_matches, masked, str_test, Str.re_search.
  rewrite Hsplit. destruct (description t) as [d | []]; reflexivity.
Qed.

(** The keyword test of the code is the substring condition. *)
Lemma rule_matches_spec (r : Rule) (t : Transaction) :
  rule_matches r t = true <-> holds_keyword r t.
Proof.
  unfold rule_matches, holds_keyword. destruct (description t) as [d | dtype].
  - rewrite existsb_exists. split.
    + intros (k & Hk & Hin). apply contains_substring in Hin as (pre & post & Hd).
      exists k, d, pre, post. auto.
    + intros (k & d' & pre & post & Hk & [= <-] & Hd).
      exists k. split; [exact Hk |]. apply contains_substring. eauto.
  - split; [discriminate |]. intros (k & d' & pre & post & _ & Hd & _). discriminate.
Qed.

(** The loop over the rules leaves the category and the flag of the last
    rule that matches. *)
Lemma fold_rule_step (rules : list Rule) (t : Transaction) :
  Forall (fun r => Str.split "|"%char (Str.join "|" (keywords r)) = keywords r) rules ->
  fold_left (fun t r => rule_step r t) rules t
  = match winning_rule rules t with
    | Some r => set_is_essential (rule_is_essential r) (set_concept (rule_concept r) t)
    | None => t
    end.
Proof.
  induction rules as [|r rules IH] using rev_ind; intros Hall; [reflexivity |].
  apply Forall_app in Hall as [Hrules Hr]. inversion Hr as [|? ? Hsplit _]; subst.
  rewrite fold_left_app. simpl. rewrite (IH Hrules). clear IH.
  unfold winning_rule. rewrite rev_unit. simpl.
  rewrite (rule_step_matches r _ Hsplit).
  destruct (List.find _ (List.rev rules)) as [r'|].
  - assert (Hm : rule_matches r (set_is_essential (rule_is_essential r')
                                   (set_concept (rule_concept r') t))
                 = rule_matches r t) by reflexivity.
    rewrite Hm. destruct (rule_matches r t); reflexivity.
  - destruct (rule_matches r t); reflexivity.
Qed.

Lemma winning_rule_last (pre post : list Rule) (r : Rule) (t : Transaction) :
  rule_matches r t = true ->
  Forall (fun r' => rule_matches r' t = false) post ->
  winning_rule (pre ++ r :: post) t = Some r.
Proof.
  intros Hr Hpost. unfold winning_rule.
  rewrite rev_app_distr. simpl. rewrite <- app_assoc. simpl.
  induction post as [|r' post IH] using rev_ind.
  - simpl. rewrite Hr. reflexivity.
  - apply Forall_app in Hpost as [Hpost Hr']. inversion Hr' as [|? ? Hf _]; subst.
    rewrite rev_unit. simpl. rewrite Hf. apply IH, Hpost.
Qed.

Lemma winning_rule_none (rules : list Rule) (t : Transaction) :
  Forall (fun r => rule_matches r t = false) rules ->
  winning_rule rules t = None.
Proof.
  intros Hall. unfold winning_rule.
  induction rules as [|r rules IH] using rev_ind; [reflexivity |].
  apply Forall_app in Hall as [Hrules Hr]. inversion Hr as [|? ? Hf _]; subst.
  rewrite rev_unit. simpl. rewrite Hf. apply IH, Hrules.
Qed.

Lemma restore_order_length (base : list (option bool)) (periodic : list (nat * bool)) :
  length (restore_order base periodic) = length base.
Proof.
  unfold restore_order.
  generalize (List.map (fun '(i, p) => (i, Some (or_flag (nth i base None) p))) periodic).
  intros rhs. generalize base as b.
  induction rhs as [|[i v] rhs IH]; intros b; simpl; [reflexivity |].
  rewrite IH. apply length_insert.
Qed.

Lemma recurring_flags_length (rows : DataFrame) :
  length (recurring_flags rows) = length rows.
Proof.
  unfold recurring_flags. rewrite length_map, restore_order_length.
  apply length_map.
Qed.

(** Rows that answer the tests: the accessor is there and no mask holds
    NaN. *)
Lemma answers_accessor (rows : DataFrame) :
  forallb answers rows = true -> str_accessor rows = Ok tt.
Proof.
  unfold str_accessor. induction rows as [|t rows IH]; simpl; [reflexivity |].
  intros [Ht Hrows]%andb_true_iff. specialize (IH Hrows).
  unfold answers in Ht. destruct (description t) as [d | []]; try discriminate;
    simpl; destruct (existsb _ rows); congruence.
Qed.

Lemma answers_mask (pattern : string) (rows : DataFrame) :
  forallb answers rows = true ->
  contains_mask pattern rows = List.map Some (List.map (masked pattern) rows).
Proof.
  unfold contains_mask. induction rows as [|t rows IH]; simpl; [reflexivity |].
  intros [Ht Hrows]%andb_true_iff. rewrite (IH Hrows). f_equal.
  unfold answers in Ht. unfold masked, str_test.
  destruct (description t) as [d | []]; try discriminate; reflexivity.
Qed.

(** A row that does not answer, in a column with the accessor, puts NaN
    in every mask. *)
Lemma nan_mask (pattern : string) (rows : DataFrame) :
  str_accessor rows = Ok tt ->
  forallb answers rows = false ->
  bool_mask (contains_mask pattern rows) = None.
Proof.
  unfold str_accessor, contains_mask.
  induction rows as [|t rows IH]; simpl; [discriminate |].
  unfold answers at 1. unfold str_test at 1.
  destruct (description t) as [d | []]; simpl; try discriminate; try reflexivity.
  - intros Hstr Hans. rewrite (IH Hstr Hans). reflexivity.
  - intros Hstr Hans. rewrite (IH Hstr Hans). reflexivity.
Qed.

Lemma forallb_answers_descriptions (rows rows' : DataFrame) :
  List.map description rows = List.map description rows' ->
  forallb answers rows = forallb answers rows'.
Proof.
  revert rows'. induction rows as [|t rows IH]; intros [|t' rows'] Heq; simpl in *;
    try discriminate; [reflexivity |].
  injection Heq as Ht Hrows. unfold answers at 1 3. rewrite Ht, (IH rows' Hrows).
  reflexivity.
Qed.

Lemma imap_descriptions (g : nat -> Transaction -> Transaction) (rows : DataFrame) :
  (forall i t, description (g i t) = description t) ->
  List.map description (imap g rows) = List.map description rows.
Proof.
  intros Hg. revert g Hg. induction rows as [|t rows IH]; intros g Hg; simpl;
    [reflexivity |].
  rewrite Hg. f_equal. apply IH. intros i t'. apply Hg.
Qed.

Lemma rule_step_description (r : Rule) (t : Transaction) :
  description (rule_step r t) = description t.
Proof. unfold rule_step. destruct (masked _ t); reflexivity. Qed.

End RuleRows.

Section RuleFacts.
Context `{Backend}.
Local Open Scope py_scope.

Lemma apply_rule_run (h : Heap) (df : loc) (r : Rule) (rows : DataFrame) :
  h !! df = Some rows ->
  forallb answers rows = true ->
  apply_rule df r h = (Ok tt, <[df := apply_rule_rows r rows]> h).
Proof.
  intros Hdf Hans. unfold apply_rule, py_bind.
  rewrite (deref_run h df rows Hdf). unfold py_lift.
  rewrite (answers_accessor rows Hans), (answers_mask _ rows Hans).
  rewrite (loc_assign_run h df rows _ _ Hdf).
  rewrite (loc_assign_run _ df _ _ _ (lookup_insert_eq _ _ _)).
  rewrite insert_insert_eq. reflexivity.
Qed.

Lemma py_for_rules_run (df : loc) (rules : list Rule) :
  forall (h : Heap) (rows : DataFrame),
    h !! df = Some rows ->
    forallb answers rows = true ->
    py_for rules (apply_rule df) h
    = (Ok tt, <[df := fold_left (fun rows r => apply_rule_rows r rows) rules rows]> h).
Proof.
  induction rules as [|r rules IH]; intros h rows Hdf Hans; simpl.
  - unfold py_ret. rewrite insert_id by exact Hdf. reflexivity.
  - unfold py_bind. rewrite (apply_rule_run h df r rows Hdf Hans).
    rewrite (IH _ _ (lookup_insert_eq _ _ _)).
    + rewrite insert_insert_eq. reflexivity.
    + rewrite <- Hans. apply forallb_answers_descriptions.
      rewrite apply_rule_rows_map, List.map_map. apply map_ext.
      intros t. apply rule_step_description.
Qed.

(** The frame as it is when the loop over the rules starts. *)
Lemma reset_rows (flags : list bool) (rows : DataFrame) :
  List.map (set_concept "Others")
    (List.map (set_is_essential false) (assign_is_recurring flags rows))
  = imap (fun i t => reset (nth i flags false) t) rows.
Proof.
  unfold assign_is_recurring, reset. rewrite List.map_map.
  etransitivity; [apply (fmap_imap _ _ rows) |]. apply imap_ext. reflexivity.
Qed.

Lemma reset_descriptions (flags : list bool) (rows : DataFrame) :
  List.map description (imap (fun i t => reset (nth i flags false) t) rows)
  = List.map description rows.
Proof. apply imap_descriptions. reflexivity. Qed.

(** The heap [apply_fixed_rules] reaches the loop with. *)
Lemma apply_fixed_rules_prelude (h : Heap) (df : loc) (rows parsed : DataFrame) :
  h !! df = Some rows ->
  parse_date_column rows = Ok parsed ->
  str_accessor rows = Ok tt ->
  apply_fixed_rules df h
  = py_for fixed_rules (apply_rule df)
      (<[df := imap (fun i t => reset (nth i (recurring_flags parsed) false) t) rows]>
         (<[fresh (dom h) := parsed]> h)).
Proof.
  intros Hdf Hparse Hstr. unfold apply_fixed_rules, py_bind.
  rewrite (flag_recurring_run h df rows parsed Hdf Hparse Hstr).
  assert (Hne : fresh (dom h) <> df).
  { intros Heq. pose proof (fresh_unbound h) as Hfresh. rewrite Heq in Hfresh. congruence. }
  assert (Hdf' : <[fresh (dom h) := parsed]> h !! df = Some rows).
  { rewrite lookup_insert_ne by exact Hne. exact Hdf. }
  rewrite (mutate_run _ df rows _ Hdf').
  rewrite (mutate_run _ df _ _ (lookup_insert_eq _ _ _)), insert_insert_eq.
  rewrite (mutate_run _ df _ _ (lookup_insert_eq _ _ _)), insert_insert_eq.
  rewrite reset_rows. reflexivity.
Qed.

(** The frame [apply_fixed_rules] leaves at [df] when every description
    answers the tests. *)
Lemma apply_fixed_rules_run (h : Heap) (df : loc) (rows parsed : DataFrame) :
  h !! df = Some rows ->
  parse_date_column rows = Ok parsed ->
  forallb answers rows = true ->
  apply_fixed_rules df h
  = (Ok tt,
     <[df := imap (fun i t => categorized fixed_rules
                                (nth i (recurring_flags parsed) false) t) rows]>
       (<[fresh (dom h) := parsed]> h)).
Proof.
  intros Hdf Hparse Hans.
  rewrite (apply_fixed_rules_prelude h df rows parsed Hdf Hparse
             (answers_accessor rows Hans)).
  rewrite (py_for_rules_run df fixed_rules _ _ (lookup_insert_eq _ _ _)).
  - rewrite insert_insert_eq. do 2 f_equal. rewrite fold_rule_rows.
    etransitivity; [apply (fmap_imap _ _ rows) |].
    apply imap_ext. intros i t _. unfold compose.
    rewrite (fold_rule_step fixed_rules _ fixed_rules_patterns).
    unfold categorized.
    change (winning_rule fixed_rules (reset (nth i (recurring_flags parsed) false) t))
      with (winning_rule fixed_rules t).
    destruct (winning_rule fixed_rules t); reflexivity.
  - rewrite <- Hans. apply forallb_answers_descriptions, reset_descriptions.
Qed.

(** When a description does not answer, in a column that has the
    accessor, the first assignment of the loop raises: the frame is left
    with the recurrence flags stored and the category reset, no rule
    applied. *)
Lemma apply_fixed_rules_nan (h : Heap) (df : loc) (rows parsed : DataFrame) :
  h !! df = Some rows ->
  parse_date_column rows = Ok parsed ->
  str_accessor rows = Ok tt ->
  forallb answers rows = false ->
  apply_fixed_rules df h
  = (Raise ValueError,
     <[df := imap (fun i t => reset (nth i (recurring_flags parsed) false) t) rows]>
       (<[fresh (dom h) := parsed]> h)).
Proof.
  intros Hdf Hparse Hstr Hans.
  rewrite (apply_fixed_rules_prelude h df rows parsed Hdf Hparse Hstr).
  set (rows1 := imap (fun i t => reset (nth i (recurring_flags parsed) false) t) rows).
  assert (Hdesc : List.map description rows1 = List.map description rows)
    by apply reset_descriptions.
  unfold fixed_rules. cbn [py_for]. unfold py_bind at 1. unfold apply_rule, py_bind.
  rewrite (deref_run _ df rows1) by apply lookup_insert_eq. unfold py_lift.
  rewrite (str_accessor_descriptions rows1 rows Hdesc), Hstr.
  unfold loc_assign. rewrite nan_mask; [reflexivity | |].
  - rewrite (str_accessor_descriptions rows1 rows Hdesc). exact Hstr.
  - rewrite (forallb_answers_descriptions rows1 rows Hdesc). exact Hans.
Qed.

(** When the description column has no accessor, nothing is assigned. *)
Lemma apply_fixed_rules_no_accessor (h : Heap) (df : loc) (rows parsed : DataFrame)
    (e : exn) :
  h !! df = Some rows ->
  parse_date_column rows = Ok parsed ->
  str_accessor rows = Raise e ->
  apply_fixed_rules df h = (Raise e, <[fresh (dom h) := parsed]> h).
Proof.
  intros Hdf Hparse Hstr. unfold apply_fixed_rules, py_bind.
  rewrite (flag_recurring_no_accessor h df rows parsed e Hdf Hparse Hstr). reflexivity.
Qed.

End RuleFacts.

(** C4, as the code has it.  On a frame whose dates parse and in which
    every description is text (or, in a column of dtype [str], missing),
    [apply_fixed_rules] returns and leaves, in the same frame, each row
    with its other columns as they were, the recurrence flag of
    [flag_recurring], and the category and essential flag of the rule
    declared last among the rules that match, where a rule matches when
    the description is text that, case-folded, holds one of the keywords
    of the rule as a substring; a row no rule matches gets "Others" and
    false. *)
Theorem apply_fixed_rules_last_match_wins `{Backend} (h : Heap) (df : loc)
    (rows parsed : DataFrame) :
  h !! df = Some rows ->
  parse_date_column rows = Ok parsed ->
  Forall (fun t => answers t = true) rows ->
  exists h' rows' flags,
    apply_fixed_rules df h = (Ok tt, h')
    /\ h' !! df = Some rows'
    /\ length rows' = length rows
    /\ fst (flag_recurring df h) = Ok flags
    /\ forall i t, rows !! i = Some t ->
         exists t',
           rows' !! i = Some t'
           /\ (date t' = date t /\ sender t' = sender t /\ recipient t' = recipient t
               /\ description t' = description t /\ amount t' = amount t
               /\ balance t' = balance t /\ extras t' = extras t)
           /\ is_recurring t' = nth i flags false
           /\ (forall pre r post,
                  fixed_rules = (pre ++ r :: post)%list ->
                  holds_keyword r t ->
                  (forall r', In r' post -> ~ holds_keyword r' t) ->
                  concept t' = rule_concept r /\ is_essential t' = rule_is_essential r)
           /\ ((forall r, In r fixed_rules -> ~ holds_keyword r t) ->
                 concept t' = "Others" /\ is_essential t' = false).
Proof.
  intros Hdf Hparse Hall.
  assert (Hans : forallb answers rows = true).
  { apply forallb_forall. intros t Ht.
    apply (proj1 (Forall_forall _ _) Hall t), list_elem_of_In, Ht. }
  eexists _, _, _.
  split; [apply (apply_fixed_rules_run h df rows parsed Hdf Hparse Hans) |].
  split; [apply lookup_insert_eq |].
  split; [apply length_imap |].
  split.
  { rewrite (flag_recurring_run h df rows parsed Hdf Hparse (answers_accessor rows Hans)).
    reflexivity. }
  intros i t Hi. eexists. split; [rewrite list_lookup_imap, Hi; reflexivity |].
  split; [unfold categorized; destruct (winning_rule fixed_rules t); repeat split |].
  split; [unfold categorized; destruct (winning_rule fixed_rules t); reflexivity |].
  split.
  - intros pre r post Hrules Hr Hpost. unfold categorized.
    rewrite Hrules, (winning_rule_last pre post r t).
    + split; reflexivity.
    + apply rule_matches_spec, Hr.
    + apply Forall_forall. intros r' Hr'. apply list_elem_of_In in Hr'.
      destruct (rule_matches r' t) eqn:Hm; [| reflexivity].
      exfalso. apply (Hpost r' Hr'), rule_matches_spec, Hm.
  - intros Hnone. unfold categorized.
    rewrite (winning_rule_none fixed_rules t).
    + split; reflexivity.
    + apply Forall_forall. intros r Hr. apply list_elem_of_In in Hr.
      destruct (rule_matches r t) eqn:Hm; [| reflexivity].
      exfalso. apply (Hnone r Hr), rule_matches_spec, Hm.
Qed.

(** The frame with the one row [shop_at_station]. *)
Lemma apply_fixed_rules_last_match_wins_witness :
  ({[ 1%positive := [Sample.shop_at_station] ]} : Heap) !! 1%positive
  = Some [Sample.shop_at_station]
  /\ @parse_date_column Reference.backend [Sample.shop_at_station]
     = Ok [Sample.shop_at_station]
  /\ Forall (fun t => answers t = true) [Sample.shop_at_station]
  /\ exists h' rows' flags,
       @apply_fixed_rules Reference.backend 1%positive
         {[ 1%positive := [Sample.shop_at_station] ]} = (Ok tt, h')
       /\ h' !! 1%positive = Some rows'
       /\ length rows' = length [Sample.shop_at_station]
       /\ fst (@flag_recurring Reference.backend 1%positive
                 {[ 1%positive := [Sample.shop_at_station] ]}) = Ok flags
       /\ forall i t, [Sample.shop_at_station] !! i = Some t ->
            exists t',
              rows' !! i = Some t'
              /\ (date t' = date t /\ sender t' = sender t /\ recipient t' = recipient t
                  /\ description t' = description t /\ amount t' = amount t
                  /\ balance t' = balance t /\ extras t' = extras t)
              /\ is_recurring t' = nth i flags false
              /\ (forall pre r post,
                     fixed_rules = (pre ++ r :: post)%list ->
                     @holds_keyword Reference.backend r t ->
                     (forall r', In r' post -> ~ @holds_keyword Reference.backend r' t) ->
                     concept t' = rule_concept r /\ is_essential t' = rule_is_essential r)
              /\ ((forall r, In r fixed_rules -> ~ @holds_keyword Reference.backend r t) ->
                    concept t' = "Others" /\ is_essential t' = false).
Proof.
  assert (Hall : Forall (fun t => answers t = true) [Sample.shop_at_station])
    by (repeat constructor).
  split; [reflexivity |]. split; [reflexivity |]. split; [exact Hall |].
  apply (@apply_fixed_rules_last_match_wins Reference.backend
           {[ 1%positive := [Sample.shop_at_station] ]} 1%positive
           [Sample.shop_at_station] [Sample.shop_at_station]);
    [reflexivity | reflexivity | exact Hall].
Defined.

(** C4 as stated fails on a batch that holds a missing description in a
    column of dtype [object]: the first row holds the keyword "carrefour"
    of "Groceries", and [apply_fixed_rules] raises at the first rule and
    leaves it with "Others", which is the category of no rule. *)
Lemma apply_fixed_rules_missing_description_counterexample :
  In (mkRule "Groceries" ["delhaize"; "carrefour"; "crf exp"; "finest globe belliard"] true)
     fixed_rules
  /\ @holds_keyword Reference.backend
       (mkRule "Groceries" ["delhaize"; "carrefour"; "crf exp"; "finest globe belliard"]
          true)
       Sample.shop_at_station
  /\ @apply_fixed_rules Reference.backend 1%positive
       {[ 1%positive := [Sample.shop_at_station; Sample.undescribed] ]}
     = (Raise ValueError,
        {[ 1%positive := [ set_concept "Others" Sample.shop_at_station;
                           set_concept "Others" Sample.undescribed ];
           2%positive := [Sample.shop_at_station; Sample.undescribed] ]})
  /\ concept (set_concept "Others" Sample.shop_at_station) = "Others"
  /\ forall r, In r fixed_rules -> rule_concept r <> "Others".
Proof.
  split; [right; right; left; reflexivity |]. split.
  { exists "carrefour", "Carrefour Express STIB Merode", "", " express stib merode".
    split; [right; left; reflexivity |]. split; reflexivity. }
  split; [vm_compute; reflexivity |]. split; [reflexivity |].
  intros r Hr. unfold fixed_rules in Hr. simpl in Hr.
  repeat (destruct Hr as [<- | Hr]; [discriminate |]). destruct Hr.
Qed.

(** The call on the frame with the one row [shop_at_station]: frame 1 is
    annotated in place, frame 2 is the copy [flag_recurring] made. *)
Example apply_fixed_rules_sample :
  @apply_fixed_rules Reference.backend 1%positive
    {[ 1%positive := [Sample.shop_at_station] ]}
  = (Ok tt,
     {[ 1%positive :=
          [ mkTransaction (DTs 20490) "General" (Some "BE55")
              (Text "Carrefour Express STIB Merode")
              (-7.5)%float 4977%float false true "Transport" [] ];
        2%positive := [Sample.shop_at_station] ]}).
Proof. vm_compute. reflexivity. Qed.

(** "carrefour" is a keyword of "Groceries" and "stib" one of "Transport",
    which is declared later. *)
Example later_rule_wins :
  @categorized Reference.backend fixed_rules false Sample.shop_at_station
  = mkTransaction (DTs 20490) "General" (Some "BE55")
      (Text "Carrefour Express STIB Merode")
      (-7.5)%float 4977%float false true "Transport" [].
Proof. reflexivity. Qed.

(** The Kelvin sign is lower-cased to [k]: "KBC Plus" written with it is a
    subscription. *)
Example kelvin_sign_matches :
  @categorized Reference.backend fixed_rules false
    (mkTransaction (DTs 20490) "General" None
       (Text (String (ascii_of_nat 226) (String (ascii_of_nat 132)
                (String (ascii_of_nat 170) "BC Plus"))))
       (-3)%float 10%float false false "" [])
  = mkTransaction (DTs 20490) "General" None
       (Text (String (ascii_of_nat 226) (String (ascii_of_nat 132)
                (String (ascii_of_nat 170) "BC Plus"))))
       (-3)%float 10%float false false "Subscriptions" [].
Proof. reflexivity. Qed.

Lemma no_capital_app (a b : string) :
  Str.no_capital (a ++ b) = Str.no_capital a && Str.no_capital b.
Proof.
  induction a as [|c a IH]; [reflexivity |].
  rewrite str_app_cons. simpl. rewrite IH, andb_assoc. reflexivity.
Qed.

(** The keyword of "Insurance" holds capital letters and the description
    is case-folded before the test: the rule matches no transaction. *)
Lemma insurance_never_matches `{Backend} (t : Transaction) :
  rule_matches (mkRule "Insurance" ["FMSB-FSMB"] true) t = false.
Proof.
  destruct (rule_matches _ t) eqn:Hm; [| reflexivity]. exfalso.
  apply rule_matches_spec in Hm as (k & d & pre & post & Hk & _ & Hd).
  destruct Hk as [<- | []].
  pose proof (lower_no_capital d) as Hlow.
  rewrite Hd, !no_capital_app in Hlow.
  apply andb_true_iff in Hlow as [_ Hlow]. apply andb_true_iff in Hlow as [Hlow _].
  discriminate.
Qed.

(** ** ForecastEngine *)

(** A grid none of whose dates carries an observation is observed as 0.0
    throughout: [reindex] keeps exact labels only, so [ffill] has nothing
    to carry forward. *)
Lemma observed_off_grid (s : Series) (grid : list Z) :
  Forall (fun g => List.find (fun kv => fst kv =? g) s = None) grid ->
  fillna 0%float (ffill (reindex s grid)) = List.map (fun g => (g, 0%float)) grid.
Proof.
  unfold ffill, reindex. induction 1 as [|g grid Hg _ IH]; [reflexivity |].
  simpl. rewrite Hg. simpl. f_equal. exact IH.
Qed.

(** The observed series [sarima] returns is the one [observe] computes. *)
Lemma sarima_observed (B : Backend) (data : DataFrame) (horizon : nat)
    (freq : Frequency) (res : ForecastResult) :
  @sarima B data horizon freq = Ok res ->
  @observe B freq data = Ok (observed_cumulative res).
Proof.
  unfold sarima. destruct (observe freq data) as [obs|]; [| discriminate].
  cbn [mbind result_bind rbind].
  destruct obs as [|[d v] obs']; [discriminate |].
  cbn [mbind result_bind rbind].
  destruct (List.last _ None) as [[d' v']|]; [| discriminate].
  cbn [mbind result_bind rbind].
  destruct (sarimax_forecast _ horizon) as [[mean ci]|]; [| discriminate].
  cbn [mbind result_bind rbind].
  match goal with |- context [if ?c then _ else _] => destruct c end;
    [discriminate |].
  intros [= <-]. reflexivity.
Qed.

(** C2. For the two transactions of 2026-01-01 (balance 5000) and
    2026-02-01 (balance 3500) at month-end frequency, the grid is the one
    date 2026-01-31 and the observed cumulative series is 0.0 there, in
    [observe] and in whatever [sarima] returns. *)
Theorem observed_cumulative_month_end_example :
  Calendar.civil_from_days 20454 = (2026, 1, 1)
  /\ Calendar.civil_from_days 20485 = (2026, 2, 1)
  /\ Calendar.civil_from_days 20484 = (2026, 1, 31)
  /\ date_range MonthEnd 20454 20485 = [20484]
  /\ (forall B : Backend,
        @observe B MonthEnd Sample.two_transactions = Ok [(20484, 0%float)])
  /\ forall (B : Backend) (horizon : nat),
       match @sarima B Sample.two_transactions horizon MonthEnd with
       | Ok res => observed_cumulative res = [(20484, 0%float)]
       | Raise _ => True
       end.
Proof.
  assert (Hobs : forall B : Backend,
             @observe B MonthEnd Sample.two_transactions = Ok [(20484, 0%float)])
    by (intros B; vm_compute; reflexivity).
  do 4 (split; [vm_compute; reflexivity |]). split; [exact Hobs |].
  intros B horizon.
  destruct (sarima Sample.two_transactions horizon MonthEnd) as [res|] eqn:Hres;
    [| exact I].
  apply sarima_observed in Hres. rewrite Hobs in Hres. congruence.
Qed.

(** C7. A single transaction dated inside a month gives, at month-end
    frequency, an observed series with no point, and [sarima] raises
    [IndexError] on it; on no transaction at all it raises [ValueError].
    Neither reaches the estimator. *)
Theorem sarima_raises_without_observed_points (B : Backend) (horizon : nat)
    (freq : Frequency) :
  @observe B MonthEnd Sample.mid_month = Ok []
  /\ @sarima B Sample.mid_month horizon MonthEnd = Raise IndexError
  /\ @sarima B [] horizon freq = Raise ValueError.
Proof.
  assert (Hobs : @observe B MonthEnd Sample.mid_month = Ok [])
    by (vm_compute; reflexivity).
  split; [exact Hobs |]. split.
  - unfold sarima. rewrite Hobs. reflexivity.
  - reflexivity.
Qed.

(** With a horizon of 0 the forecast index is empty, and the outcome of
    [sarima] is the estimator's: empty series when it answers a request
    for no step with an empty forecast, its exception when it raises. *)
Lemma sarima_zero_horizon (B : Backend) (data : DataFrame) (freq : Frequency)
    (d : Z) (v : float) (obs : Series) :
  @observe B freq data = Ok ((d, v) :: obs) ->
  @sarima B data 0 freq
  = match sarimax_forecast (List.map snd (fillna v (diff ((d, v) :: obs)))) 0 with
    | Ok ([], []) => Ok (mkForecastResult [] [] [] [] ((d, v) :: obs) freq)
    | Ok _ => Raise ValueError
    | Raise e => Raise e
    end.
Proof.
  intros Hobs. unfold sarima. rewrite Hobs. cbn [mbind result_bind rbind].
  destruct (List.last (List.map Some ((d, v) :: obs)) None) as [[d' v']|] eqn:Hlast.
  - cbn [mbind result_bind rbind].
    destruct (sarimax_forecast _ 0) as [[[|m mean] [|c ci]]|]; reflexivity.
  - exfalso. clear Hobs. revert Hlast. generalize (d, v) as x.
    induction obs as [|y obs IH]; intros x; [discriminate |]. apply (IH y).
Qed.

(** ** Orders and sorting *)

Section OrderingFacts.
Context {A : Type} (cmp : A -> A -> comparison) (Hcmp : Ordering cmp).

Lemma le_of_total (a b : A) : le_of (cmp a b) = true \/ le_of (cmp b a) = true.
Proof.
  rewrite (cmp_antisym cmp Hcmp a b). destruct (cmp b a); simpl; auto.
Qed.

Lemma le_of_trans (a b c : A) :
  le_of (cmp a b) = true -> le_of (cmp b c) = true -> le_of (cmp a c) = true.
Proof.
  destruct (cmp a b) eqn:Hab; try discriminate; intros _;
    destruct (cmp b c) eqn:Hbc; try discriminate; intros _.
  - apply (cmp_eq cmp Hcmp) in Hab as ->. rewrite Hbc. reflexivity.
  - apply (cmp_eq cmp Hcmp) in Hab as ->. rewrite Hbc. reflexivity.
  - apply (cmp_eq cmp Hcmp) in Hbc as <-. rewrite Hab. reflexivity.
  - rewrite (cmp_lt_trans cmp Hcmp a b c Hab Hbc). reflexivity.
Qed.

Lemma ordering_option : Ordering (opt_compare cmp).
Proof.
  split.
  - intros [a|] [b|]; simpl; try discriminate; [| reflexivity].
    intros Hab. f_equal. apply (cmp_eq cmp Hcmp), Hab.
  - intros [a|]; simpl; [apply (cmp_refl cmp Hcmp) | reflexivity].
  - intros [a|] [b|]; simpl; try reflexivity. apply (cmp_antisym cmp Hcmp).
  - intros [a|] [b|] [c|]; simpl; try discriminate; try reflexivity.
    apply (cmp_lt_trans cmp Hcmp).
Qed.

End OrderingFacts.

Lemma ordering_lex {A B} (c1 : A -> A -> comparison) (c2 : B -> B -> comparison) :
  Ordering c1 -> Ordering c2 -> Ordering (lex_compare c1 c2).
Proof.
  intros H1 H2. split.
  - intros [a1 b1] [a2 b2]. unfold lex_compare. simpl.
    destruct (c1 a1 a2) eqn:Ha; try discriminate. intros Hb.
    apply (cmp_eq c1 H1) in Ha. apply (cmp_eq c2 H2) in Hb. congruence.
  - intros [a b]. unfold lex_compare. simpl.
    rewrite (cmp_refl c1 H1). apply (cmp_refl c2 H2).
  - intros [a1 b1] [a2 b2]. unfold lex_compare. simpl.
    rewrite (cmp_antisym c1 H1 a1 a2).
    destruct (c1 a2 a1); simpl; try reflexivity. apply (cmp_antisym c2 H2).
  - intros [a1 b1] [a2 b2] [a3 b3]. unfold lex_compare. simpl.
    destruct (c1 a1 a2) eqn:H12; try discriminate;
      destruct (c1 a2 a3) eqn:H23; try discriminate.
    + apply (cmp_eq c1 H1) in H12 as ->. rewrite H23. apply (cmp_lt_trans c2 H2).
    + apply (cmp_eq c1 H1) in H12 as ->. rewrite H23. reflexivity.
    + apply (cmp_eq c1 H1) in H23 as <-. rewrite H12. reflexivity.
    + rewrite (cmp_lt_trans c1 H1 _ _ _ H12 H23). reflexivity.
Qed.

Lemma ordering_Z : Ordering Z.compare.
Proof.
  split.
  - apply Z.compare_eq.
  - apply Z.compare_refl.
  - intros a b. apply Z.compare_antisym.
  - intros a b c. rewrite !Z.compare_lt_iff. lia.
Qed.

Lemma ordering_ascii : Ordering Ascii.compare.
Proof.
  split.
  - apply Ascii.compare_eq_iff.
  - intros a. apply N.compare_refl.
  - apply Ascii.compare_antisym.
  - intros a b c. unfold Ascii.compare. rewrite !N.compare_lt_iff. lia.
Qed.

Lemma ordering_string : Ordering String.compare.
Proof.
  split.
  - apply String.compare_eq_iff.
  - intros s. induction s as [|c s IH]; simpl; [reflexivity |].
    rewrite (cmp_refl _ ordering_ascii). exact IH.
  - apply String.compare_antisym.
  - intros s1. induction s1 as [|c1 s1 IH]; intros [|c2 s2] [|c3 s3]; simpl;
      try discriminate; try reflexivity.
    destruct (Ascii.compare c1 c2) eqn:H12; try discriminate;
      destruct (Ascii.compare c2 c3) eqn:H23; try discriminate.
    + apply (cmp_eq _ ordering_ascii) in H12 as ->. rewrite H23. apply IH.
    + apply (cmp_eq _ ordering_ascii) in H12 as ->. rewrite H23. reflexivity.
    + apply (cmp_eq _ ordering_ascii) in H23 as <-. rewrite H12. reflexivity.
    + rewrite (cmp_lt_trans _ ordering_ascii _ _ _ H12 H23). reflexivity.
Qed.

Lemma sort_compare_lex (a b : Transaction) :
  sort_compare a b
  = lex_compare (opt_compare String.compare) (opt_compare Z.compare)
      (sort_key a) (sort_key b).
Proof. reflexivity. Qed.

Lemma ordering_sort_key :
  Ordering (lex_compare (opt_compare String.compare) (opt_compare Z.compare)).
Proof.
  apply ordering_lex; apply ordering_option; [apply ordering_string | apply ordering_Z].
Qed.

Lemma recipient_date_le_total (a b : IRow) :
  recipient_date_le a b = true \/ recipient_date_le b a = true.
Proof.
  unfold recipient_date_le. rewrite !sort_compare_lex.
  apply (le_of_total _ ordering_sort_key).
Qed.

Lemma recipient_date_le_trans (a b c : IRow) :
  recipient_date_le a b = true -> recipient_date_le b c = true ->
  recipient_date_le a c = true.
Proof.
  unfold recipient_date_le. rewrite !sort_compare_lex.
  apply (le_of_trans _ ordering_sort_key).
Qed.

(** Inside a group the two-key order is the order of the dates. *)
Lemma recipient_date_le_in_group (t : Transaction) (a b : IRow) :
  same_recipient (snd a) t = true -> same_recipient (snd b) t = true ->
  recipient_date_le a b = date_only_le a b.
Proof.
  unfold same_recipient, recipient_date_le, date_only_le, date_le, sort_compare.
  destruct (recipient (snd a)) as [ra|]; [| discriminate].
  destruct (recipient (snd b)) as [rb|]; [| discriminate].
  destruct (recipient t) as [r|]; [| discriminate].
  intros Ha%String.eqb_eq Hb%String.eqb_eq. subst. simpl.
  rewrite (cmp_refl _ ordering_string). reflexivity.
Qed.

Section SortFacts.
Context {A : Type} (le : A -> A -> bool).

Lemma insert_by_perm (x : A) (l : list A) : Permutation (insert_by le x l) (x :: l).
Proof.
  induction l as [|y l IH]; simpl; [reflexivity |].
  destruct (le x y); [reflexivity |].
  rewrite IH. apply perm_swap.
Qed.

Lemma sort_by_perm (l : list A) : Permutation (sort_by le l) l.
Proof.
  induction l as [|x l IH]; simpl; [reflexivity |].
  rewrite insert_by_perm, IH. reflexivity.
Qed.

Hypothesis le_total : forall a b, le a b = true \/ le b a = true.
Hypothesis le_trans : forall a b c, le a b = true -> le b c = true -> le a c = true.

Lemma insert_by_sorted (x : A) (l : list A) :
  StronglySorted (fun a b => le a b = true) l ->
  StronglySorted (fun a b => le a b = true) (insert_by le x l).
Proof.
  induction 1 as [|y l Hl IH Hy]; simpl.
  - repeat constructor.
  - destruct (le x y) eqn:Hxy.
    + constructor; [constructor; assumption |].
      constructor; [exact Hxy |].
      eapply Forall_impl; [exact Hy |]. intros z Hz. eapply le_trans; eassumption.
    + constructor; [exact IH |].
      rewrite (insert_by_perm x l). constructor; [| exact Hy].
      destruct (le_total x y) as [Hle | Hle]; congruence.
Qed.

Lemma sort_by_sorted (l : list A) :
  StronglySorted (fun a b => le a b = true) (sort_by le l).
Proof.
  induction l as [|x l IH]; simpl; [constructor |].
  apply insert_by_sorted, IH.
Qed.

(** Sorting the whole frame and then keeping a group is sorting the
    group, when the two orders agree inside the group. *)
Context (led : A -> A -> bool) (p : A -> bool).
Hypothesis le_on_p : forall a b, p a = true -> p b = true -> le a b = led a b.

Lemma filter_insert_out (x : A) (l : list A) :
  p x = false -> List.filter p (insert_by le x l) = List.filter p l.
Proof.
  intros Hx. induction l as [|y l IH]; simpl.
  - rewrite Hx. reflexivity.
  - destruct (le x y); simpl.
    + rewrite Hx. reflexivity.
    + rewrite IH. reflexivity.
Qed.

Lemma filter_insert_in (x : A) (l : list A) :
  StronglySorted (fun a b => le a b = true) l ->
  p x = true ->
  List.filter p (insert_by le x l) = insert_by led x (List.filter p l).
Proof.
  intros Hsorted Hx. induction Hsorted as [|y l Hl IH Hy].
  - simpl. rewrite Hx. reflexivity.
  - cbn [insert_by]. destruct (le x y) eqn:Hxy.
    + remember (y :: l) as yl eqn:Hyl. simpl. rewrite Hx.
      destruct (List.filter p yl) as [|z F] eqn:HF; [reflexivity |].
      assert (Hz : In z yl /\ p z = true).
      { apply filter_In. rewrite HF. left. reflexivity. }
      destruct Hz as [Hin Hpz]. simpl.
      rewrite <- (le_on_p x z Hx Hpz).
      assert (Hxz : le x z = true).
      { subst yl. destruct Hin as [<- | Hin]; [exact Hxy |].
        apply (le_trans x y z Hxy). rewrite Forall_forall in Hy.
        apply Hy, list_elem_of_In, Hin. }
      rewrite Hxz. reflexivity.
    + simpl. destruct (p y) eqn:Hpy.
      * rewrite IH. simpl. rewrite <- (le_on_p x y Hx Hpy), Hxy. reflexivity.
      * exact IH.
Qed.

Lemma filter_sort_by (l : list A) :
  List.filter p (sort_by le l) = sort_by led (List.filter p l).
Proof.
  induction l as [|x l IH]; simpl; [reflexivity |].
  destruct (p x) eqn:Hx.
  - rewrite filter_insert_in by (apply sort_by_sorted || exact Hx).
    simpl. rewrite IH. reflexivity.
  - rewrite filter_insert_out by exact Hx. exact IH.
Qed.

End SortFacts.

(** ** Sorting on one key *)

Lemma map_lookup {A B} (f : A -> B) (l : list A) (i : nat) :
  List.map f l !! i = f <$> (l !! i).
Proof.
  revert i. induction l as [|x l IH]; intros [|i]; simpl; try reflexivity. apply IH.
Qed.

Lemma take_rows_from {A} (rows : list A) :
  forall pre, take_rows (seq (length pre) (length rows)) (pre ++ rows)%list = rows.
Proof.
  unfold take_rows. induction rows as [|x rows IH]; intros pre; [reflexivity |].
  cbn [length seq omap list_omap]. rewrite list_lookup_middle by reflexivity.
  f_equal. specialize (IH (pre ++ [x])%list).
  rewrite <- app_assoc, length_app in IH. simpl in IH.
  rewrite Nat.add_1_r in IH. exact IH.
Qed.

Lemma take_rows_all {A} (rows : list A) : take_rows (seq 0 (length rows)) rows = rows.
Proof. apply (take_rows_from rows []). Qed.

(** Taking the rows in an order that holds every label once is a
    permutation of the rows. *)
Lemma take_rows_perm {A} (order : list nat) (rows : list A) :
  Permutation order (seq 0 (length rows)) -> Permutation (take_rows order rows) rows.
Proof.
  intros Hperm. rewrite <- (take_rows_all rows) at 2.
  unfold take_rows. apply omap_Permutation, Hperm.
Qed.

Lemma take_rows_In {A} (order : list nat) (rows : list A) (x : A) :
  In x (take_rows order rows) -> exists i, In i order /\ rows !! i = Some x.
Proof.
  unfold take_rows. induction order as [|i order IH]; simpl; [tauto |].
  destruct (rows !! i) as [y|] eqn:Hi.
  - intros [<- | Hx]; [eauto |]. destruct (IH Hx) as (j & Hj & Hx'). eauto.
  - intros Hx. destruct (IH Hx) as (j & Hj & Hx'). eauto.
Qed.

Lemma take_rows_sorted {A} (R : nat -> nat -> Prop) (R' : A -> A -> Prop)
    (order : list nat) (rows : list A) :
  (forall i j x y, R i j -> rows !! i = Some x -> rows !! j = Some y -> R' x y) ->
  StronglySorted R order -> StronglySorted R' (take_rows order rows).
Proof.
  intros HR. induction 1 as [|i order Hs IH Hi]; [constructor |].
  unfold take_rows. cbn [omap list_omap]. fold (take_rows order rows).
  destruct (rows !! i) as [x|] eqn:Hx; [| exact IH].
  constructor; [exact IH |]. apply Forall_forall. intros y Hy.
  apply list_elem_of_In, take_rows_In in Hy as (j & Hj & Hy).
  apply (HR i j x y); [| exact Hx | exact Hy].
  apply (proj1 (Forall_forall _ _) Hi j), list_elem_of_In, Hj.
Qed.

Section OneKey.
Context `{Backend}.

Lemma key_rank_le_total (keys : list (option Z)) (a b : nat) :
  key_rank_le keys a b = true \/ key_rank_le keys b a = true.
Proof.
  unfold key_rank_le.
  rewrite (cmp_antisym _ (ordering_option _ ordering_Z) (nth a keys None) (nth b keys None)).
  destruct (opt_compare Z.compare (nth b keys None) (nth a keys None)) eqn:Hba; simpl; auto.
  apply (cmp_eq _ (ordering_option _ ordering_Z)) in Hba. rewrite Hba.
  destruct (nth a keys None); [| auto].
  destruct (Nat.leb_spec (tie_rank keys a) (tie_rank keys b)); [auto |].
  right. apply Nat.leb_le. lia.
Qed.

(** It refines the order of the keys. *)
Lemma key_rank_le_key (keys : list (option Z)) (a b : nat) :
  key_rank_le keys a b = true ->
  le_of (opt_compare Z.compare (nth a keys None) (nth b keys None)) = true.
Proof.
  unfold key_rank_le. destruct (opt_compare _ _ _); [reflexivity.. | discriminate].
Qed.

Lemma key_rank_le_trans (keys : list (option Z)) (a b c : nat) :
  key_rank_le keys a b = true -> key_rank_le keys b c = true ->
  key_rank_le keys a c = true.
Proof.
  unfold key_rank_le.
  destruct (opt_compare Z.compare (nth a keys None) (nth b keys None)) eqn:Hab;
    try discriminate;
    destruct (opt_compare Z.compare (nth b keys None) (nth c keys None)) eqn:Hbc;
    try discriminate.
  - apply (cmp_eq _ (ordering_option _ ordering_Z)) in Hab, Hbc.
    rewrite <- Hbc, <- Hab, (cmp_refl _ (ordering_option _ ordering_Z)).
    destruct (nth a keys None); [| reflexivity].
    rewrite !Nat.leb_le. lia.
  - apply (cmp_eq _ (ordering_option _ ordering_Z)) in Hab. rewrite Hab, Hbc. reflexivity.
  - apply (cmp_eq _ (ordering_option _ ordering_Z)) in Hbc. rewrite <- Hbc, Hab. reflexivity.
  - rewrite (cmp_lt_trans _ (ordering_option _ ordering_Z) _ _ _ Hab Hbc). reflexivity.
Qed.

Lemma nargsort_perm (keys : list (option Z)) :
  Permutation (nargsort keys) (seq 0 (length keys)).
Proof. apply sort_by_perm. Qed.

Lemma nargsort_sorted (keys : list (option Z)) :
  StronglySorted (fun a b => key_rank_le keys a b = true) (nargsort keys).
Proof.
  apply sort_by_sorted; [apply key_rank_le_total | apply key_rank_le_trans].
Qed.

(** [sort_values(by='date')] permutes the rows and leaves them in
    ascending order of date, [NaT] last. *)
Lemma sort_values_date_perm (rows : DataFrame) :
  Permutation (sort_values_date rows) rows.
Proof.
  apply take_rows_perm. rewrite <- (length_map (fun t => day_of (date t)) rows).
  apply nargsort_perm.
Qed.

Lemma sort_values_date_sorted (rows : DataFrame) :
  StronglySorted (fun a b => date_le a b = true) (sort_values_date rows).
Proof.
  apply (take_rows_sorted (fun a b => key_rank_le (date_keys rows) a b = true));
    [| apply nargsort_sorted].
  intros i j x y Hij Hx Hy. apply key_rank_le_key in Hij.
  unfold date_keys in Hij.
  rewrite (lookup_nth_map _ rows None i x Hx), (lookup_nth_map _ rows None j y Hy) in Hij.
  exact Hij.
Qed.


Lemma balance_sorted_sorted (data : DataFrame) :
  StronglySorted (fun a b => le_of (opt_compare Z.compare (fst a) (fst b)) = true)
                 (balance_sorted data).
Proof.
  apply (take_rows_sorted (fun a b => key_rank_le (date_keys data) a b = true));
    [| apply nargsort_sorted].
  intros i j x y Hij Hx Hy. apply key_rank_le_key in Hij.
  rewrite map_lookup in Hx, Hy.
  destruct (data !! i) as [t|] eqn:Hi; [| discriminate].
  destruct (data !! j) as [u|] eqn:Hj; [| discriminate].
  injection Hx as <-. injection Hy as <-. unfold date_keys in Hij.
  rewrite (lookup_nth_map _ data None i t Hi), (lookup_nth_map _ data None j u Hj) in Hij.
  exact Hij.
Qed.

End OneKey.

(** ** RecurrenceDetector *)

Lemma indexed_labels_from (rows : DataFrame) :
  forall k, List.map fst (combine (seq k (length rows)) rows) = seq k (length rows).
Proof.
  induction rows as [|t rows IH]; intros k; simpl; [reflexivity |].
  rewrite IH. reflexivity.
Qed.

Lemma indexed_labels (rows : DataFrame) :
  List.map fst (indexed rows) = seq 0 (length rows).
Proof. apply indexed_labels_from. Qed.

Lemma indexed_lookup_from (rows : DataFrame) :
  forall k i t, rows !! i = Some t -> In ((k + i)%nat, t) (combine (seq k (length rows)) rows).
Proof.
  induction rows as [|t0 rows IH]; intros k [|i] t Hi; simpl in *; try discriminate.
  - injection Hi as ->. left. f_equal. lia.
  - right. replace (k + S i)%nat with (S k + i)%nat by lia. apply IH, Hi.
Qed.

Lemma indexed_lookup (rows : DataFrame) (i : nat) (t : Transaction) :
  rows !! i = Some t -> In (i, t) (indexed rows).
Proof. apply (indexed_lookup_from rows 0). Qed.

(** Storing values label by label: a label outside the list keeps its
    value, a label of the list gets the value listed for it. *)
Lemma fold_insert_other {V} (rhs : list (nat * V)) (i : nat) :
  forall base : list V,
    ~ In i (List.map fst rhs) ->
    fold_left (fun acc '(j, v) => <[j := v]> acc) rhs base !! i = base !! i.
Proof.
  induction rhs as [|[j v] rhs IH]; intros base Hi; simpl in *; [reflexivity |].
  rewrite IH by tauto. apply list_lookup_insert_ne. tauto.
Qed.

Lemma fold_insert_lookup {V} (rhs : list (nat * V)) (i : nat) (v : V) :
  forall base : list V,
    List.NoDup (List.map fst rhs) ->
    In (i, v) rhs ->
    (i < length base)%nat ->
    fold_left (fun acc '(j, w) => <[j := w]> acc) rhs base !! i = Some v.
Proof.
  induction rhs as [|[j w] rhs IH]; intros base Hnd Hin Hlen; simpl in *; [tauto |].
  inversion Hnd as [|? ? Hj Hnd']; subst.
  destruct Hin as [[= -> ->] | Hin].
  - rewrite fold_insert_other by exact Hj. apply list_lookup_insert_eq. exact Hlen.
  - apply IH; [exact Hnd' | exact Hin | rewrite length_insert; exact Hlen].
Qed.

Lemma shifted_cons (before rows : list IRow) (x : IRow) :
  shifted before (x :: rows)
  = (fst x, between 27 33
              (gap_days (snd x)
                 (List.find (fun y => same_recipient (snd y) (snd x)) before)))
      :: shifted (x :: before) rows.
Proof.
  unfold shifted. destruct x as [i t]. simpl. f_equal. f_equal. f_equal.
  unfold gap_days. destruct (List.find _ before) as [y|]; simpl.
  - destruct (day_of (date t)); reflexivity.
  - destruct (day_of (date t)); reflexivity.
Qed.

Lemma shifted_labels (rows : list IRow) :
  forall before, List.map fst (shifted before rows) = List.map fst rows.
Proof.
  induction rows as [|x rows IH]; intros before; [reflexivity |].
  rewrite shifted_cons. simpl. rewrite IH. reflexivity.
Qed.

Lemma shifted_entry (s1 s2 : list IRow) (x : IRow) :
  forall before,
    In (fst x, between 27 33
                 (gap_days (snd x)
                    (List.find (fun y => same_recipient (snd y) (snd x))
                               (List.rev s1 ++ before)%list)))
       (shifted before (s1 ++ x :: s2)%list).
Proof.
  induction s1 as [|y s1 IH]; intros before.
  - simpl List.rev. simpl app. rewrite shifted_cons. left. reflexivity.
  - simpl app. rewrite shifted_cons. right.
    simpl List.rev. rewrite <- app_assoc. apply IH.
Qed.

Lemma periodic_flag_shifted (sorted : list IRow) :
  periodic_flag sorted = shifted [] sorted.
Proof. reflexivity. Qed.

Lemma find_snoc {A} (p : A -> bool) (l : list A) (a : A) :
  List.find p (l ++ [a])%list
  = match List.find p l with
    | Some y => Some y
    | None => if p a then Some a else None
    end.
Proof.
  induction l as [|x l IH]; simpl; [reflexivity |].
  destruct (p x); [reflexivity | exact IH].
Qed.

(** The first match from the end is the last one kept by the filter. *)
Lemma find_rev_last_or {A} (p : A -> bool) (l : list A) :
  forall d,
    match List.find p (List.rev l) with
    | Some y => Some y
    | None => d
    end = last_or d (List.filter p l).
Proof.
  induction l as [|a l IH]; intros d; simpl; [reflexivity |].
  rewrite find_snoc. destruct (p a); simpl.
  - rewrite <- IH. destruct (List.find p (List.rev l)); reflexivity.
  - rewrite <- IH. destruct (List.find p (List.rev l)); reflexivity.
Qed.

Lemma previous_in_split (g1 g2 : list IRow) (x : IRow) :
  forall prev,
    ~ In (fst x) (List.map fst g1) ->
    previous_in prev (g1 ++ x :: g2)%list (fst x) = last_or prev g1.
Proof.
  induction g1 as [|y g1 IH]; intros prev Hx; simpl in *.
  - rewrite Nat.eqb_refl. reflexivity.
  - destruct (Nat.eqb_spec (fst y) (fst x)) as [Heq | _]; [tauto |].
    apply IH. tauto.
Qed.

Lemma same_recipient_self (t : Transaction) :
  same_recipient t t = false -> forall y, same_recipient y t = false.
Proof.
  unfold same_recipient. destruct (recipient t) as [r|].
  - rewrite String.eqb_refl. discriminate.
  - intros _ y. destruct (recipient y); reflexivity.
Qed.

Lemma filter_none {A} (p : A -> bool) (l : list A) :
  (forall y, p y = false) -> List.filter p l = [] /\ List.find p l = None.
Proof.
  intros Hp. induction l as [|x l [IH1 IH2]]; simpl; [auto |].
  rewrite Hp. auto.
Qed.

(** The sorted group of a row is the part of the sorted frame that holds
    the rows of its recipient. *)
Lemma sorted_group_filter (rows : DataFrame) (t : Transaction) :
  sorted_group rows t
  = List.filter (fun y => same_recipient (snd y) t) (df_sorted rows).
Proof.
  unfold sorted_group, group_of, df_sorted. symmetry.
  apply filter_sort_by.
  - apply recipient_date_le_total.
  - apply recipient_date_le_trans.
  - apply recipient_date_le_in_group.
Qed.

Section RecurrenceFacts.
Context `{Backend}.

(** The flag of row [i] is [base | periodic] on the marker test of the row
    and the window test on the gap to the row before it in its sorted
    group. *)
Lemma recurring_flags_lookup (rows : DataFrame) (i : nat) (t : Transaction) :
  rows !! i = Some t ->
  recurring_flags rows !! i
  = Some (or_flag (str_test (Str.startswith marker) (description t))
                  (between 27 33 (gap_to_previous rows i t))).
Proof.
  intros Hi. set (p := fun y : IRow => same_recipient (snd y) t).
  assert (Hperm : Permutation (df_sorted rows) (indexed rows))
    by apply sort_by_perm.
  assert (Hin : In (i, t) (df_sorted rows)).
  { eapply Permutation_in; [symmetry; exact Hperm |]. apply indexed_lookup, Hi. }
  assert (Hnd : List.NoDup (List.map fst (df_sorted rows))).
  { eapply Permutation_NoDup.
    - apply Permutation_map. symmetry. exact Hperm.
    - rewrite indexed_labels. apply List.seq_NoDup. }
  apply in_split in Hin as (s1 & s2 & Hsplit).
  assert (Hfresh : ~ In i (List.map fst s1)).
  { rewrite Hsplit, List.map_app in Hnd. simpl in Hnd.
    apply List.NoDup_remove_2 in Hnd. intros Hc. apply Hnd, in_or_app. left. exact Hc. }
  (* the previous row, in the code and in the group *)
  assert (Hprev : List.find p (List.rev s1)
                  = previous_in None (sorted_group rows t) i).
  { rewrite sorted_group_filter, Hsplit, List.filter_app. fold p.
    destruct (p (i, t)) eqn:Hp.
    - simpl. rewrite Hp.
      pose proof (previous_in_split (List.filter p s1) (List.filter p s2) (i, t) None)
        as Hsp.
      cbn [fst] in Hsp. rewrite Hsp.
      + rewrite <- find_rev_last_or. destruct (List.find p (List.rev s1)); reflexivity.
      + intros Hc. apply Hfresh. apply in_map_iff in Hc as (y & Hy & Hc).
        apply filter_In in Hc as [Hc _]. apply in_map_iff. exists y. auto.
    - assert (Hnone : forall y, p y = false).
      { intros y. apply same_recipient_self. exact Hp. }
      rewrite (proj2 (filter_none p (List.rev s1) Hnone)).
      rewrite (proj1 (filter_none p s1 Hnone)).
      rewrite (proj1 (filter_none p ((i, t) :: s2) Hnone)). reflexivity. }
  unfold recurring_flags, restore_order. rewrite map_lookup.
  rewrite (fold_insert_lookup _ i
             (Some (or_flag (str_test (Str.startswith marker) (description t))
                            (between 27 33 (gap_to_previous rows i t)))));
    [reflexivity | | |].
  - rewrite List.map_map.
    erewrite map_ext; [rewrite periodic_flag_shifted, shifted_labels; exact Hnd |].
    intros [j pv]. reflexivity.
  - apply in_map_iff.
    exists (i, between 27 33 (gap_to_previous rows i t)). split.
    + unfold base_flag. rewrite (lookup_nth_map _ rows None i t Hi). reflexivity.
    + rewrite periodic_flag_shifted, Hsplit. unfold gap_to_previous.
      rewrite <- Hprev.
      pose proof (shifted_entry s1 s2 (i, t) []) as Hentry.
      rewrite app_nil_r in Hentry. exact Hentry.
  - unfold base_flag. rewrite length_map. eapply lookup_lt_Some. exact Hi.
Qed.

(** On a description that answers the test, [base | periodic] is the
    disjunction. *)
Lemma or_flag_answers (t : Transaction) (p : bool) :
  answers t = true ->
  or_flag (str_test (Str.startswith marker) (description t)) p
  = starts_with_marker t || p.
Proof.
  unfold answers, starts_with_marker, str_test, or_flag.
  destruct (description t) as [d | []]; try discriminate; reflexivity.
Qed.


(** [flag_recurring] computes the flags of the closed window from 27 to 33
    days. *)
Lemma recurring_flags_closed_window (rows : DataFrame) :
  forallb answers rows = true ->
  recurring_flags rows = flags_for (between 27 33) rows.
Proof.
  intros Hans. apply list_eq. intros i. unfold flags_for. rewrite list_lookup_imap.
  destruct (rows !! i) as [t|] eqn:Hi; simpl.
  - rewrite (recurring_flags_lookup rows i t Hi), or_flag_answers; [reflexivity |].
    apply (proj1 (forallb_forall _ _) Hans), list_elem_of_In.
    eapply list_elem_of_lookup_2, Hi.
  - apply lookup_ge_None. rewrite recurring_flags_length.
    apply lookup_ge_None. exact Hi.
Qed.

(** A column in which no cell is the cell of a numeric column has the
    accessor. *)
Lemma accessor_present (rows : DataFrame) :
  Forall (fun t => description t <> NoText numeric_dtype) rows ->
  str_accessor rows = Ok tt.
Proof.
  unfold str_accessor. induction 1 as [|t rows Ht _ IH]; simpl; [reflexivity |].
  destruct (description t) as [d | []]; try congruence; simpl; exact IH.
Qed.

End RecurrenceFacts.






(* ===================================================================== *)
(** * Part III: further properties of the code                            *)
(* ===================================================================== *)

(** ** The ingestion run *)

Lemma rfilter_In {A} (test : A -> result bool) (l : list A) :
  forall kept, rfilter test l = Ok kept -> forall x, In x kept -> In x l.
Proof.
  induction l as [|y l IH]; simpl; intros kept Hkept x Hx.
  - injection Hkept as <-. exact Hx.
  - destruct (test y) as [b|]; [| discriminate].
    destruct (rfilter test l) as [kept'|]; [| discriminate].
    injection Hkept as <-. destruct b; [destruct Hx as [-> | Hx] |]; eauto.
Qed.

Lemma get_files_listed (F : list string) (reg : RegisterFile) (reprocess : bool)
    (files : list string) (register : Loaded) :
  get_files F reg reprocess = Ok (files, register) ->
  forall file, In file files -> In file F.
Proof.
  unfold get_files. intros Hfiles file Hfile.
  destruct reprocess; [injection Hfiles as <- _; exact Hfile |].
  destruct reg as [|r| |v]; try discriminate.
  - injection Hfiles as <- _. exact Hfile.
  - injection Hfiles as <- _. apply filter_In in Hfile. tauto.
  - destruct (rfilter (not_in v) F) as [kept|] eqn:Hkept; [| discriminate].
    injection Hfiles as <- _. apply (rfilter_In _ _ _ Hkept), Hfile.
Qed.

(** The files a listing returns together with a dict are not keys of it,
    and together with its keys they cover the directory. *)
Lemma get_files_cover (F : list string) (reg : RegisterFile) (reprocess : bool)
    (files : list string) (register : Register) :
  get_files F reg reprocess = Ok (files, Dict register) ->
  (forall file, In file files -> register !! file = None)
  /\ (forall file, In file F -> In file files \/ file ∈ dom register).
Proof.
  unfold get_files. intros Hfiles.
  assert (Hall : files = F /\ register = ∅ ->
                 (forall file, In file files -> register !! file = None)
                 /\ (forall file, In file F -> In file files \/ file ∈ dom register)).
  { intros [-> ->]. split; [intros; apply lookup_empty | auto]. }
  destruct reprocess; [apply Hall; split; congruence |].
  destruct reg as [|r| |v]; try discriminate.
  - apply Hall; split; congruence.
  - injection Hfiles as <- <-. split.
    + intros file Hfile. apply filter_In in Hfile as [_ Hout].
      apply negb_true_iff in Hout. apply not_elem_of_dom.
      rewrite <- in_register_dom. congruence.
    + intros file Hfile. destruct (in_register file r) eqn:Hin.
      * right. apply in_register_dom, Hin.
      * left. apply filter_In. rewrite Hin. auto.
  - destruct (rfilter (not_in v) F); discriminate.
Qed.

Lemma mark_processed_other (clock : nat -> string) (files : list string) (file : string) :
  forall (k : nat) (r : Register),
    ~ In file files -> mark_processed clock k files r !! file = r !! file.
Proof.
  induction files as [|f rest IH]; intros k r Hfile; simpl in *; [reflexivity |].
  rewrite IH by tauto. apply lookup_insert_ne. tauto.
Qed.

Lemma nothing_pending (F : list string) (r : Register) :
  (forall file, In file F -> file ∈ dom r) ->
  List.filter (fun file => negb (in_register file r)) F = [].
Proof.
  intros Hall. induction F as [|f F IH]; simpl; [reflexivity |].
  rewrite (proj2 (in_register_dom f r)) by (apply Hall; left; reflexivity).
  simpl. apply IH. intros file Hfile. apply Hall. right. exact Hfile.
Qed.

Section RunFacts.
Context `{Backend}.

(** A run that raises has written nothing when it is a reprocessing run,
    or when the register file is absent, is no JSON, or holds a JSON
    object: the persisted table, the register and every other file are as
    before the run. *)
Theorem preprocessing_raise_writes_nothing (reprocess : bool) (w w' : World) (e : exn) :
  reprocess = true \/ (forall v, register_file w <> RegOther v) ->
  preprocessing reprocess w = (Raise e, w') -> w' = w.
Proof.
  intros Hguard Hrun.
  destruct (preprocessing_raise_outcome reprocess w w' e Hrun)
    as [Heq | (Hinc & _ & v & file & files & df & old & Hfiles & _)]; [exact Heq |].
  exfalso. destruct Hguard as [Hre | Hreg]; [congruence |].
  unfold get_files in Hfiles.
  destruct (register_file w) as [|r| |v'] eqn:Hfile; try discriminate.
  apply (Hreg v'). reflexivity.
Qed.

(** A register file that holds a JSON array or a JSON string is read
    without complaint, and the run fails only at its end: an incremental
    run with pending files, a batch that builds and a table that loads
    writes the table with the batch appended and then raises [TypeError],
    leaving the register as it was, so that the same files are pending in
    the next run. *)
Theorem preprocessing_raises_after_write (w : World) (v : NonObject) (file : string)
    (files : list string) (df old : DataFrame) :
  get_files (List.map fst (raw_dir w)) (register_file w) false
  = Ok (file :: files, NotDict v) ->
  new_batch (raw_dir w) (file :: files) (general_ending w) (savings_ending w) = Ok df ->
  load w = Ok old ->
  exists w',
    preprocessing false w = (Raise TypeError, w')
    /\ transactions_file w' = Some (old ++ df)%list
    /\ register_file w' = register_file w
    /\ raw_dir w' = raw_dir w
    /\ register_file w = RegOther v.
Proof.
  intros Hfiles Hbatch Hload. unfold preprocessing. rewrite Hfiles, Hbatch, Hload.
  eexists. split; [reflexivity |]. split; [reflexivity |].
  split; [reflexivity |]. split; [reflexivity |].
  unfold get_files in Hfiles.
  destruct (register_file w) as [|r| |v']; try discriminate.
  destruct (rfilter (not_in v') _); [| discriminate]. congruence.
Qed.

(** A run with nothing pending. *)
Lemma nothing_pending_run (w : World) (r : Register) :
  register_file w = RegJson r ->
  (forall file, In file (List.map fst (raw_dir w)) -> file ∈ dom r) ->
  preprocessing false w = (Ok tt, w).
Proof.
  intros Hreg Hall. unfold preprocessing, get_files. rewrite Hreg.
  rewrite (nothing_pending _ r Hall). reflexivity.
Qed.

(** When every file of the raw directory is in the register, an
    incremental run returns without reading or writing anything. *)
Theorem preprocessing_nothing_pending (w : World) (r : Register) :
  register_file w = RegJson r ->
  (forall file, In file (List.map fst (raw_dir w)) -> file ∈ dom r) ->
  preprocessing false w = (Ok tt, w).
Proof. apply nothing_pending_run. Qed.

(** What a run that returns has done: nothing when no file was pending;
    otherwise the register it read is a dict, and it has written the
    table and a register that holds the register it read and every
    pending file. *)
Lemma preprocessing_returns (reprocess : bool) (w w' : World) :
  preprocessing reprocess w = (Ok tt, w') ->
  exists files loaded,
    get_files (List.map fst (raw_dir w)) (register_file w) reprocess
    = Ok (files, loaded)
    /\ (files = [] /\ w' = w
        \/ exists register df table,
             loaded = Dict register
             /\ files <> []
             /\ new_batch (raw_dir w) files (general_ending w) (savings_ending w) = Ok df
             /\ w' = write_register (mark_processed (now w) 0 files register)
                       (write_transactions table w)
             /\ (if reprocess then table = df
                 else exists old, load w = Ok old /\ table = (old ++ df)%list)).
Proof.
  unfold preprocessing.
  destruct (get_files _ _ _) as [[files loaded]|] eqn:Hfiles; [| discriminate].
  destruct files as [|file files].
  - intros [= <-]. exists [], loaded. split; [reflexivity |]. left. auto.
  - destruct (new_batch _ _ _ _) as [df|] eqn:Hbatch; [| discriminate].
    destruct reprocess.
    + intros [= <-]. exists (file :: files), loaded. split; [reflexivity | right].
      assert (loaded = Dict ∅) as -> by (unfold get_files in Hfiles; congruence).
      exists ∅, df, df. repeat split; congruence.
    + destruct (load w) as [old|] eqn:Hload; [| discriminate].
      destruct loaded as [register|v]; [| discriminate].
      intros [= <-]. exists (file :: files), (Dict register).
      split; [reflexivity | right].
      exists register, df, (old ++ df)%list. repeat split; try congruence. eauto.
Qed.

(** Ingestion is idempotent: after a run that returned, on a raw directory
    that is not empty, an incremental run finds nothing pending and leaves
    every file as it is. *)
Theorem preprocessing_rerun_is_noop (reprocess : bool) (w w' : World) :
  raw_dir w <> [] ->
  preprocessing reprocess w = (Ok tt, w') ->
  preprocessing false w' = (Ok tt, w').
Proof.
  intros Hdir Hrun.
  destruct (preprocessing_returns reprocess w w' Hrun)
    as (files & loaded & Hfiles
        & [[-> ->] | (register & df & table & -> & Hne & _ & -> & _)]).
  - (* nothing was pending *)
    destruct reprocess; [| exact Hrun].
    unfold get_files in Hfiles. injection Hfiles as Hf _.
    destruct (raw_dir w); [congruence | discriminate].
  - apply (nothing_pending_run _ (mark_processed (now w) 0 files register));
      [reflexivity |].
    intros file Hfile. simpl in Hfile.
    rewrite mark_processed_dom. apply elem_of_union.
    destruct (get_files_cover _ _ _ _ _ Hfiles) as [_ Hcover].
    destruct (Hcover file Hfile) as [Hin | Hin]; [right | left; exact Hin].
    apply elem_of_list_to_set, list_elem_of_In, Hin.
Qed.

(** An incremental run never removes or changes an entry of the register:
    the register on disk afterwards extends the one before. *)
Theorem preprocessing_keeps_register_entries (w w' : World) (r : Register) :
  register_file w = RegJson r ->
  preprocessing false w = (Ok tt, w') ->
  exists r', register_file w' = RegJson r' /\ r ⊆ r'.
Proof.
  intros Hreg Hrun.
  destruct (preprocessing_returns false w w' Hrun)
    as (files & loaded & Hfiles
        & [[-> ->] | (register & df & table & -> & _ & _ & -> & _)]).
  - exists r. split; [exact Hreg | reflexivity].
  - exists (mark_processed (now w) 0 files register). split; [reflexivity |].
    destruct (get_files_cover _ _ _ _ _ Hfiles) as [Hfresh _].
    assert (register = r) as ->.
    { unfold get_files in Hfiles. rewrite Hreg in Hfiles. congruence. }
    apply map_subseteq_spec. intros file stamp Hstamp.
    rewrite mark_processed_other; [exact Hstamp |].
    intros Hin. rewrite (Hfresh file Hin) in Hstamp. discriminate.
Qed.

(** A reprocessing run that returns, on a raw directory that is not empty,
    replaces the persisted table by the batch of all raw files and the
    register by one whose keys are the names of the raw directory, whatever
    table and register were there before. *)
Theorem preprocessing_reprocess_replaces (w w' : World) :
  raw_dir w <> [] ->
  preprocessing true w = (Ok tt, w') ->
  exists df r',
    new_batch (raw_dir w) (List.map fst (raw_dir w)) (general_ending w)
      (savings_ending w) = Ok df
    /\ transactions_file w' = Some df
    /\ register_file w' = RegJson r'
    /\ dom r' = list_to_set (List.map fst (raw_dir w)).
Proof.
  intros Hdir Hrun.
  destruct (preprocessing_returns true w w' Hrun)
    as (files & loaded & Hfiles
        & [[-> ->] | (register & df & table & -> & _ & Hbatch & -> & ->)]).
  - unfold get_files in Hfiles. injection Hfiles as Hf _.
    destruct (raw_dir w); [congruence | discriminate].
  - unfold get_files in Hfiles. injection Hfiles as <- <-.
    exists df, (mark_processed (now w) 0 (List.map fst (raw_dir w)) ∅).
    split; [exact Hbatch |]. split; [reflexivity |]. split; [reflexivity |].
    rewrite mark_processed_dom, dom_empty_L. apply (left_id_L ∅ (∪)).
Qed.

(** Before any table was persisted, an incremental run with pending files
    whose batch is well formed raises [FileNotFoundError] and writes
    nothing: the first ingestion has to be a reprocessing run. *)
Theorem preprocessing_first_run_needs_reprocess (w : World) (file : string)
    (files : list string) (register : Loaded) (df : DataFrame) :
  transactions_file w = None ->
  get_files (List.map fst (raw_dir w)) (register_file w) false
  = Ok (file :: files, register) ->
  new_batch (raw_dir w) (file :: files) (general_ending w) (savings_ending w) = Ok df ->
  preprocessing false w = (Raise FileNotFoundError, w).
Proof.
  intros Htable Hfiles Hbatch. unfold preprocessing.
  rewrite Hfiles, Hbatch. unfold load. rewrite Htable. reflexivity.
Qed.

(** When the first pending name opens as a file and no pending name ends
    in [.csv], the run raises [ValueError] (there is nothing to
    concatenate) and writes nothing, so the pending files stay pending. *)
Theorem preprocessing_no_csv_pending (reprocess : bool) (w : World) (file : string)
    (files : list string) (register : Loaded) (f : RawFile) :
  get_files (List.map fst (raw_dir w)) (register_file w) reprocess
  = Ok (file :: files, register) ->
  open_raw (raw_dir w) file = Ok f ->
  (forall name, In name (file :: files) -> ~ csv_name name) ->
  preprocessing reprocess w = (Raise ValueError, w).
Proof.
  intros Hfiles Hopen Hnone. unfold preprocessing. rewrite Hfiles.
  assert (Hcsv : csv_files (file :: files) = []).
  { unfold csv_files.
    destruct (List.filter _ (file :: files)) as [|name names] eqn:Hkept; [reflexivity |].
    exfalso. assert (Hname : In name (List.filter (Str.endswith ".csv") (file :: files)))
      by (rewrite Hkept; left; reflexivity).
    apply filter_In in Hname as [Hin Hends].
    apply (Hnone name Hin), endswith_suffix, Hends. }
  assert (Hbatch : new_batch (raw_dir w) (file :: files) (general_ending w)
                     (savings_ending w) = Raise ValueError).
  { unfold new_batch, read_batch, header_ncols. rewrite Hopen, Hcsv. reflexivity. }
  rewrite Hbatch. reflexivity.
Qed.

End RunFacts.

(** ** The batch of an ingestion run *)

(** A traversal in which an element raises [e], and no element raises
    anything else, raises [e]. *)
Lemma rmapM_raises {A B} (f : A -> result B) (e : exn) (l : list A) (x : A) :
  (forall y e', In y l -> f y = Raise e' -> e' = e) ->
  In x l -> f x = Raise e ->
  rmapM f l = Raise e.
Proof.
  induction l as [|y l IH]; simpl; intros Honly Hin Hx; [tauto |].
  destruct (f y) as [b|e'] eqn:Hy.
  - destruct Hin as [-> | Hin]; [congruence |].
    rewrite IH; [reflexivity | | exact Hin | exact Hx].
    intros z e' Hz. apply Honly. right. exact Hz.
  - f_equal. apply (Honly y e'); [left; reflexivity | exact Hy].
Qed.

Section BatchFacts.
Context `{Backend}.

(** A pending file named [*.csv] with fewer columns than the header of the
    first pending file makes the run raise [ValueError], and nothing is
    written, when every pending name that ends in [.csv] opens as a
    file. *)
Theorem preprocessing_narrow_file (reprocess : bool) (w : World)
    (files : list string) (register : Loaded) (n : nat) (file : string)
    (f : RawFile) :
  get_files (List.map fst (raw_dir w)) (register_file w) reprocess
  = Ok (files, register) ->
  header_ncols (raw_dir w) files = Ok n ->
  Forall (fun name => exists g, open_raw (raw_dir w) name = Ok g) (csv_files files) ->
  In file (csv_files files) ->
  open_raw (raw_dir w) file = Ok f ->
  (length (header f) < n)%nat ->
  preprocessing reprocess w = (Raise ValueError, w).
Proof.
  intros Hfiles Hn Hopens Hfile Hopen Hnarrow.
  assert (Hread : read_batch (raw_dir w) files = Raise ValueError).
  { unfold read_batch. rewrite Hn.
    erewrite (rmapM_raises _ ValueError (csv_files files) file); [reflexivity | | exact Hfile |].
    - intros y e' Hy.
      destruct (proj1 (Forall_forall _ _) Hopens y (proj2 (list_elem_of_In _ _) Hy))
        as [fy Hfy].
      rewrite Hfy. unfold read_csv. destruct (_ <? _)%nat; congruence.
    - rewrite Hopen. unfold read_csv.
      apply Nat.ltb_lt in Hnarrow. rewrite Hnarrow. reflexivity. }
  unfold preprocessing. rewrite Hfiles.
  destruct files as [|first rest]; [destruct Hfile |].
  unfold new_batch. rewrite Hread. reflexivity.
Qed.

Lemma to_datetime_parsed (v v' : DateVal) :
  to_datetime v = Ok v' -> forall s, v' <> DStr s.
Proof.
  unfold to_datetime. destruct v as [s0| d |].
  - destruct (parse_datetime s0); [| discriminate]. intros [= <-]. discriminate.
  - intros [= <-]. discriminate.
  - intros [= <-]. discriminate.
Qed.

Lemma parse_date_column_parsed (rows parsed : DataFrame) :
  parse_date_column rows = Ok parsed ->
  Forall2 (fun t p => p = set_date (date p) t /\ forall s, date p <> DStr s) rows parsed.
Proof.
  intros Hparse. apply rmapM_Forall2 in Hparse.
  eapply Forall2_impl; [exact Hparse |]. intros t p Htp. simpl in Htp.
  destruct (to_datetime (date t)) as [d|] eqn:Hd; [| discriminate].
  injection Htp as <-. split; [reflexivity |]. simpl.
  apply (to_datetime_parsed _ _ Hd).
Qed.

(** Rows without a date held as text parse to themselves. *)
Lemma parse_date_column_id (rows : DataFrame) :
  Forall (fun t => forall s, date t <> DStr s) rows ->
  parse_date_column rows = Ok rows.
Proof.
  unfold parse_date_column. induction 1 as [|t rows Ht _ IH]; [reflexivity |].
  simpl. rewrite IH.
  destruct t as [[s| d |] ? ? ? ? ? ? ? ? ?]; simpl in *;
    [exfalso; apply (Ht s); reflexivity | reflexivity | reflexivity].
Qed.

(** The view [load] returns: rows of sender "General" only, none with a
    date held as text, no more rows than the persisted table has. *)
Theorem load_general_view (w : World) (rows : DataFrame) :
  load w = Ok rows ->
  exists table,
    transactions_file w = Some table
    /\ (length rows <= length table)%nat
    /\ Forall (fun t => sender t = "General" /\ forall s, date t <> DStr s) rows.
Proof.
  unfold load. destruct (transactions_file w) as [table|]; [| discriminate].
  destruct (parse_date_column table) as [parsed|] eqn:Hparse; simpl; [| discriminate].
  intros [= <-]. exists table. split; [reflexivity |]. split.
  - rewrite <- (rmapM_length _ _ _ Hparse). apply List.filter_length_le.
  - apply Forall_forall. intros t Ht.
    apply list_elem_of_In, filter_In in Ht as [Hin Hsender].
    split; [apply String.eqb_eq, Hsender |].
    apply parse_date_column_parsed in Hparse.
    destruct (Forall2_right_In _ _ _ _ Hparse Hin) as (t0 & _ & _ & Hdate).
    exact Hdate.
Qed.

(** What [apply_fixed_rules] makes of a frame whose dates parse, as seen by
    a caller that holds the frame alone. *)
Lemma annotate_run (rows parsed : DataFrame) :
  parse_date_column rows = Ok parsed ->
  forallb answers rows = true ->
  annotate rows
  = Ok (imap (fun i t => categorized fixed_rules
                           (nth i (recurring_flags parsed) false) t) rows).
Proof.
  intros Hparse Hans. unfold annotate.
  rewrite (apply_fixed_rules_run {[ 1%positive := rows ]} 1%positive rows parsed
             (lookup_singleton_eq _ _) Hparse Hans).
  rewrite lookup_insert_eq. reflexivity.
Qed.

(** It returns on such a frame only. *)
Lemma annotate_returns (rows parsed annotated : DataFrame) :
  parse_date_column rows = Ok parsed ->
  annotate rows = Ok annotated ->
  forallb answers rows = true.
Proof.
  intros Hparse. unfold annotate.
  destruct (str_accessor rows) as [[]|e] eqn:Hstr.
  - destruct (forallb answers rows) eqn:Hans; [reflexivity |].
    rewrite (apply_fixed_rules_nan {[ 1%positive := rows ]} 1%positive rows parsed
               (lookup_singleton_eq _ _) Hparse Hstr Hans).
    discriminate.
  - rewrite (apply_fixed_rules_no_accessor {[ 1%positive := rows ]} 1%positive rows parsed e
               (lookup_singleton_eq _ _) Hparse Hstr).
    discriminate.
Qed.

End BatchFacts.

Lemma date_le_total (a b : Transaction) : date_le a b = true \/ date_le b a = true.
Proof. apply (le_of_total _ (ordering_option _ ordering_Z)). Qed.

Lemma date_le_trans (a b c : Transaction) :
  date_le a b = true -> date_le b c = true -> date_le a c = true.
Proof. apply (le_of_trans _ (ordering_option _ ordering_Z)). Qed.

(** Being sorted by date is a property of the column of dates. *)
Lemma sorted_by_date_column (l : DataFrame) :
  StronglySorted (fun a b => date_le a b = true) l
  <-> StronglySorted
        (fun d1 d2 => le_of (opt_compare Z.compare (day_of d1) (day_of d2)) = true)
        (List.map date l).
Proof.
  induction l as [|t l IH]; simpl.
  - split; constructor.
  - split; intros Hs; inversion Hs as [|? ? Hl Ht]; subst; constructor.
    + apply IH, Hl.
    + apply Forall_forall. intros d Hd.
      apply list_elem_of_In, in_map_iff in Hd as (t' & <- & Ht').
      apply (proj1 (Forall_forall _ _) Ht t'), list_elem_of_In, Ht'.
    + apply IH, Hl.
    + apply Forall_forall. intros t' Ht'.
      apply (proj1 (Forall_forall _ _) Ht (date t')).
      apply list_elem_of_In, in_map, list_elem_of_In, Ht'.
Qed.

Lemma imap_dates (f : nat -> Transaction -> Transaction) (l : DataFrame) :
  (forall i t, date (f i t) = date t) ->
  List.map date (imap f l) = List.map date l.
Proof.
  intros Hf. revert f Hf. induction l as [|t l IH]; intros f Hf; simpl; [reflexivity |].
  rewrite Hf. f_equal. apply IH. intros i t'. apply Hf.
Qed.

Lemma categorized_date `{Backend} (rules : list Rule) (b : bool) (t : Transaction) :
  date (categorized rules b t) = date t.
Proof. unfold categorized. destruct (winning_rule rules t); reflexivity. Qed.

(** Every row leaves the rule engine with one of the declared pairs of
    category and essential flag; "Insurance" is not among them. *)
Lemma categorized_annotation `{Backend} (b : bool) (t : Transaction) :
  In (concept (categorized fixed_rules b t), is_essential (categorized fixed_rules b t))
     annotations.
Proof.
  unfold categorized, winning_rule.
  change (List.rev fixed_rules) with
    [ mkRule "Subscriptions" ["kbc plus"] false;
      mkRule "Cantine" ["cantine"] false;
      mkRule "Transport" ["stib"; "sncb"; "nmbs"; "bahn"] true;
      mkRule "Grooming" ["sportoase"; "xxl nutrition"; "apotheek"; "knapper"] true;
      mkRule "Savings" ["estalvis"] true;
      mkRule "Insurance" ["FMSB-FSMB"] true;
      mkRule "Groceries" ["delhaize"; "carrefour"; "crf exp"; "finest globe belliard"] true;
      mkRule "Rent" ["despes"] true;
      mkRule "Salary" ["arhs"] true ].
  cbn [List.find]. rewrite insurance_never_matches.
  repeat match goal with
         | |- context [rule_matches ?r t] => destruct (rule_matches r t)
         end;
    cbn [concept is_essential rule_concept rule_is_essential annotations In];
    auto 12.
Qed.

Section BatchOrder.
Context `{Backend}.

Lemma typed_row_date (cols : list string) (dtype : Dtype) (line : list Cell)
    (a b : float) (t : Transaction) :
  typed_row cols dtype line a b = Ok t -> forall s, date t <> DStr s.
Proof.
  unfold typed_row.
  destruct (cell cols line "sender") as [|sd|sd];
    cbn [mbind result_bind rbind]; try discriminate.
  intros [= <-] s. simpl.
  unfold coerce_date. destruct (cell cols line "date") as [|c|c]; try discriminate.
  destruct (parse_dmy c); discriminate.
Qed.

Lemma typed_frame_dates (fr : RawFrame) (typed : DataFrame) :
  typed_frame fr = Ok typed -> Forall (fun t => forall s, date t <> DStr s) typed.
Proof.
  unfold typed_frame. destruct (forallb _ _); [| discriminate].
  destruct (float_column _ (column fr "amount")) as [amounts|];
    cbn [mbind result_bind rbind]; [| discriminate].
  destruct (float_column _ (column fr "balance")) as [balances|];
    cbn [mbind result_bind rbind]; [| discriminate].
  intros Hrows. apply rmapM_Forall2 in Hrows. apply Forall_forall. intros t Ht.
  apply list_elem_of_In in Ht.
  destruct (Forall2_right_In _ _ _ _ Hrows Ht) as (line & _ & Hline).
  apply (typed_row_date _ _ _ _ _ _ Hline).
Qed.

Lemma forallb_answers_perm (l l' : DataFrame) :
  Permutation l l' -> forallb answers l = forallb answers l'.
Proof.
  induction 1 as [| x l l' _ IH | x y l | l l' l'' _ IH1 _ IH2]; simpl.
  - reflexivity.
  - rewrite IH. reflexivity.
  - destruct (answers x), (answers y); reflexivity.
  - congruence.
Qed.

(** The stages of [new_batch] after the read, when they succeed. *)
Lemma new_batch_stages (dir : RawDir) (files : list string)
    (general savings : option string) (df : DataFrame) :
  new_batch dir files general savings = Ok df ->
  exists raw typed,
    read_batch dir files = Ok raw
    /\ typed_frame (clean_columns raw) = Ok typed
    /\ forallb answers typed = true
    /\ Forall2 (fun t d =>
                  exists b s, d = set_sender s (categorized fixed_rules b t))
               (sort_values_date typed) df.
Proof.
  unfold new_batch. destruct (read_batch dir files) as [raw|];
    cbn [mbind result_bind rbind]; [| discriminate].
  destruct (typed_frame (clean_columns raw)) as [typed|] eqn:Htyped;
    cbn [mbind result_bind rbind]; [| discriminate].
  assert (Hdates : Forall (fun t => forall s, date t <> DStr s) (sort_values_date typed)).
  { eapply Permutation_Forall; [symmetry; apply sort_values_date_perm |].
    apply (typed_frame_dates _ _ Htyped). }
  destruct (annotate (sort_values_date typed)) as [annotated|] eqn:Hann;
    cbn [mbind result_bind rbind]; [| discriminate].
  pose proof (annotate_returns _ _ _ (parse_date_column_id _ Hdates) Hann) as Hans.
  rewrite (annotate_run _ _ (parse_date_column_id _ Hdates) Hans) in Hann.
  injection Hann as <-.
  intros Hdf. exists raw, typed.
  split; [reflexivity |]. split; [exact Htyped |].
  split; [rewrite <- Hans; apply forallb_answers_perm; symmetry;
          apply sort_values_date_perm |].
  apply rmapM_Forall2 in Hdf. revert Hdf.
  generalize (recurring_flags (sort_values_date typed)) as flags.
  generalize (sort_values_date typed) as rows. clear. intros rows flags Hdf.
  assert (Hgen : forall (f : nat -> Transaction -> Transaction) l,
             (forall i t, exists b, f i t = categorized fixed_rules b t) ->
             Forall2 (fun t d =>
                        match replace_sender (sender_mapping general savings) (sender t) with
                        | Ok s => Ok (set_sender s t)
                        | Raise e => Raise e
                        end = Ok d) (imap f rows) l ->
             Forall2 (fun t d => exists b s, d = set_sender s (categorized fixed_rules b t))
                     rows l).
  { clear. induction rows as [|t rows IH]; intros f l Hf Hl; simpl in Hl.
    - inversion Hl. constructor.
    - inversion Hl as [|? d ? l' Hd Hl']; subst. constructor.
      + destruct (Hf 0%nat t) as [b Hb]. rewrite Hb in Hd.
        destruct (replace_sender _ _) as [s|]; [| discriminate].
        injection Hd as <-. eauto.
      + apply (IH (f ∘ S)); [intros i t'; apply Hf | exact Hl']. }
  apply (Hgen _ _ (fun i t => ex_intro _ _ eq_refl) Hdf).
Qed.

(** The batch of a run is sorted by date, rows without a date last, and
    holds no date as text. *)
Theorem new_batch_sorted_by_date (dir : RawDir) (files : list string)
    (general savings : option string) (df : DataFrame) :
  new_batch dir files general savings = Ok df ->
  StronglySorted (fun a b => date_le a b = true) df
  /\ Forall (fun t => forall s, date t <> DStr s) df.
Proof.
  intros Hdf.
  destruct (new_batch_stages _ _ _ _ _ Hdf) as (raw & typed & _ & Htyped & _ & Hrows).
  assert (Hdates : List.map date df = List.map date (sort_values_date typed)).
  { clear Htyped Hdf. induction Hrows as [|t d rows l (b & s & ->) _ IH]; simpl; [reflexivity |].
    rewrite IH. f_equal. apply categorized_date. }
  split.
  - apply sorted_by_date_column. rewrite Hdates. apply sorted_by_date_column.
    apply sort_values_date_sorted.
  - assert (Hsorted : Forall (fun t => forall s, date t <> DStr s) (sort_values_date typed)).
    { eapply Permutation_Forall; [symmetry; apply sort_values_date_perm |].
      apply (typed_frame_dates _ _ Htyped). }
    clear Htyped Hdf Hdates.
    induction Hrows as [|t d rows l (b & s & ->) _ IH]; [constructor |].
    inversion Hsorted as [|? ? Ht Hrest]; subst. constructor; [| apply IH, Hrest].
    intros s0. simpl. rewrite categorized_date. apply Ht.
Qed.

(** Every row of a batch carries one of nine pairs of category and
    essential flag: "Others" with false, or a declared rule other than
    "Insurance" with the rule's flag. *)
Theorem new_batch_annotations (dir : RawDir) (files : list string)
    (general savings : option string) (df : DataFrame) :
  new_batch dir files general savings = Ok df ->
  Forall (fun t => In (concept t, is_essential t) annotations) df.
Proof.
  intros Hdf.
  destruct (new_batch_stages _ _ _ _ _ Hdf) as (raw & typed & _ & _ & _ & Hrows).
  clear Hdf. induction Hrows as [|t d rows l (b & s & ->) _ IH]; constructor; [| exact IH].
  apply (categorized_annotation b t).
Qed.

(** With [GENERAL_ACCOUNT_ENDING] unset, a batch that holds at least one
    row, whose columns are read and converted and whose descriptions all
    answer the keyword tests, raises [TypeError] at the sender mapping. *)
Theorem new_batch_unset_general (dir : RawDir) (files : list string)
    (savings : option string) (raw : RawFrame) (typed : DataFrame) :
  read_batch dir files = Ok raw ->
  typed_frame (clean_columns raw) = Ok typed ->
  typed <> [] ->
  Forall (fun t => answers t = true) typed ->
  new_batch dir files None savings = Raise TypeError.
Proof.
  intros Hraw Htyped Hne Hall. unfold new_batch. rewrite Hraw. cbn [mbind result_bind rbind].
  rewrite Htyped. cbn [mbind result_bind rbind].
  assert (Hdates : Forall (fun t => forall s, date t <> DStr s) (sort_values_date typed)).
  { eapply Permutation_Forall; [symmetry; apply sort_values_date_perm |].
    apply (typed_frame_dates _ _ Htyped). }
  assert (Hans : forallb answers (sort_values_date typed) = true).
  { rewrite (forallb_answers_perm _ typed) by apply sort_values_date_perm.
    apply forallb_forall. intros t Ht.
    apply (proj1 (Forall_forall _ _) Hall t), list_elem_of_In, Ht. }
  rewrite (annotate_run _ _ (parse_date_column_id _ Hdates) Hans).
  cbn [mbind result_bind rbind].
  assert (Hsorted : sort_values_date typed <> []).
  { intros Hnil. apply Hne. apply Permutation_nil.
    rewrite <- Hnil. apply sort_values_date_perm. }
  destruct (sort_values_date typed) as [|t rows]; [congruence |].
  simpl. unfold sender_mapping. destruct (bool_decide _); reflexivity.
Qed.

End BatchOrder.

(** ** Recurrence and rules: edge behaviour *)

Lemma gap_without_recipient (rows : DataFrame) (i : nat) (t : Transaction) :
  recipient t = None -> gap_to_previous rows i t = None.
Proof.
  intros Hr. unfold gap_to_previous, sorted_group, group_of.
  rewrite (proj1 (filter_none (fun y : IRow => same_recipient (snd y) t) (indexed rows)
                    (fun y => same_recipient_self t
                                ltac:(unfold same_recipient; rewrite Hr; reflexivity)
                                (snd y)))).
  reflexivity.
Qed.

Lemma gap_without_date (rows : DataFrame) (i : nat) (t : Transaction) :
  day_of (date t) = None -> gap_to_previous rows i t = None.
Proof.
  intros Hd. unfold gap_to_previous, gap_days. rewrite Hd.
  destruct (previous_in _ _ _); reflexivity.
Qed.

Section AnnotationEdges.
Context `{Backend}.

(** A row without a recipient, or without a date, whose description
    answers the marker test, in a frame whose description column has the
    accessor, is flagged exactly when its description starts with the
    marker phrase: the periodic rule never applies to it. *)
Theorem flag_recurring_marker_only (h : Heap) (df : loc) (rows parsed : DataFrame)
    (i : nat) (t : Transaction) :
  h !! df = Some rows ->
  parse_date_column rows = Ok parsed ->
  Forall (fun t => description t <> NoText numeric_dtype) rows ->
  parsed !! i = Some t ->
  answers t = true ->
  recipient t = None \/ day_of (date t) = None ->
  exists flags h',
    flag_recurring df h = (Ok flags, h')
    /\ flags !! i = Some (starts_with_marker t).
Proof.
  intros Hdf Hparse Hstr Hi Hans Hmissing. eexists _, _.
  split; [apply (flag_recurring_run h df rows parsed Hdf Hparse (accessor_present rows Hstr)) |].
  rewrite (recurring_flags_lookup parsed i t Hi), (or_flag_answers t _ Hans).
  destruct Hmissing as [Hr | Hd].
  - rewrite (gap_without_recipient parsed i t Hr). simpl. rewrite orb_false_r. reflexivity.
  - rewrite (gap_without_date parsed i t Hd). simpl. rewrite orb_false_r. reflexivity.
Qed.

Lemma not_all_answer (rows : DataFrame) :
  str_accessor rows = Ok tt ->
  forallb answers rows = false ->
  exists t, In t rows /\ description t = NoText object_dtype.
Proof.
  unfold str_accessor. induction rows as [|t rows IH]; simpl; [discriminate |].
  unfold answers at 1.
  destruct (description t) as [d | []] eqn:Hd; simpl; try discriminate.
  - intros Hstr Hans. destruct (IH Hstr Hans) as (u & Hu & Hdu). eauto.
  - intros _ _. exists t. auto.
  - intros Hstr Hans. destruct (IH Hstr Hans) as (u & Hu & Hdu). eauto.
Qed.

(** When [apply_fixed_rules] raises, the frame it was called on is in one
    of two states.  Either nothing was assigned: the frame is as it was
    (no frame, dates that do not parse, a description column of
    numbers).  Or the first assignment under a mask raised [ValueError]
    on a description missing in a column of dtype [object]: lines 34 to
    36 have run, every row holds the recurrence flag of [flag_recurring],
    false and "Others", and no rule was applied. *)
Theorem apply_fixed_rules_raise_outcome (h h' : Heap) (df : loc) (e : exn) :
  apply_fixed_rules df h = (Raise e, h') ->
  h' !! df = h !! df
  \/ (e = ValueError
      /\ exists rows flags u,
           h !! df = Some rows
           /\ fst (flag_recurring df h) = Ok flags
           /\ In u rows /\ description u = NoText object_dtype
           /\ h' !! df
              = Some (imap (fun i t =>
                              set_concept "Others"
                                (set_is_essential false
                                   (set_is_recurring (nth i flags false) t))) rows)).
Proof.
  assert (Hfresh : forall rows, h !! df = Some rows -> fresh (dom h) <> df).
  { intros rows Hdf Heq. pose proof (fresh_unbound h) as Hf. rewrite Heq in Hf. congruence. }
  destruct (h !! df) as [rows|] eqn:Hdf.
  - destruct (parse_date_column rows) as [parsed|e'] eqn:Hparse.
    + destruct (str_accessor rows) as [[]|e'] eqn:Hstr.
      * destruct (forallb answers rows) eqn:Hans.
        { rewrite (apply_fixed_rules_run h df rows parsed Hdf Hparse Hans). discriminate. }
        rewrite (apply_fixed_rules_nan h df rows parsed Hdf Hparse Hstr Hans).
        intros [= <- <-]. right. split; [reflexivity |].
        destruct (not_all_answer rows Hstr Hans) as (u & Hu & Hdu).
        exists rows, (recurring_flags parsed), u.
        split; [reflexivity |].
        split; [rewrite (flag_recurring_run h df rows parsed Hdf Hparse Hstr); reflexivity |].
        split; [exact Hu |]. split; [exact Hdu |].
        apply lookup_insert_eq.
      * rewrite (apply_fixed_rules_no_accessor h df rows parsed e' Hdf Hparse Hstr).
        intros [= <- <-]. left.
        rewrite lookup_insert_ne; [exact Hdf | apply (Hfresh rows eq_refl)].
    + unfold apply_fixed_rules, py_bind.
      rewrite (flag_recurring_raise h df rows e' Hdf Hparse).
      intros [= <- <-]. left.
      rewrite lookup_insert_ne; [exact Hdf | apply (Hfresh rows eq_refl)].
  - unfold apply_fixed_rules, flag_recurring, py_bind, copy. rewrite Hdf.
    intros [= <- <-]. left. exact Hdf.
Qed.

End AnnotationEdges.

(** ** ForecastEngine: the observed series and the forecast bundle *)

Lemma fillna_no_nan (x : float) (s : Series) :
  is_nan x = false -> Forall (fun kv => is_nan (snd kv) = false) (fillna x s).
Proof.
  intros Hx. unfold fillna. apply Forall_forall. intros kv Hkv.
  apply list_elem_of_In, in_map_iff in Hkv as ([g v] & <- & _). simpl.
  destruct (is_nan v) eqn:Hv; [exact Hx | exact Hv].
Qed.

Lemma fillna_labels (x : float) (s : Series) :
  List.map fst (fillna x s) = List.map fst s.
Proof.
  unfold fillna. rewrite List.map_map. apply map_ext. intros [g v]. reflexivity.
Qed.

Lemma ffill_from_labels (s : Series) :
  forall prev, List.map fst (ffill_from prev s) = List.map fst s.
Proof.
  induction s as [|[g v] s IH]; intros prev; simpl; [reflexivity |].
  rewrite IH. reflexivity.
Qed.

Lemma reindex_labels (s : Series) (grid : list Z) :
  List.map fst (reindex s grid) = grid.
Proof.
  unfold reindex. rewrite List.map_map. simpl. apply map_id.
Qed.

(** A date off the grid is never looked up. *)
Lemma reindex_on_grid (s : Series) (grid : list Z) :
  reindex (List.filter (fun kv => existsb (Z.eqb (fst kv)) grid) s) grid
  = reindex s grid.
Proof.
  unfold reindex. apply map_ext_in. intros g Hg. f_equal.
  induction s as [|[k v] s IH]; simpl; [reflexivity |].
  destruct (existsb (Z.eqb k) grid) eqn:Hk; simpl.
  - destruct (k =? g); [reflexivity | exact IH].
  - destruct (Z.eqb_spec k g) as [-> | _]; [| exact IH].
    exfalso. assert (Hin : existsb (Z.eqb g) grid = true).
    { apply existsb_exists. exists g. split; [exact Hg | apply Z.eqb_refl]. }
    congruence.
Qed.

Lemma last_some_map {A B} (f : A -> B) (l : list A) :
  List.last (List.map Some (List.map f l)) None
  = option_map f (List.last (List.map Some l) None).
Proof.
  change (@None B) with (option_map f None). generalize (@None A) as d.
  induction l as [|x l IH]; intros d; [reflexivity |].
  destruct l as [|y l]; [reflexivity |]. apply (IH d).
Qed.

(** The observed series is indexed by the grid between the first and the
    last observed date, holds no NaN, and is computed from the balances
    recorded on dates of the grid alone: a balance recorded on any other
    date has no influence on it. *)
Theorem observe_grid_only `{Backend} (freq : Frequency) (data : DataFrame) (obs : Series) :
  observe freq data = Ok obs ->
  exists first last,
    hd_error (List.map fst (groupby_last (balance_sorted data))) = Some first
    /\ List.last (List.map Some (List.map fst (groupby_last (balance_sorted data)))) None
       = Some last
    /\ List.map fst obs = date_range freq first last
    /\ Forall (fun kv => is_nan (snd kv) = false) obs
    /\ obs = fillna 0%float
               (ffill (reindex
                         (List.filter
                            (fun kv => existsb (Z.eqb (fst kv)) (date_range freq first last))
                            (groupby_last (balance_sorted data)))
                         (date_range freq first last))).
Proof.
  unfold observe. set (balance := groupby_last (balance_sorted data)).
  destruct balance as [|[first v0] rest] eqn:Hb; [discriminate |].
  destruct (List.last (List.map Some ((first, v0) :: rest)) None) as [[last v1]|] eqn:Hlast;
    [| discriminate].
  intros [= <-]. exists first, last. split; [reflexivity |]. split.
  - rewrite last_some_map, Hlast. reflexivity.
  - split; [| split].
    + rewrite fillna_labels. unfold ffill. rewrite ffill_from_labels.
      apply reindex_labels.
    + apply fillna_no_nan. reflexivity.
    + rewrite reindex_on_grid. reflexivity.
Qed.

Lemma range_periods_length (f : Frequency) (n : nat) :
  forall cur, length (range_periods f n cur) = n.
Proof.
  induction n as [|n IH]; intros cur; simpl; [reflexivity |]. rewrite IH. reflexivity.
Qed.

Lemma cumsum_from_length (xs : list float) :
  forall acc, length (cumsum_from acc xs) = length xs.
Proof.
  induction xs as [|x xs IH]; intros acc; simpl; [reflexivity |].
  destruct (is_nan x); simpl; rewrite IH; reflexivity.
Qed.

Lemma combine_fst {A B} (l : list A) :
  forall k : list B, length l = length k -> List.map fst (combine l k) = l.
Proof.
  induction l as [|x l IH]; intros [|y k] Hlen; simpl in *; try discriminate;
    [reflexivity |].
  rewrite IH by lia. reflexivity.
Qed.

Lemma combine_snd {A B} (l : list A) :
  forall k : list B, length l = length k -> List.map snd (combine l k) = k.
Proof.
  induction l as [|x l IH]; intros [|y k] Hlen; simpl in *; try discriminate;
    [reflexivity |].
  rewrite IH by lia. reflexivity.
Qed.

(** The shape of the bundle [sarima] returns. *)
Lemma sarima_shape (B : Backend) (data : DataFrame) (horizon : nat)
    (freq : Frequency) (res : ForecastResult) :
  @sarima B data horizon freq = Ok res ->
  exists last_obs last_cum,
    List.last (List.map Some (observed_cumulative res)) None = Some (last_obs, last_cum)
    /\ length (daily res) = horizon
    /\ List.map fst (daily res)
       = date_range_periods freq (add_offset freq last_obs) horizon
    /\ List.map fst (daily_ci res) = List.map fst (daily res)
    /\ List.map fst (cumulative res) = List.map fst (daily res)
    /\ List.map fst (cumulative_ci res) = List.map fst (daily res)
    /\ List.map snd (cumulative res)
       = List.map (fun c => (last_cum + c)%float) (cumsum (List.map snd (daily res)))
    /\ frequency res = freq.
Proof.
  unfold sarima. destruct (observe freq data) as [obs|];
    cbn [mbind result_bind rbind]; [| discriminate].
  destruct obs as [|[d v] obs']; cbn [mbind result_bind rbind]; [discriminate |].
  destruct (List.last (List.map Some ((d, v) :: obs')) None) as [[last_obs last_cum]|]
    eqn:Hlast; cbn [mbind result_bind rbind]; [| discriminate].
  destruct (sarimax_forecast _ horizon) as [[mean ci]|];
    cbn [mbind result_bind rbind]; [| discriminate].
  remember (date_range_periods freq (add_offset freq last_obs) horizon) as index
    eqn:Hindex_def.
  destruct (negb _) eqn:Hlen; [discriminate |].
  apply negb_false_iff, andb_true_iff in Hlen as [Hmean Hci].
  apply Nat.eqb_eq in Hmean. apply Nat.eqb_eq in Hci.
  assert (Hindex : length index = horizon)
    by (subst index; apply range_periods_length).
  intros [= <-]. exists last_obs, last_cum. cbn [observed_cumulative daily daily_ci
    cumulative cumulative_ci frequency].
  rewrite <- Hindex_def.
  split; [exact Hlast |].
  split; [rewrite length_combine; lia |].
  split; [apply combine_fst; lia |].
  rewrite (combine_fst index mean) by lia.
  split; [apply combine_fst; lia |].
  split.
  { apply combine_fst. rewrite length_map. unfold cumsum. rewrite cumsum_from_length. lia. }
  split.
  { apply combine_fst. rewrite length_combine, !length_map. unfold cumsum.
    rewrite !cumsum_from_length, !length_map. lia. }
  split; [| reflexivity].
  rewrite (combine_snd index mean) by lia.
  apply combine_snd. rewrite length_map. unfold cumsum. rewrite cumsum_from_length. lia.
Qed.

(** The bundle [sarima] returns: the four forecast series have one point
    per period of the horizon, on the same dates, which are the periods
    after the last observed date; the cumulative forecast is the last
    observed value plus the running sum of the period forecast. *)
Theorem sarima_bundle_shape (B : Backend) (data : DataFrame) (horizon : nat)
    (freq : Frequency) (res : ForecastResult) :
  @sarima B data horizon freq = Ok res ->
  exists last_obs last_cum,
    List.last (List.map Some (observed_cumulative res)) None = Some (last_obs, last_cum)
    /\ length (daily res) = horizon
    /\ List.map fst (daily res)
       = date_range_periods freq (add_offset freq last_obs) horizon
    /\ List.map fst (daily_ci res) = List.map fst (daily res)
    /\ List.map fst (cumulative res) = List.map fst (daily res)
    /\ List.map fst (cumulative_ci res) = List.map fst (daily res)
    /\ List.map snd (cumulative res)
       = List.map (fun c => (last_cum + c)%float) (cumsum (List.map snd (daily res)))
    /\ frequency res = freq.
Proof. apply sarima_shape. Qed.


Lemma diff_from_labels (s : Series) :
  forall prev, List.map fst (diff_from prev s) = List.map fst s.
Proof.
  induction s as [|[g v] s IH]; intros prev; simpl; [reflexivity |].
  rewrite IH. reflexivity.
Qed.

Lemma last_some_cons {A} (x : A) (l : list A) :
  exists y, List.last (List.map Some (x :: l)) None = Some y.
Proof.
  revert x. induction l as [|z l IH]; intros x; [exists x; reflexivity |].
  destruct (IH z) as [y Hy]. exists y. exact Hy.
Qed.

(** [diff] and [fillna], entry by entry: the entry after [x] is the
    difference to [x], or [v] where the difference is NaN. *)
Lemma period_amount_nth (v : float) (s : Series) :
  forall (g : Z) (p : float) (i : nat) (x y : Z * float),
    nth_error ((g, p) :: s) i = Some x ->
    nth_error s i = Some y ->
    nth_error (List.map snd (fillna v (diff_from p s))) i
    = Some (if is_nan (snd y - snd x)%float then v else (snd y - snd x)%float).
Proof.
  induction s as [|[g' v'] s IH]; intros g p i x y Hx Hy; [destruct i; discriminate |].
  destruct i as [|i]; simpl in Hx, Hy.
  - injection Hx as <-. injection Hy as <-. reflexivity.
  - simpl. apply (IH g' v' i x y Hx Hy).
Qed.

(** The estimator is consulted once, on the period amounts: one amount
    per observed date, none of them NaN; the first is the first observed
    value, each later one the observed value of its date minus that of
    the date before (the first observed value where this is NaN).  When
    the estimator raises, [sarima] raises the same exception; when it
    answers with a forecast of the length of the horizon, [sarima]
    returns that forecast as the period forecast. *)
Theorem sarima_period_amounts `{Backend} (data : DataFrame) (horizon : nat)
    (freq : Frequency) (d : Z) (v : float) (obs : Series) :
  observe freq data = Ok ((d, v) :: obs) ->
  exists amounts : list float,
    length amounts = S (length obs)
    /\ nth_error amounts 0 = Some v
    /\ (forall i x y,
          nth_error ((d, v) :: obs) i = Some x ->
          nth_error ((d, v) :: obs) (S i) = Some y ->
          nth_error amounts (S i)
          = Some (if is_nan (snd y - snd x)%float then v else (snd y - snd x)%float))
    /\ Forall (fun a => is_nan a = false) amounts
    /\ (forall e, sarimax_forecast amounts horizon = Raise e ->
                  sarima data horizon freq = Raise e)
    /\ (forall mean ci,
          sarimax_forecast amounts horizon = Ok (mean, ci) ->
          length mean = horizon -> length ci = horizon ->
          exists res,
            sarima data horizon freq = Ok res
            /\ List.map snd (daily res) = mean
            /\ List.map snd (daily_ci res) = ci).
Proof.
  intros Hobs. exists (List.map snd (fillna v (diff ((d, v) :: obs)))).
  assert (Hv : is_nan v = false).
  { unfold observe in Hobs.
    destruct (groupby_last (balance_sorted data)) as [|[a x] rest]; [discriminate |].
    destruct (List.last _ None) as [[b y]|]; [| discriminate].
    injection Hobs as Hobs.
    pose proof (fillna_no_nan 0%float
                  (ffill (reindex ((a, x) :: rest) (date_range freq a b))) eq_refl) as Hall.
    rewrite Hobs in Hall. inversion Hall. assumption. }
  split; [| split; [| split; [| split; [| split]]]].
  - rewrite length_map. unfold fillna. rewrite length_map. simpl. f_equal.
    rewrite <- (length_map fst (diff_from v obs)), diff_from_labels. apply length_map.
  - reflexivity.
  - intros i x y Hx Hy. simpl in Hy. simpl.
    apply (period_amount_nth v obs d v i x y Hx Hy).
  - apply Forall_forall. intros a Ha.
    apply list_elem_of_In, in_map_iff in Ha as (kv & <- & Hkv).
    apply (proj1 (Forall_forall _ _) (fillna_no_nan v (diff ((d, v) :: obs)) Hv) kv).
    apply list_elem_of_In, Hkv.
  - intros e He. unfold sarima. rewrite Hobs. cbn [mbind result_bind rbind].
    destruct (last_some_cons (d, v) obs) as [[last_obs last_cum] Hlast].
    rewrite Hlast. cbn [mbind result_bind rbind]. rewrite He. reflexivity.
  - intros mean ci Hpred Hmean Hci. unfold sarima. rewrite Hobs.
    cbn [mbind result_bind rbind].
    destruct (last_some_cons (d, v) obs) as [[last_obs last_cum] Hlast].
    rewrite Hlast. cbn [mbind result_bind rbind]. rewrite Hpred.
    cbn [mbind result_bind rbind].
    assert (Hindex : length (date_range_periods freq (add_offset freq last_obs) horizon)
                     = horizon) by apply range_periods_length.
    rewrite Hmean, Hci, Hindex, Nat.eqb_refl. cbn [andb negb].
    eexists. split; [reflexivity |]. cbn [daily daily_ci].
    split; apply combine_snd; lia.
Qed.

(** ** Balances per date ([groupby(...).last()]) *)

Lemma values_at_snoc (k : Z) (s : list (option Z * float)) (x : option Z * float) :
  values_at k (s ++ [x])
  = (values_at k s ++ match fst x with
                      | Some d => if d =? k then [snd x] else []
                      | None => []
                      end)%list.
Proof.
  unfold values_at. rewrite List.filter_app, List.map_app. simpl.
  destruct (fst x) as [d|]; [destruct (d =? k) |]; reflexivity.
Qed.

Lemma values_at_nonempty (k : Z) (s : list (option Z * float)) :
  values_at k s <> [] -> exists w, In (Some k, w) s.
Proof.
  unfold values_at. induction s as [|[[d|] w] s IH]; simpl; [congruence | |].
  - destruct (Z.eqb_spec d k) as [-> | _]; [eauto |].
    intros Hne. destruct (IH Hne) as [w' Hw']. eauto.
  - intros Hne. destruct (IH Hne) as [w' Hw']. eauto.
Qed.

Lemma last_valid_snoc (vs : list float) (v : float) :
  vs <> [] -> last_valid (vs ++ [v]) = carry (last_valid vs) v.
Proof.
  destruct vs as [|v0 vs]; [congruence |]. intros _. simpl.
  rewrite fold_left_app. reflexivity.
Qed.

Lemma sorted_snoc_inv {A} (R : A -> A -> Prop) (l : list A) (x : A) :
  StronglySorted R (l ++ [x]) -> StronglySorted R l /\ Forall (fun y => R y x) l.
Proof.
  induction l as [|y l IH]; simpl; intros Hs.
  - split; constructor.
  - inversion Hs as [|? ? Hl Hy]; subst. destruct (IH Hl) as [Hl' Hx].
    split; constructor; try assumption.
    + apply Forall_app in Hy. tauto.
    + apply Forall_app in Hy as [_ Hy]. inversion Hy. assumption.
Qed.

Lemma sorted_snoc {A} (R : A -> A -> Prop) (l : list A) (x : A) :
  StronglySorted R l -> Forall (fun y => R y x) l -> StronglySorted R (l ++ [x]).
Proof.
  induction 1 as [|y l Hl IH Hy]; simpl; intros Hx.
  - repeat constructor.
  - inversion Hx; subst. constructor; [apply IH; assumption |].
    apply Forall_app. split; [exact Hy | repeat constructor; assumption].
Qed.

Lemma sorted_rev {A} (R : A -> A -> Prop) (l : list A) :
  StronglySorted (fun a b => R b a) l -> StronglySorted R (List.rev l).
Proof.
  induction 1 as [|y l Hl IH Hy]; simpl; [constructor |].
  apply sorted_snoc; [exact IH |].
  apply Forall_forall. intros z Hz. apply list_elem_of_In, in_rev in Hz.
  apply (proj1 (Forall_forall _ _) Hy z), list_elem_of_In, Hz.
Qed.

(** The groups met after a sorted series has been passed: labels strictly
    decreasing from the latest group, each with the last valid value
    recorded under its label, and a group for every label met. *)
Lemma fold_last_step_groups (s : list (option Z * float)) :
  StronglySorted (fun a b => le_of (opt_compare Z.compare (fst a) (fst b)) = true) s ->
  let acc := fold_left last_step s [] in
  StronglySorted (fun a b => fst b < fst a) acc
  /\ (forall k v, In (k, v) acc ->
        values_at k s <> [] /\ v = last_valid (values_at k s))
  /\ (forall k, values_at k s <> [] -> In k (List.map fst acc)).
Proof.
  induction s as [|x s IH] using rev_ind; intros Hs; simpl.
  - split; [constructor |]. split; [intros k v [] | intros k Hk; exact (Hk eq_refl)].
  - apply sorted_snoc_inv in Hs as [Hs Hx].
    destruct (IH Hs) as (Hdec & Hval & Hkeys). clear IH.
    rewrite fold_left_app. simpl.
    set (acc := fold_left last_step s []) in *.
    assert (Hmax : forall k, values_at k s <> [] ->
                   exists k0 v0 rest, acc = (k0, v0) :: rest /\ k <= k0).
    { intros k Hk. apply Hkeys in Hk. destruct acc as [|[k0 v0] rest]; [destruct Hk |].
      exists k0, v0, rest. split; [reflexivity |].
      destruct Hk as [<- | Hk]; [simpl; lia |].
      inversion Hdec as [|? ? _ Hall]; subst.
      apply in_map_iff in Hk as ([k' v'] & <- & Hin).
      pose proof (proj1 (Forall_forall _ _) Hall (k', v')
                    (proj2 (list_elem_of_In _ _) Hin)) as Hlt.
      simpl in *. lia. }
    destruct x as [[k|] v]; simpl.
    2:{ split; [exact Hdec |]. split.
        - intros k v' Hin. rewrite values_at_snoc. simpl. rewrite app_nil_r. auto.
        - intros k. rewrite values_at_snoc. simpl. rewrite app_nil_r. auto. }
    assert (Hbound : forall k', values_at k' s <> [] -> k' <= k).
    { intros k' Hk'. destruct (values_at_nonempty k' s Hk') as [w Hin].
      pose proof (proj1 (Forall_forall _ _) Hx (Some k', w)
                    (proj2 (list_elem_of_In _ _) Hin)) as Hle.
      simpl in Hle.
      destruct (Z.compare_spec k' k); simpl in Hle; try lia; discriminate. }
    assert (Hother : forall k', k' <> k ->
               values_at k' (s ++ [(Some k, v)]) = values_at k' s).
    { intros k' Hne. rewrite values_at_snoc. simpl.
      destruct (Z.eqb_spec k k'); [congruence | apply app_nil_r]. }
    assert (Hself : values_at k (s ++ [(Some k, v)]) = (values_at k s ++ [v])%list).
    { rewrite values_at_snoc. simpl. rewrite Z.eqb_refl. reflexivity. }
    destruct acc as [|[k0 v0] rest] eqn:Hacc.
    + (* first group *)
      assert (Hnone : forall k', values_at k' s = []).
      { intros k'. destruct (values_at k' s) eqn:Hv; [reflexivity |].
        exfalso. apply (Hkeys k'). congruence. }
      split; [repeat constructor |]. split.
      * intros k' v' [[= <- <-] | []]. rewrite Hself, Hnone. simpl. split; congruence.
      * intros k'. destruct (Z.eq_dec k' k) as [-> | Hne]; [left; reflexivity |].
        rewrite (Hother k' Hne), Hnone. congruence.
    + assert (Hk0 : values_at k0 s <> [] /\ v0 = last_valid (values_at k0 s))
        by (apply Hval; left; reflexivity).
      assert (Hle : k0 <= k) by (apply Hbound, Hk0).
      inversion Hdec as [|? ? Hrest Hall]; subst.
      destruct (Z.eqb_spec k k0) as [-> | Hne].
      * (* the latest group again *)
        split; [constructor; assumption |]. split.
        -- intros k' v' [[= <- <-] | Hin].
           ++ rewrite Hself. split; [intros Hnil; apply app_eq_nil in Hnil as [_ Hnil]; discriminate |].
              rewrite last_valid_snoc by apply Hk0.
              destruct Hk0 as [_ <-]. reflexivity.
           ++ assert (Hlt : k' < k0).
              { apply (proj1 (Forall_forall _ _) Hall (k', v')
                         (proj2 (list_elem_of_In _ _) Hin)). }
              rewrite Hother by lia. apply Hval. right. exact Hin.
        -- intros k'. destruct (Z.eq_dec k' k0) as [-> | Hne]; [left; reflexivity |].
           rewrite (Hother k' Hne). intros Hk'. apply (Hkeys k' Hk').
      * (* a new group *)
        assert (Hfresh : values_at k s = []).
        { destruct (values_at k s) eqn:Hv; [reflexivity |]. exfalso.
          destruct (Hmax k) as (k1 & v1 & rest1 & [= <- <- <-] & Hk1); [congruence | lia]. }
        split.
        -- constructor; [exact Hdec |]. constructor; [simpl; lia |].
           eapply Forall_impl; [exact Hall |]. intros [k' v']. simpl. lia.
        -- split.
           ++ intros k' v' [[= <- <-] | Hin].
              ** rewrite Hself, Hfresh. simpl. split; congruence.
              ** assert (Hlt : k' <= k0).
                 { destruct Hin as [[= <- <-] | Hin]; [lia |].
                   pose proof (proj1 (Forall_forall _ _) Hall (k', v')
                                 (proj2 (list_elem_of_In _ _) Hin)) as Hlt.
                   simpl in Hlt. lia. }
                 rewrite Hother by lia. apply Hval. exact Hin.
           ++ intros k'. destruct (Z.eq_dec k' k) as [-> | Hne']; [left; reflexivity |].
              rewrite (Hother k' Hne'). intros Hk'. right. apply (Hkeys k' Hk').
Qed.



Section BalanceFacts.
Context `{Backend}.



End BalanceFacts.

(** ** Project root discovery *)

Lemma dirname_firstn (p : Utils.Path) :
  Utils.dirname p = firstn (pred (length p)) p.
Proof. apply removelast_firstn_len. Qed.

Lemma dirname_fixpoint (p : Utils.Path) : Utils.dirname p = p -> p = [].
Proof.
  intros Heq. destruct p as [|c p]; [reflexivity |]. exfalso.
  apply (f_equal (@length string)) in Heq.
  rewrite dirname_firstn, length_firstn in Heq. simpl in Heq. lia.
Qed.

(** The outcome of the walk from [p], with fuel for every component. *)
Lemma walk_up_outcome (has_env : Utils.Path -> bool) (fuel : nat) :
  forall p : Utils.Path,
    (length p <= fuel)%nat ->
    match Utils.walk_up has_env fuel p with
    | Ok r => exists n, (n <= length p)%nat
                        /\ r = firstn n p
                        /\ has_env r = true
                        /\ forall m, (n < m <= length p)%nat ->
                                     has_env (firstn m p) = false
    | Raise e => e = FileNotFoundError
                 /\ forall m, (m <= length p)%nat -> has_env (firstn m p) = false
    end.
Proof.
  induction fuel as [|fuel IH]; intros p Hlen.
  - destruct p; [| simpl in Hlen; lia]. simpl.
    destruct (has_env []) eqn:Henv.
    + exists 0%nat. repeat split; auto. intros m Hm. simpl in Hm. lia.
    + split; [reflexivity |]. intros m _. rewrite firstn_nil. exact Henv.
  - cbn [Utils.walk_up]. destruct (has_env p) eqn:Henv.
    + exists (length p). rewrite firstn_all. repeat split; auto. intros m Hm. lia.
    + case_bool_decide as Hroot.
      * apply dirname_fixpoint in Hroot. subst p. split; [reflexivity |].
        intros m _. rewrite firstn_nil. exact Henv.
      * assert (Hp : p <> []) by (intros ->; apply Hroot; reflexivity).
        assert (Hparent : length (Utils.dirname p) = pred (length p)).
        { rewrite dirname_firstn, length_firstn. lia. }
        assert (Hpos : (0 < length p)%nat) by (destruct p; [congruence | simpl; lia]).
        assert (Hfirst : forall m, (m <= pred (length p))%nat ->
                         firstn m (Utils.dirname p) = firstn m p).
        { intros m Hm. rewrite dirname_firstn, firstn_firstn. f_equal. lia. }
        specialize (IH (Utils.dirname p) ltac:(lia)).
        destruct (Utils.walk_up has_env fuel (Utils.dirname p)) as [r|e].
        -- destruct IH as (n & Hn & -> & Hr & Habove). exists n.
           split; [lia |]. split; [apply Hfirst; lia |]. split; [exact Hr |].
           intros m Hm. destruct (Nat.eq_dec m (length p)) as [-> | Hne].
           ++ rewrite firstn_all. exact Henv.
           ++ rewrite <- Hfirst by lia. apply Habove. lia.
        -- destruct IH as [-> Hnone]. split; [reflexivity |].
           intros m Hm. destruct (Nat.eq_dec m (length p)) as [-> | Hne].
           ++ rewrite firstn_all. exact Henv.
           ++ rewrite <- Hfirst by lia. apply Hnone. lia.
Qed.

(** [find_project_root] returns the nearest directory that holds a [.env]
    file among the start directory and its ancestors: the one it returns
    holds it, and no directory between it and the start does. *)
Theorem find_project_root_nearest (has_env : Utils.Path -> bool)
    (start_path root : Utils.Path) :
  Utils.find_project_root has_env start_path = Ok root ->
  exists n, (n <= length start_path)%nat
            /\ root = firstn n start_path
            /\ has_env root = true
            /\ forall m, (n < m <= length start_path)%nat ->
                         has_env (firstn m start_path) = false.
Proof.
  intros Hroot. unfold Utils.find_project_root in Hroot.
  pose proof (walk_up_outcome has_env (length start_path) start_path (Nat.le_refl _))
    as Hout.
  rewrite Hroot in Hout. exact Hout.
Qed.

(** [find_project_root] raises [FileNotFoundError] exactly when neither the
    start directory nor any of its ancestors, the root included, holds a
    [.env] file; it raises nothing else. *)
Theorem find_project_root_not_found (has_env : Utils.Path -> bool)
    (start_path : Utils.Path) :
  (Utils.find_project_root has_env start_path = Raise FileNotFoundError
   <-> forall m, (m <= length start_path)%nat ->
                 has_env (firstn m start_path) = false)
  /\ (forall e, Utils.find_project_root has_env start_path = Raise e ->
                e = FileNotFoundError).
Proof.
  unfold Utils.find_project_root.
  pose proof (walk_up_outcome has_env (length start_path) start_path (Nat.le_refl _))
    as Hout.
  destruct (Utils.walk_up has_env (length start_path) start_path) as [r|e].
  - destruct Hout as (n & Hn & -> & Hr & _). split; [| discriminate].
    split; [discriminate |]. intros Hnone. rewrite (Hnone n Hn) in Hr. discriminate.
  - destruct Hout as [-> Hnone]. split; [tauto |]. intros e [= <-]. reflexivity.
Qed.

(** ** The forecast chart *)

(** With a horizon of 0, [line_chart] never returns a figure: when
    [sarima] returns, the forecast is empty and reading its first date
    raises [IndexError]. *)
Theorem line_chart_zero_horizon (B : Backend) (data : DataFrame) (freq : Frequency) :
  (exists e, @line_chart B data 0 freq = Raise e)
  /\ (is_ok (@sarima B data 0 freq) = true ->
      @line_chart B data 0 freq = Raise IndexError).
Proof.
  unfold line_chart.
  destruct (@sarima B data 0 freq) as [res|e] eqn:Hres; cbn [mbind result_bind rbind].
  - destruct (sarima_shape B data 0 freq res Hres)
      as (last_obs & last_cum & Hlast & Hlen & _ & _ & Hcum & _).
    rewrite Hlast.
    assert (Hnil : cumulative res = []).
    { apply length_zero_iff_nil. rewrite <- (length_map fst), Hcum, length_map. exact Hlen. }
    rewrite Hnil. cbn [mbind result_bind rbind]. split; [eauto | reflexivity].
  - split; [eauto | discriminate].
Qed.

(** ** The properties above on the sample files *)

(** A sub-directory whose name ends in [.csv] is pending like a file, and
    reading it raises. *)
Example preprocessing_sub_directory :
  @preprocessing Reference.backend false Sample.world_sub_directory
  = (Raise IsADirectoryError, Sample.world_sub_directory).
Proof. reflexivity. Qed.

(** [read_csv] types a column file by file.  A statement whose amounts
    are whole numbers has a numeric amount column, which has no [.str]:
    read alone, it makes the batch raise; read after a statement with
    decimal commas, its amounts are numbers in a column of dtype [object]
    and come out of line 87 as NaN. *)
Example new_batch_whole_numbers_alone :
  @new_batch Reference.backend Sample.round_dir ["round.csv"] (Some "1111") (Some "2222")
  = Raise AttributeError.
Proof. vm_compute. reflexivity. Qed.

Example new_batch_whole_numbers_mixed :
  @new_batch Reference.backend Sample.round_dir ["february.csv"; "round.csv"]
    (Some "1111") (Some "2222")
  = Ok [ Sample.february_row;
         mkTransaction (DTs 20494) "General" (Some "BE88") (Text "Bahn ticket")
           nan nan false true "Transport" [] ].
Proof. vm_compute. reflexivity. Qed.

(** A description column of numbers has no [.str]. *)
Example flag_recurring_numbers :
  fst (@flag_recurring Reference.backend 1%positive {[ 1%positive := [Sample.numbered] ]})
  = Raise AttributeError.
Proof. vm_compute. reflexivity. Qed.

(** A description missing in a column of dtype [object]: the marker test
    is NaN, and the flag is what [NaN | False] gives. *)
Example flag_recurring_missing_description :
  fst (@flag_recurring Reference.backend 1%positive
         {[ 1%positive := [Sample.undescribed] ]})
  = Ok [@nan_or Reference.backend false].
Proof. vm_compute. reflexivity. Qed.

Lemma preprocessing_raise_writes_nothing_witness :
  (true = true \/ forall v, register_file Sample.world_narrow_file <> RegOther v)
  /\ @preprocessing Reference.backend true Sample.world_narrow_file
     = (Raise ValueError, Sample.world_narrow_file)
  /\ Sample.world_narrow_file = Sample.world_narrow_file.
Proof.
  assert (Hrun : @preprocessing Reference.backend true Sample.world_narrow_file
                 = (Raise ValueError, Sample.world_narrow_file))
    by (vm_compute; reflexivity).
  split; [left; reflexivity |]. split; [exact Hrun |].
  apply (@preprocessing_raise_writes_nothing Reference.backend true
           Sample.world_narrow_file Sample.world_narrow_file ValueError
           (or_introl eq_refl) Hrun).
Defined.

Lemma preprocessing_raises_after_write_witness :
  get_files (List.map fst (raw_dir Sample.world_array_register))
    (register_file Sample.world_array_register) false
  = Ok ("february.csv" :: ["notes.txt"; "march.csv"], NotDict (JArray ["january.csv"]))
  /\ @new_batch Reference.backend (raw_dir Sample.world_array_register)
       ("february.csv" :: ["notes.txt"; "march.csv"])
       (general_ending Sample.world_array_register)
       (savings_ending Sample.world_array_register)
     = Ok [Sample.february_row; Sample.march_row]
  /\ @load Reference.backend Sample.world_array_register = Ok [Sample.general_row]
  /\ exists w',
       @preprocessing Reference.backend false Sample.world_array_register
       = (Raise TypeError, w')
       /\ transactions_file w'
          = Some ([Sample.general_row] ++ [Sample.february_row; Sample.march_row])%list
       /\ register_file w' = register_file Sample.world_array_register
       /\ raw_dir w' = raw_dir Sample.world_array_register
       /\ register_file Sample.world_array_register = RegOther (JArray ["january.csv"]).
Proof.
  assert (Hfiles : get_files (List.map fst (raw_dir Sample.world_array_register))
                     (register_file Sample.world_array_register) false
                   = Ok ("february.csv" :: ["notes.txt"; "march.csv"],
                         NotDict (JArray ["january.csv"])))
    by (vm_compute; reflexivity).
  assert (Hbatch : @new_batch Reference.backend (raw_dir Sample.world_array_register)
                     ("february.csv" :: ["notes.txt"; "march.csv"])
                     (general_ending Sample.world_array_register)
                     (savings_ending Sample.world_array_register)
                   = Ok [Sample.february_row; Sample.march_row])
    by (vm_compute; reflexivity).
  assert (Hload : @load Reference.backend Sample.world_array_register
                  = Ok [Sample.general_row])
    by (vm_compute; reflexivity).
  split; [exact Hfiles |]. split; [exact Hbatch |]. split; [exact Hload |].
  apply (@preprocessing_raises_after_write Reference.backend
           Sample.world_array_register _ _ _ _ _ Hfiles Hbatch Hload).
Defined.

Lemma preprocessing_nothing_pending_witness :
  register_file Sample.world_all_registered
  = RegJson {[ "january.csv" := "2026-02-01T08:00:00";
               "february.csv" := "2026-03-01T08:00:00";
               "notes.txt" := "2026-03-01T08:00:00";
               "march.csv" := "2026-04-01T08:00:00" ]}
  /\ (forall file, In file (List.map fst (raw_dir Sample.world_all_registered)) ->
        file ∈ dom ({[ "january.csv" := "2026-02-01T08:00:00";
                       "february.csv" := "2026-03-01T08:00:00";
                       "notes.txt" := "2026-03-01T08:00:00";
                       "march.csv" := "2026-04-01T08:00:00" ]} : Register))
  /\ @preprocessing Reference.backend false Sample.world_all_registered
     = (Ok tt, Sample.world_all_registered).
Proof.
  assert (Hall : forall file,
             In file (List.map fst (raw_dir Sample.world_all_registered)) ->
             file ∈ dom ({[ "january.csv" := "2026-02-01T08:00:00";
                            "february.csv" := "2026-03-01T08:00:00";
                            "notes.txt" := "2026-03-01T08:00:00";
                            "march.csv" := "2026-04-01T08:00:00" ]} : Register)).
  { intros file Hfile. apply in_register_dom.
    simpl in Hfile. destruct Hfile as [<- | [<- | [<- | [<- | []]]]];
      vm_compute; reflexivity. }
  split; [reflexivity |]. split; [exact Hall |].
  apply (@preprocessing_nothing_pending Reference.backend Sample.world_all_registered
           _ eq_refl Hall).
Defined.

Lemma preprocessing_rerun_is_noop_witness :
  raw_dir Sample.world <> []
  /\ @preprocessing Reference.backend false Sample.world
     = (Ok tt, snd (@preprocessing Reference.backend false Sample.world))
  /\ @preprocessing Reference.backend false
       (snd (@preprocessing Reference.backend false Sample.world))
     = (Ok tt, snd (@preprocessing Reference.backend false Sample.world)).
Proof.
  assert (Hdir : raw_dir Sample.world <> []) by discriminate.
  assert (Hrun : @preprocessing Reference.backend false Sample.world
                 = (Ok tt, snd (@preprocessing Reference.backend false Sample.world)))
    by (vm_compute; reflexivity).
  split; [exact Hdir |]. split; [exact Hrun |].
  apply (@preprocessing_rerun_is_noop Reference.backend false Sample.world _ Hdir Hrun).
Defined.

Lemma preprocessing_keeps_register_entries_witness :
  register_file Sample.world = RegJson {[ "january.csv" := "2026-02-01T08:00:00" ]}
  /\ @preprocessing Reference.backend false Sample.world
     = (Ok tt, snd (@preprocessing Reference.backend false Sample.world))
  /\ exists r',
       register_file (snd (@preprocessing Reference.backend false Sample.world))
       = RegJson r'
       /\ ({[ "january.csv" := "2026-02-01T08:00:00" ]} : Register) ⊆ r'.
Proof.
  assert (Hrun : @preprocessing Reference.backend false Sample.world
                 = (Ok tt, snd (@preprocessing Reference.backend false Sample.world)))
    by (vm_compute; reflexivity).
  split; [reflexivity |]. split; [exact Hrun |].
  apply (@preprocessing_keeps_register_entries Reference.backend Sample.world _ _
           eq_refl Hrun).
Defined.

Lemma preprocessing_reprocess_replaces_witness :
  raw_dir Sample.world <> []
  /\ @preprocessing Reference.backend true Sample.world
     = (Ok tt, snd (@preprocessing Reference.backend true Sample.world))
  /\ exists df r',
       @new_batch Reference.backend (raw_dir Sample.world)
         (List.map fst (raw_dir Sample.world)) (general_ending Sample.world)
         (savings_ending Sample.world) = Ok df
       /\ transactions_file (snd (@preprocessing Reference.backend true Sample.world))
          = Some df
       /\ register_file (snd (@preprocessing Reference.backend true Sample.world))
          = RegJson r'
       /\ dom r' = list_to_set (List.map fst (raw_dir Sample.world)).
Proof.
  assert (Hdir : raw_dir Sample.world <> []) by discriminate.
  assert (Hrun : @preprocessing Reference.backend true Sample.world
                 = (Ok tt, snd (@preprocessing Reference.backend true Sample.world)))
    by (vm_compute; reflexivity).
  split; [exact Hdir |]. split; [exact Hrun |].
  apply (@preprocessing_reprocess_replaces Reference.backend Sample.world _ Hdir Hrun).
Defined.

Lemma preprocessing_first_run_needs_reprocess_witness :
  transactions_file Sample.world_no_table = None
  /\ get_files (List.map fst (raw_dir Sample.world_no_table))
       (register_file Sample.world_no_table) false
     = Ok ("february.csv" :: ["notes.txt"; "march.csv"],
           Dict {[ "january.csv" := "2026-02-01T08:00:00" ]})
  /\ @new_batch Reference.backend (raw_dir Sample.world_no_table)
       ("february.csv" :: ["notes.txt"; "march.csv"])
       (general_ending Sample.world_no_table) (savings_ending Sample.world_no_table)
     = Ok [Sample.february_row; Sample.march_row]
  /\ @preprocessing Reference.backend false Sample.world_no_table
     = (Raise FileNotFoundError, Sample.world_no_table).
Proof.
  assert (Hfiles : get_files (List.map fst (raw_dir Sample.world_no_table))
                     (register_file Sample.world_no_table) false
                   = Ok ("february.csv" :: ["notes.txt"; "march.csv"],
                         Dict {[ "january.csv" := "2026-02-01T08:00:00" ]}))
    by (vm_compute; reflexivity).
  assert (Hbatch : @new_batch Reference.backend (raw_dir Sample.world_no_table)
                     ("february.csv" :: ["notes.txt"; "march.csv"])
                     (general_ending Sample.world_no_table)
                     (savings_ending Sample.world_no_table)
                   = Ok [Sample.february_row; Sample.march_row])
    by (vm_compute; reflexivity).
  split; [reflexivity |]. split; [exact Hfiles |]. split; [exact Hbatch |].
  apply (@preprocessing_first_run_needs_reprocess Reference.backend
           Sample.world_no_table _ _ _ _ eq_refl Hfiles Hbatch).
Defined.

Lemma preprocessing_no_csv_pending_witness :
  get_files (List.map fst (raw_dir Sample.world_notes_only))
    (register_file Sample.world_notes_only) false
  = Ok ("notes.txt" :: [], Dict ∅)
  /\ open_raw (raw_dir Sample.world_notes_only) "notes.txt" = Ok Sample.notes
  /\ (forall name, In name ("notes.txt" :: []) -> ~ csv_name name)
  /\ @preprocessing Reference.backend false Sample.world_notes_only
     = (Raise ValueError, Sample.world_notes_only).
Proof.
  assert (Hnone : forall name, In name ("notes.txt" :: []) -> ~ csv_name name).
  { intros name [<- | []] Hcsv. apply endswith_suffix in Hcsv. discriminate. }
  split; [reflexivity |]. split; [reflexivity |]. split; [exact Hnone |].
  apply (@preprocessing_no_csv_pending Reference.backend false Sample.world_notes_only
           "notes.txt" [] (Dict ∅) Sample.notes eq_refl eq_refl Hnone).
Defined.

Lemma preprocessing_narrow_file_witness :
  get_files (List.map fst (raw_dir Sample.world_narrow_file))
    (register_file Sample.world_narrow_file) false
  = Ok (["february.csv"; "april.csv"], Dict ∅)
  /\ header_ncols (raw_dir Sample.world_narrow_file) ["february.csv"; "april.csv"]
     = Ok 7%nat
  /\ Forall (fun name => exists g, open_raw (raw_dir Sample.world_narrow_file) name = Ok g)
            (csv_files ["february.csv"; "april.csv"])
  /\ In "april.csv" (csv_files ["february.csv"; "april.csv"])
  /\ open_raw (raw_dir Sample.world_narrow_file) "april.csv" = Ok Sample.narrow
  /\ (length (header Sample.narrow) < 7)%nat
  /\ @preprocessing Reference.backend false Sample.world_narrow_file
     = (Raise ValueError, Sample.world_narrow_file).
Proof.
  assert (Hopens : Forall (fun name => exists g,
                             open_raw (raw_dir Sample.world_narrow_file) name = Ok g)
                          (csv_files ["february.csv"; "april.csv"])).
  { repeat constructor; eexists; reflexivity. }
  assert (Hin : In "april.csv" (csv_files ["february.csv"; "april.csv"]))
    by (right; left; reflexivity).
  assert (Hlen : (length (header Sample.narrow) < 7)%nat) by (simpl; lia).
  split; [reflexivity |]. split; [reflexivity |]. split; [exact Hopens |].
  split; [exact Hin |]. split; [reflexivity |]. split; [exact Hlen |].
  apply (@preprocessing_narrow_file Reference.backend false Sample.world_narrow_file
           ["february.csv"; "april.csv"] (Dict ∅) 7%nat "april.csv" Sample.narrow
           eq_refl eq_refl Hopens Hin eq_refl Hlen).
Defined.

Lemma load_general_view_witness :
  @load Reference.backend Sample.world = Ok [Sample.general_row]
  /\ exists table,
       transactions_file Sample.world = Some table
       /\ (length [Sample.general_row] <= length table)%nat
       /\ Forall (fun t => sender t = "General" /\ forall s, date t <> DStr s)
                 [Sample.general_row].
Proof.
  split; [reflexivity |].
  apply (@load_general_view Reference.backend Sample.world [Sample.general_row]).
  reflexivity.
Defined.

Lemma new_batch_sorted_by_date_witness :
  @new_batch Reference.backend (raw_dir Sample.world)
    ["february.csv"; "notes.txt"; "march.csv"] (Some "1111") (Some "2222")
  = Ok [Sample.february_row; Sample.march_row]
  /\ StronglySorted (fun a b => date_le a b = true)
       [Sample.february_row; Sample.march_row]
  /\ Forall (fun t => forall s, date t <> DStr s)
       [Sample.february_row; Sample.march_row].
Proof.
  assert (Hbatch : @new_batch Reference.backend (raw_dir Sample.world)
                     ["february.csv"; "notes.txt"; "march.csv"] (Some "1111") (Some "2222")
                   = Ok [Sample.february_row; Sample.march_row])
    by (vm_compute; reflexivity).
  split; [exact Hbatch |].
  apply (@new_batch_sorted_by_date Reference.backend _ _ _ _ _ Hbatch).
Defined.

Lemma new_batch_annotations_witness :
  @new_batch Reference.backend (raw_dir Sample.world)
    ["february.csv"; "notes.txt"; "march.csv"] (Some "1111") (Some "2222")
  = Ok [Sample.february_row; Sample.march_row]
  /\ Forall (fun t => In (concept t, is_essential t) annotations)
       [Sample.february_row; Sample.march_row].
Proof.
  assert (Hbatch : @new_batch Reference.backend (raw_dir Sample.world)
                     ["february.csv"; "notes.txt"; "march.csv"] (Some "1111") (Some "2222")
                   = Ok [Sample.february_row; Sample.march_row])
    by (vm_compute; reflexivity).
  split; [exact Hbatch |].
  apply (@new_batch_annotations Reference.backend _ _ _ _ _ Hbatch).
Defined.

Lemma new_batch_unset_general_witness :
  @read_batch Reference.backend (raw_dir Sample.world_no_general)
    ["february.csv"; "notes.txt"; "march.csv"]
  = Ok Sample.february_march
  /\ @typed_frame Reference.backend (@clean_columns Reference.backend Sample.february_march)
     = Ok Sample.february_march_typed
  /\ Sample.february_march_typed <> []
  /\ Forall (fun t => answers t = true) Sample.february_march_typed
  /\ @new_batch Reference.backend (raw_dir Sample.world_no_general)
       ["february.csv"; "notes.txt"; "march.csv"] None (Some "2222")
     = Raise TypeError.
Proof.
  assert (Htyped : @typed_frame Reference.backend
                     (@clean_columns Reference.backend Sample.february_march)
                   = Ok Sample.february_march_typed)
    by (vm_compute; reflexivity).
  assert (Hne : Sample.february_march_typed <> []) by discriminate.
  assert (Hall : Forall (fun t => answers t = true) Sample.february_march_typed)
    by (repeat constructor).
  split; [reflexivity |]. split; [exact Htyped |]. split; [exact Hne |].
  split; [exact Hall |].
  apply (@new_batch_unset_general Reference.backend (raw_dir Sample.world_no_general)
           ["february.csv"; "notes.txt"; "march.csv"] (Some "2222") _ _
           eq_refl Htyped Hne Hall).
Defined.

Lemma flag_recurring_marker_only_witness :
  ({[ 1%positive := Sample.debit_without_recipient ]} : Heap) !! 1%positive
  = Some Sample.debit_without_recipient
  /\ @parse_date_column Reference.backend Sample.debit_without_recipient
     = Ok Sample.debit_without_recipient
  /\ Forall (fun t => description t <> NoText numeric_dtype) Sample.debit_without_recipient
  /\ Sample.debit_without_recipient !! 0%nat = Some Sample.gym_debit
  /\ answers Sample.gym_debit = true
  /\ (recipient Sample.gym_debit = None \/ day_of (date Sample.gym_debit) = None)
  /\ exists flags h',
       @flag_recurring Reference.backend 1%positive
         {[ 1%positive := Sample.debit_without_recipient ]} = (Ok flags, h')
       /\ flags !! 0%nat = Some (@starts_with_marker Reference.backend Sample.gym_debit).
Proof.
  assert (Hstr : Forall (fun t => description t <> NoText numeric_dtype)
                   Sample.debit_without_recipient)
    by (repeat constructor; discriminate).
  split; [reflexivity |]. split; [reflexivity |]. split; [exact Hstr |].
  split; [reflexivity |]. split; [reflexivity |]. split; [left; reflexivity |].
  apply (@flag_recurring_marker_only Reference.backend
           {[ 1%positive := Sample.debit_without_recipient ]} 1%positive
           Sample.debit_without_recipient Sample.debit_without_recipient 0%nat
           Sample.gym_debit);
    [reflexivity | reflexivity | exact Hstr | reflexivity | reflexivity | left; reflexivity].
Defined.

(** The frame of [shop_at_station] and [undescribed]: the run raises at
    the first rule, with both rows reset. *)
Lemma apply_fixed_rules_raise_outcome_witness :
  @apply_fixed_rules Reference.backend 1%positive
    {[ 1%positive := [Sample.shop_at_station; Sample.undescribed] ]}
  = (Raise ValueError,
     {[ 1%positive := [ set_concept "Others" Sample.shop_at_station;
                        set_concept "Others" Sample.undescribed ];
        2%positive := [Sample.shop_at_station; Sample.undescribed] ]})
  /\ (({[ 1%positive := [ set_concept "Others" Sample.shop_at_station;
                          set_concept "Others" Sample.undescribed ];
          2%positive := [Sample.shop_at_station; Sample.undescribed] ]} : Heap)
        !! 1%positive
      = ({[ 1%positive := [Sample.shop_at_station; Sample.undescribed] ]} : Heap)
          !! 1%positive
      \/ (ValueError = ValueError
          /\ exists rows flags u,
               ({[ 1%positive := [Sample.shop_at_station; Sample.undescribed] ]} : Heap)
                 !! 1%positive = Some rows
               /\ fst (@flag_recurring Reference.backend 1%positive
                         {[ 1%positive := [Sample.shop_at_station; Sample.undescribed] ]})
                  = Ok flags
               /\ In u rows /\ description u = NoText object_dtype
               /\ ({[ 1%positive := [ set_concept "Others" Sample.shop_at_station;
                                      set_concept "Others" Sample.undescribed ];
                      2%positive := [Sample.shop_at_station; Sample.undescribed] ]} : Heap)
                    !! 1%positive
                  = Some (imap (fun i t =>
                                  set_concept "Others"
                                    (set_is_essential false
                                       (set_is_recurring (nth i flags false) t))) rows))).
Proof.
  assert (Hrun : @apply_fixed_rules Reference.backend 1%positive
                   {[ 1%positive := [Sample.shop_at_station; Sample.undescribed] ]}
                 = (Raise ValueError,
                    {[ 1%positive := [ set_concept "Others" Sample.shop_at_station;
                                       set_concept "Others" Sample.undescribed ];
                       2%positive := [Sample.shop_at_station; Sample.undescribed] ]}))
    by (vm_compute; reflexivity).
  split; [exact Hrun |].
  apply (@apply_fixed_rules_raise_outcome Reference.backend _ _ _ _ Hrun).
Defined.

Lemma observe_grid_only_witness :
  @observe Reference.backend MonthEnd Sample.two_transactions = Ok [(20484, 0%float)]
  /\ exists first last,
       hd_error (List.map fst (groupby_last (@balance_sorted Reference.backend Sample.two_transactions)))
       = Some first
       /\ List.last (List.map Some
                       (List.map fst (groupby_last (@balance_sorted Reference.backend Sample.two_transactions))))
                    None = Some last
       /\ List.map fst [(20484, 0%float)] = date_range MonthEnd first last
       /\ Forall (fun kv => is_nan (snd kv) = false) [(20484, 0%float)]
       /\ [(20484, 0%float)]
          = fillna 0%float
              (ffill (reindex
                        (List.filter
                           (fun kv => existsb (Z.eqb (fst kv)) (date_range MonthEnd first last))
                           (groupby_last (@balance_sorted Reference.backend Sample.two_transactions)))
                        (date_range MonthEnd first last))).
Proof.
  assert (Hobs : @observe Reference.backend MonthEnd Sample.two_transactions = Ok [(20484, 0%float)])
    by (vm_compute; reflexivity).
  split; [exact Hobs |].
  apply (@observe_grid_only Reference.backend MonthEnd Sample.two_transactions _ Hobs).
Defined.


Lemma sarima_period_amounts_witness :
  @observe Reference.backend MonthStart Sample.two_transactions
  = Ok ((20454, 5000%float) :: [(20485, 3500%float)])
  /\ exists amounts : list float,
       length amounts = S (length [(20485, 3500%float)])
       /\ nth_error amounts 0 = Some 5000%float
       /\ (forall i x y,
             nth_error ((20454, 5000%float) :: [(20485, 3500%float)]) i = Some x ->
             nth_error ((20454, 5000%float) :: [(20485, 3500%float)]) (S i) = Some y ->
             nth_error amounts (S i)
             = Some (if is_nan (snd y - snd x)%float then 5000%float
                     else (snd y - snd x)%float))
       /\ Forall (fun a => is_nan a = false) amounts
       /\ (forall e, @sarimax_forecast Reference.backend amounts 3 = Raise e ->
                     @sarima Reference.backend Sample.two_transactions 3 MonthStart = Raise e)
       /\ (forall mean ci,
             @sarimax_forecast Reference.backend amounts 3 = Ok (mean, ci) ->
             length mean = 3%nat -> length ci = 3%nat ->
             exists res,
               @sarima Reference.backend Sample.two_transactions 3 MonthStart = Ok res
               /\ List.map snd (daily res) = mean
               /\ List.map snd (daily_ci res) = ci).
Proof.
  assert (Hobs : @observe Reference.backend MonthStart Sample.two_transactions
                 = Ok ((20454, 5000%float) :: [(20485, 3500%float)]))
    by (vm_compute; reflexivity).
  split; [exact Hobs |].
  apply (@sarima_period_amounts Reference.backend
           Sample.two_transactions 3 MonthStart _ _ _ Hobs).
Defined.

Lemma find_project_root_nearest_witness :
  Utils.find_project_root Sample.env_in_finance Sample.source_dir
  = Ok ["home"; "emili"; "finance"]
  /\ exists n, (n <= length Sample.source_dir)%nat
               /\ ["home"; "emili"; "finance"] = firstn n Sample.source_dir
               /\ Sample.env_in_finance ["home"; "emili"; "finance"] = true
               /\ forall m, (n < m <= length Sample.source_dir)%nat ->
                            Sample.env_in_finance (firstn m Sample.source_dir) = false.
Proof.
  assert (Hroot : Utils.find_project_root Sample.env_in_finance Sample.source_dir
                  = Ok ["home"; "emili"; "finance"]) by (vm_compute; reflexivity).
  split; [exact Hroot |].
  apply (find_project_root_nearest _ _ _ Hroot).
Defined.

Lemma sarima_bundle_shape_witness :
  @sarima Reference.backend Sample.two_transactions 2 MonthStart = Ok Sample.bundle
  /\ exists last_obs last_cum,
       List.last (List.map Some (observed_cumulative Sample.bundle)) None
       = Some (last_obs, last_cum)
       /\ length (daily Sample.bundle) = 2%nat
       /\ List.map fst (daily Sample.bundle)
          = date_range_periods MonthStart (add_offset MonthStart last_obs) 2
       /\ List.map fst (daily_ci Sample.bundle) = List.map fst (daily Sample.bundle)
       /\ List.map fst (cumulative Sample.bundle) = List.map fst (daily Sample.bundle)
       /\ List.map fst (cumulative_ci Sample.bundle) = List.map fst (daily Sample.bundle)
       /\ List.map snd (cumulative Sample.bundle)
          = List.map (fun c => (last_cum + c)%float)
              (cumsum (List.map snd (daily Sample.bundle)))
       /\ frequency Sample.bundle = MonthStart.
Proof.
  assert (Hres : @sarima Reference.backend Sample.two_transactions 2 MonthStart
                 = Ok Sample.bundle) by (vm_compute; reflexivity).
  split; [exact Hres |].
  apply (sarima_bundle_shape Reference.backend Sample.two_transactions 2 MonthStart
           Sample.bundle Hres).
Defined.

(** The figure [line_chart] returns: the observed trace is the observed
    series; the forecast trace has one point per period of the horizon,
    preceded by at most one joining point; the band runs over the dates of
    the forecast trace forwards and then backwards, with one bound for each
    of these dates. *)
Theorem line_chart_traces (B : Backend) (data : DataFrame) (horizon : nat)
    (freq : Frequency) (fig : Figure) :
  @line_chart B data horizon freq = Ok fig ->
  exists res,
    @sarima B data horizon freq = Ok res
    /\ trace_x (observed_trace fig) = List.map fst (observed_cumulative res)
    /\ trace_y (observed_trace fig) = List.map snd (observed_cumulative res)
    /\ length (trace_x (forecast_trace fig)) = length (trace_y (forecast_trace fig))
    /\ (horizon <= length (trace_x (forecast_trace fig)) <= S horizon)%nat
    /\ trace_x (band_trace fig)
       = (trace_x (forecast_trace fig) ++ List.rev (trace_x (forecast_trace fig)))%list
    /\ length (trace_y (band_trace fig))
       = (2 * length (trace_x (forecast_trace fig)))%nat.
Proof.
  unfold line_chart.
  destruct (@sarima B data horizon freq) as [res|] eqn:Hres;
    cbn [mbind result_bind rbind]; [| discriminate].
  destruct (sarima_shape B data horizon freq res Hres)
    as (last_obs & last_cum & Hlast & Hlen & _ & _ & Hcum & Hci & _).
  rewrite Hlast.
  assert (Hlen' : length (cumulative res) = horizon).
  { rewrite <- (length_map fst), Hcum, length_map. exact Hlen. }
  assert (Hcases :
            forall cum_forecast cum_ci,
              List.map fst cum_ci = List.map fst cum_forecast ->
              (horizon <= length cum_forecast <= S horizon)%nat ->
              Ok (mkFigure
                    (mkTrace (List.map fst cum_forecast) (List.map snd cum_forecast))
                    (mkTrace (List.map fst cum_ci ++ List.rev (List.map fst cum_ci))%list
                       (List.map (fun row => fst (snd row)) cum_ci
                        ++ List.rev (List.map (fun row => snd (snd row)) cum_ci))%list)
                    (mkTrace (List.map fst (observed_cumulative res))
                             (List.map snd (observed_cumulative res)))) = Ok fig ->
              exists res0,
                Ok res = Ok res0
                /\ trace_x (observed_trace fig) = List.map fst (observed_cumulative res0)
                /\ trace_y (observed_trace fig) = List.map snd (observed_cumulative res0)
                /\ length (trace_x (forecast_trace fig))
                   = length (trace_y (forecast_trace fig))
                /\ (horizon <= length (trace_x (forecast_trace fig)) <= S horizon)%nat
                /\ trace_x (band_trace fig)
                   = (trace_x (forecast_trace fig)
                      ++ List.rev (trace_x (forecast_trace fig)))%list
                /\ length (trace_y (band_trace fig))
                   = (2 * length (trace_x (forecast_trace fig)))%nat).
  { intros cf cc Hsame Hbound [= <-]. exists res. cbn [observed_trace forecast_trace
      band_trace trace_x trace_y].
    split; [reflexivity |]. split; [reflexivity |]. split; [reflexivity |].
    split; [rewrite !length_map; reflexivity |].
    split; [rewrite length_map; exact Hbound |].
    split; [rewrite Hsame; reflexivity |].
    rewrite length_app, length_rev, !length_map.
    rewrite <- (length_map fst cc), Hsame, length_map. lia. }
  destruct (cumulative res) as [|[first_idx first_val] rest] eqn:Hc;
    cbn [mbind result_bind rbind]; [discriminate |].
  destruct (last_obs <? first_idx); cbn [mbind result_bind rbind fst snd].
  - apply Hcases; [simpl; f_equal; rewrite Hci, <- Hcum; reflexivity |].
    simpl in *. lia.
  - apply Hcases; [rewrite Hci, <- Hcum; reflexivity |].
    simpl in *. lia.
Qed.

Lemma line_chart_traces_witness :
  @line_chart Reference.backend Sample.two_transactions 2 MonthStart = Ok sample_figure
  /\ exists res,
       @sarima Reference.backend Sample.two_transactions 2 MonthStart = Ok res
       /\ trace_x (observed_trace sample_figure) = List.map fst (observed_cumulative res)
       /\ trace_y (observed_trace sample_figure) = List.map snd (observed_cumulative res)
       /\ length (trace_x (forecast_trace sample_figure))
          = length (trace_y (forecast_trace sample_figure))
       /\ (2 <= length (trace_x (forecast_trace sample_figure)) <= 3)%nat
       /\ trace_x (band_trace sample_figure)
          = (trace_x (forecast_trace sample_figure)
             ++ List.rev (trace_x (forecast_trace sample_figure)))%list
       /\ length (trace_y (band_trace sample_figure))
          = (2 * length (trace_x (forecast_trace sample_figure)))%nat.
Proof.
  assert (Hfig : @line_chart Reference.backend Sample.two_transactions 2 MonthStart
                 = Ok sample_figure) by (vm_compute; reflexivity).
  split; [exact Hfig |].
  apply (line_chart_traces Reference.backend Sample.two_transactions 2 MonthStart
           sample_figure Hfig).
Defined.

(** ** The observed series at daily frequency *)

Lemma range_until_daily (fuel : nat) :
  forall cur stop,
    fuel = Z.to_nat (stop - cur + 1) ->
    range_until Daily fuel cur stop = days_from cur fuel.
Proof.
  unfold days_from. induction fuel as [|n IH]; intros cur stop Hfuel; [reflexivity |].
  cbn [range_until]. destruct (Z.leb_spec cur stop) as [_ | Hgt]; [| lia].
  cbn [seq List.map]. f_equal; [simpl; lia |].
  change (add_offset Daily cur) with (cur + 1).
  rewrite (IH (cur + 1) stop) by lia. rewrite <- seq_shift, List.map_map.
  apply map_ext. intros i. lia.
Qed.

Lemma date_range_daily (start stop : Z) :
  date_range Daily start stop = days_from start (Z.to_nat (stop - start + 1)).
Proof. unfold date_range. apply range_until_daily. reflexivity. Qed.

Lemma days_from_split (start : Z) (n : nat) (g1 g2 : list Z) (g : Z) :
  days_from start n = (g1 ++ g :: g2)%list ->
  (g1 ++ [g])%list = days_from start (S (length g1))
  /\ g = start + Z.of_nat (length g1).
Proof.
  intros Hsplit.
  assert (Hlen : (length g1 < n)%nat).
  { apply (f_equal (@length Z)) in Hsplit. unfold days_from in Hsplit.
    rewrite length_map, length_seq, length_app in Hsplit. simpl in Hsplit. lia. }
  assert (Hfirst : firstn (S (length g1)) (days_from start n) = (g1 ++ [g])%list).
  { rewrite Hsplit. replace (g1 ++ g :: g2)%list with ((g1 ++ [g]) ++ g2)%list
      by (rewrite <- app_assoc; reflexivity).
    rewrite firstn_app. replace (S (length g1) - length (g1 ++ [g]))%nat with 0%nat
      by (rewrite length_app; simpl; lia).
    rewrite firstn_all2 by (rewrite length_app; simpl; lia).
    simpl. apply app_nil_r. }
  assert (Hdays : (g1 ++ [g])%list = days_from start (S (length g1))).
  { rewrite <- Hfirst. unfold days_from. rewrite firstn_map, take_seq.
    f_equal. f_equal. lia. }
  split; [exact Hdays |].
  unfold days_from in Hdays. rewrite seq_S, List.map_app in Hdays. simpl in Hdays.
  apply app_inj_tail in Hdays. tauto.
Qed.

(** Forward filling, point by point: the value at a label is what the
    values looked up so far leave. *)
Lemma ffill_from_In (s : Series) (grid : list Z) (g : Z) (v : float) :
  forall prev,
    In (g, v) (ffill_from prev (reindex s grid)) ->
    exists g1 g2,
      grid = (g1 ++ g :: g2)%list
      /\ v = fold_left carry (List.map (label_value s) (g1 ++ [g])%list) prev.
Proof.
  induction grid as [|g0 grid IH]; intros prev Hin; [destruct Hin |].
  cbn [reindex List.map ffill_from] in Hin.
  fold (label_value s g0) in Hin. fold (carry prev (label_value s g0)) in Hin.
  destruct Hin as [[= <- <-] | Hin].
  - exists [], grid. split; reflexivity.
  - destruct (IH _ Hin) as (g1 & g2 & -> & ->). exists (g0 :: g1), g2.
    split; reflexivity.
Qed.

Lemma filter_above (g : Z) (s : Series) :
  Forall (fun kv => g < fst kv) s ->
  List.filter (fun kv => fst kv <=? g) s = []
  /\ List.filter (fun kv => fst kv =? g) s = []
  /\ List.find (fun kv => fst kv =? g) s = None.
Proof.
  induction 1 as [|[k v] s Hk _ (IH1 & IH2 & IH3)]; simpl; [auto |].
  simpl in Hk. destruct (Z.leb_spec k g); [lia |].
  destruct (Z.eqb_spec k g); [lia |]. auto.
Qed.

(** In a series with ascending labels, the values up to [g] are the values
    before [g] followed by the value at [g], if there is one. *)
Lemma values_upto_step (s : Series) (g : Z) :
  StronglySorted (fun a b => fst a < fst b) s ->
  values_upto g s
  = (values_upto (g - 1) s
     ++ match List.find (fun kv => fst kv =? g) s with
        | Some (_, v) => [v]
        | None => []
        end)%list.
Proof.
  unfold values_upto. induction 1 as [|[k v] s Hs IH Hk]; [reflexivity |].
  cbn [List.filter List.find fst].
  destruct (Z.leb_spec k (g - 1)) as [Hle | Hgt].
  - destruct (Z.leb_spec k g); [| lia]. destruct (Z.eqb_spec k g); [lia |].
    simpl. rewrite IH. reflexivity.
  - destruct (Z.eqb_spec k g) as [-> | Hne].
    + destruct (Z.leb_spec g g); [| lia].
      assert (Habove : Forall (fun kv => g < fst kv) s) by exact Hk.
      destruct (filter_above g s Habove) as (-> & _ & _).
      assert (Habove' : Forall (fun kv => g - 1 < fst kv) s).
      { eapply Forall_impl; [exact Hk |]. intros kv Hkv. simpl in *. lia. }
      destruct (filter_above (g - 1) s Habove') as (-> & _ & _). reflexivity.
    + destruct (Z.leb_spec k g); [lia |].
      assert (Habove : Forall (fun kv => g < fst kv) s).
      { eapply Forall_impl; [exact Hk |]. intros kv Hkv. simpl in *. lia. }
      destruct (filter_above g s Habove) as (-> & _ & ->).
      assert (Habove' : Forall (fun kv => g - 1 < fst kv) s).
      { eapply Forall_impl; [exact Hk |]. intros kv Hkv. simpl in *. lia. }
      destruct (filter_above (g - 1) s Habove') as (-> & _ & _). reflexivity.
Qed.

(** Looking the days up one by one from [start] and carrying forward
    leaves what the recorded values up to the last day leave. *)
Lemma carry_over_days (s : Series) (start : Z) (acc : float) :
  StronglySorted (fun a b => fst a < fst b) s ->
  Forall (fun kv => start <= fst kv) s ->
  forall n,
    fold_left carry (List.map (label_value s) (days_from start n)) acc
    = fold_left carry (values_upto (start + Z.of_nat n - 1) s) acc.
Proof.
  intros Hsorted Hfrom. induction n as [|n IH].
  - unfold values_upto, days_from. cbn [seq List.map fold_left].
    assert (Habove : Forall (fun kv => start + Z.of_nat 0 - 1 < fst kv) s).
    { eapply Forall_impl; [exact Hfrom |]. intros kv Hkv. simpl in *. lia. }
    destruct (filter_above _ s Habove) as (-> & _ & _). reflexivity.
  - unfold days_from in *. rewrite seq_S, !List.map_app, fold_left_app, IH.
    rewrite (values_upto_step s (start + Z.of_nat (S n) - 1) Hsorted).
    replace (start + Z.of_nat (S n) - 1 - 1) with (start + Z.of_nat n - 1) by lia.
    replace (start + Z.of_nat (S n) - 1) with (start + Z.of_nat n) by lia.
    rewrite fold_left_app. simpl. unfold label_value.
    destruct (List.find _ s) as [[k v]|]; reflexivity.
Qed.

Lemma groupby_last_ascending `{Backend} (data : DataFrame) :
  StronglySorted (fun a b => fst a < fst b) (groupby_last (balance_sorted data)).
Proof.
  destruct (fold_last_step_groups (balance_sorted data) (balance_sorted_sorted data))
    as (Hdec & _ & _).
  unfold groupby_last. apply sorted_rev, Hdec.
Qed.

(** At daily frequency the observed series is a forward fill of the
    balances per date: it has one point for every day from the first to the
    last observed date, and the value on a day is the last balance that is
    not NaN among the balances per date up to that day, 0.0 when there is
    none. *)
Theorem observe_daily_forward_fill `{Backend} (data : DataFrame) (obs : Series) :
  observe Daily data = Ok obs ->
  exists first last,
    hd_error (List.map fst (groupby_last (balance_sorted data))) = Some first
    /\ List.last (List.map Some (List.map fst (groupby_last (balance_sorted data)))) None
       = Some last
    /\ List.map fst obs = days_from first (Z.to_nat (last - first + 1))
    /\ forall g v,
         In (g, v) obs ->
         v = zero_if_nan
               (fold_left carry (values_upto g (groupby_last (balance_sorted data))) nan).
Proof.
  intros Hobs.
  pose proof (groupby_last_ascending data) as Hsorted.
  unfold observe in Hobs.
  destruct (groupby_last (balance_sorted data)) as [|[first x] rest] eqn:Hb; [discriminate |].
  destruct (List.last (List.map Some ((first, x) :: rest)) None) as [[last y]|] eqn:Hl;
    [| discriminate].
  injection Hobs as <-. exists first, last. split; [reflexivity |]. split.
  { rewrite last_some_map, Hl. reflexivity. }
  split.
  { rewrite fillna_labels. unfold ffill. rewrite ffill_from_labels, reindex_labels.
    apply date_range_daily. }
  intros g v Hin.
  unfold fillna in Hin. apply in_map_iff in Hin as ([g' x'] & [= -> <-] & Hin).
  fold (zero_if_nan x'). f_equal.
  unfold ffill in Hin. apply ffill_from_In in Hin as (g1 & g2 & Hsplit & ->).
  rewrite date_range_daily in Hsplit.
  apply days_from_split in Hsplit as [-> ->].
  rewrite carry_over_days.
  - f_equal. f_equal. lia.
  - exact Hsorted.
  - inversion Hsorted as [|? ? _ Hall]; subst. constructor; [simpl; lia |].
    eapply Forall_impl; [exact Hall |]. intros kv Hkv. simpl in *. lia.
Qed.

Lemma observe_daily_forward_fill_witness :
  @observe Reference.backend Daily Sample.two_transactions
  = Ok (List.map (fun g => (g, 5000%float)) (days_from 20454 31) ++ [(20485, 3500%float)])%list
  /\ exists first last,
       hd_error (List.map fst (groupby_last (@balance_sorted Reference.backend Sample.two_transactions)))
       = Some first
       /\ List.last (List.map Some
                       (List.map fst (groupby_last (@balance_sorted Reference.backend Sample.two_transactions))))
                    None = Some last
       /\ List.map fst
            (List.map (fun g => (g, 5000%float)) (days_from 20454 31)
             ++ [(20485, 3500%float)])%list
          = days_from first (Z.to_nat (last - first + 1))
       /\ forall g v,
            In (g, v)
               (List.map (fun g => (g, 5000%float)) (days_from 20454 31)
                ++ [(20485, 3500%float)])%list ->
            v = zero_if_nan
                  (fold_left carry
                     (values_upto g (groupby_last (@balance_sorted Reference.backend Sample.two_transactions)))
                     nan).
Proof.
  assert (Hobs : @observe Reference.backend Daily Sample.two_transactions
                 = Ok (List.map (fun g => (g, 5000%float)) (days_from 20454 31)
                       ++ [(20485, 3500%float)])%list)
    by (vm_compute; reflexivity).
  split; [exact Hobs |].
  apply (@observe_daily_forward_fill Reference.backend Sample.two_transactions _ Hobs).
Defined.

(** ** The columns the annotation reads *)

Lemma insert_by_rel {A} (R : A -> A -> Prop) (le : A -> A -> bool) :
  (forall a a' b b', R a a' -> R b b' -> le a b = le a' b') ->
  forall x x' l l',
    R x x' -> Forall2 R l l' -> Forall2 R (insert_by le x l) (insert_by le x' l').
Proof.
  intros Hle x x' l l' Hx Hl. induction Hl as [|y y' l l' Hy Hl IH]; simpl.
  - constructor; [exact Hx | constructor].
  - rewrite (Hle x x' y y' Hx Hy). destruct (le x' y').
    + constructor; [exact Hx |]. constructor; assumption.
    + constructor; assumption.
Qed.

Lemma sort_by_rel {A} (R : A -> A -> Prop) (le : A -> A -> bool) :
  (forall a a' b b', R a a' -> R b b' -> le a b = le a' b') ->
  forall l l', Forall2 R l l' -> Forall2 R (sort_by le l) (sort_by le l').
Proof.
  intros Hle l l' Hl. unfold sort_by.
  induction Hl as [|x x' l l' Hx Hl IH]; simpl; [constructor |].
  apply insert_by_rel; assumption.
Qed.

Lemma recipient_date_le_rel (a a' b b' : IRow) :
  same_irow a a' -> same_irow b b' ->
  recipient_date_le a b = recipient_date_le a' b'.
Proof.
  intros (_ & Hd & Hr & _) (_ & Hd' & Hr' & _).
  unfold recipient_date_le, sort_compare. rewrite Hd, Hr, Hd', Hr'. reflexivity.
Qed.

Lemma indexed_rel (rows rows' : DataFrame) :
  Forall2 same_keys rows rows' -> Forall2 same_irow (indexed rows) (indexed rows').
Proof.
  unfold indexed. generalize 0%nat as start. intros start Hrows. revert start.
  induction Hrows as [|t t' rows rows' Ht Hrows IH]; intros start; simpl;
    [constructor |].
  constructor; [split; [reflexivity | exact Ht] | apply IH].
Qed.

Lemma find_recipient_rel (x x' : IRow) (before before' : list IRow) :
  same_irow x x' ->
  Forall2 same_irow before before' ->
  match List.find (fun y => same_recipient (snd y) (snd x)) before with
  | Some y => day_of (date (snd y))
  | None => None
  end
  = match List.find (fun y => same_recipient (snd y) (snd x')) before' with
    | Some y => day_of (date (snd y))
    | None => None
    end.
Proof.
  intros (_ & _ & Hr & _) Hbefore.
  induction Hbefore as [|y y' before before' (_ & Hd & Hr' & _) _ IH]; simpl;
    [reflexivity |].
  unfold same_recipient at 1 3. rewrite Hr, Hr'.
  destruct (recipient (snd y')) as [a|], (recipient (snd x')) as [b|];
    try exact IH.
  destruct (String.eqb a b); [rewrite Hd; reflexivity | exact IH].
Qed.

Lemma groupby_shift_rel (rows rows' : list IRow) :
  Forall2 same_irow rows rows' ->
  forall before before',
    Forall2 same_irow before before' ->
    groupby_shift before rows = groupby_shift before' rows'.
Proof.
  induction 1 as [|x x' rows rows' Hx Hrows IH]; intros before before' Hbefore; simpl;
    [reflexivity |].
  rewrite (find_recipient_rel x x' before before' Hx Hbefore).
  rewrite (IH (x :: before) (x' :: before')) by (constructor; assumption).
  destruct Hx as [-> _]. reflexivity.
Qed.

Lemma days_diff_rel (sorted sorted' : list IRow) :
  Forall2 same_irow sorted sorted' -> days_diff sorted = days_diff sorted'.
Proof.
  intros Hsorted. unfold days_diff, prev_dates.
  rewrite (groupby_shift_rel sorted sorted' Hsorted [] []) by constructor.
  generalize (groupby_shift [] sorted') as prev.
  induction Hsorted as [|[i t] [i' t'] sorted sorted' (Hi & Hd & _) _ IH];
    intros [|[j p] prev]; simpl; try reflexivity.
  simpl in Hi, Hd. rewrite Hi, Hd, IH. reflexivity.
Qed.

Lemma same_keys_descriptions (rows rows' : DataFrame) :
  Forall2 same_keys rows rows' ->
  List.map description rows = List.map description rows'.
Proof.
  induction 1 as [|t t' rows rows' (_ & _ & Hdesc) _ IH]; simpl; [reflexivity |].
  rewrite Hdesc, IH. reflexivity.
Qed.

Section AnnotationColumns.
Context `{Backend}.

(** The flags are computed from the date, the recipient and the
    description of the rows, and from nothing else. *)
Lemma recurring_flags_rel (rows rows' : DataFrame) :
  Forall2 same_keys rows rows' -> recurring_flags rows = recurring_flags rows'.
Proof.
  intros Hrows. unfold recurring_flags, periodic_flag, df_sorted.
  rewrite (days_diff_rel (sort_by recipient_date_le (indexed rows))
             (sort_by recipient_date_le (indexed rows'))).
  - assert (Hbase : base_flag rows = base_flag rows').
    { unfold base_flag. rewrite <- !(List.map_map description).
      rewrite (same_keys_descriptions rows rows' Hrows). reflexivity. }
    rewrite Hbase. reflexivity.
  - apply sort_by_rel; [apply recipient_date_le_rel | apply indexed_rel, Hrows].
Qed.

Lemma parse_date_column_rel (rows rows' : DataFrame) :
  Forall2 same_keys rows rows' ->
  match parse_date_column rows, parse_date_column rows' with
  | Ok parsed, Ok parsed' => Forall2 same_keys parsed parsed'
  | Raise e, Raise e' => e = e'
  | _, _ => False
  end.
Proof.
  unfold parse_date_column.
  induction 1 as [|t t' rows rows' (Hd & Hr & Hdesc) _ IH]; simpl; [constructor |].
  rewrite Hd. destruct (to_datetime (date t')) as [d|e]; [| reflexivity].
  destruct (rmapM _ rows) as [parsed|e], (rmapM _ rows') as [parsed'|e'];
    try exact IH.
  constructor; [| exact IH]. repeat split; assumption.
Qed.

(** [flag_recurring] reads three columns: on two frames that agree, row by
    row, on date, recipient and description, it returns the same flags or
    raises the same exception, whatever the other columns hold. *)
Theorem flag_recurring_reads_three_columns (h h' : Heap) (df df' : loc)
    (rows rows' : DataFrame) :
  h !! df = Some rows ->
  h' !! df' = Some rows' ->
  Forall2 same_keys rows rows' ->
  fst (flag_recurring df h) = fst (flag_recurring df' h').
Proof.
  intros Hdf Hdf' Hrows. pose proof (parse_date_column_rel rows rows' Hrows) as Hparse.
  pose proof (str_accessor_descriptions rows rows' (same_keys_descriptions _ _ Hrows))
    as Hstr.
  destruct (parse_date_column rows) as [parsed|e] eqn:Hp,
           (parse_date_column rows') as [parsed'|e'] eqn:Hp'.
  - destruct (str_accessor rows) as [[]|e] eqn:Hacc; symmetry in Hstr.
    + rewrite (flag_recurring_run h df rows parsed Hdf Hp Hacc).
      rewrite (flag_recurring_run h' df' rows' parsed' Hdf' Hp' Hstr). simpl.
      f_equal. apply recurring_flags_rel, Hparse.
    + rewrite (flag_recurring_no_accessor h df rows parsed e Hdf Hp Hacc).
      rewrite (flag_recurring_no_accessor h' df' rows' parsed' e Hdf' Hp' Hstr).
      reflexivity.
  - destruct Hparse.
  - destruct Hparse.
  - subst e'. rewrite (flag_recurring_raise h df rows e Hdf Hp).
    rewrite (flag_recurring_raise h' df' rows' e Hdf' Hp'). reflexivity.
Qed.

Lemma categorized_keys (rules : list Rule) (b : bool) (t : Transaction) :
  same_keys t (categorized rules b t).
Proof.
  unfold categorized. destruct (winning_rule rules t); repeat split.
Qed.

Lemma categorized_idem (rules : list Rule) (b : bool) (t : Transaction) :
  categorized rules b (categorized rules b t) = categorized rules b t.
Proof.
  assert (Hw : winning_rule rules (categorized rules b t) = winning_rule rules t).
  { unfold categorized. destruct (winning_rule rules t) eqn:Hfound;
      rewrite <- Hfound; reflexivity. }
  unfold categorized at 1. rewrite Hw.
  unfold categorized. destruct (winning_rule rules t); reflexivity.
Qed.

Lemma imap_keys (g : nat -> Transaction -> Transaction) (rows : DataFrame) :
  (forall i t, same_keys t (g i t)) -> Forall2 same_keys rows (imap g rows).
Proof.
  revert g. induction rows as [|t rows IH]; intros g Hg; simpl; constructor.
  - apply Hg.
  - apply IH. intros i t'. apply Hg.
Qed.

(** Annotating twice is annotating once: a second call of
    [apply_fixed_rules] on a frame it has annotated returns and leaves
    the frame as the first call left it. *)
Theorem apply_fixed_rules_idempotent (h h1 : Heap) (df : loc) :
  apply_fixed_rules df h = (Ok tt, h1) ->
  exists h2, apply_fixed_rules df h1 = (Ok tt, h2) /\ h2 !! df = h1 !! df.
Proof.
  intros Hrun.
  destruct (h !! df) as [rows|] eqn:Hdf.
  2:{ unfold apply_fixed_rules, flag_recurring, py_bind, copy in Hrun.
      rewrite Hdf in Hrun. discriminate. }
  destruct (parse_date_column rows) as [parsed|e] eqn:Hparse.
  2:{ unfold apply_fixed_rules, py_bind in Hrun.
      rewrite (flag_recurring_raise h df rows e Hdf Hparse) in Hrun. discriminate. }
  assert (Hans : forallb answers rows = true).
  { destruct (str_accessor rows) as [[]|e] eqn:Hstr.
    - destruct (forallb answers rows) eqn:Hans; [reflexivity |].
      rewrite (apply_fixed_rules_nan h df rows parsed Hdf Hparse Hstr Hans) in Hrun.
      discriminate.
    - rewrite (apply_fixed_rules_no_accessor h df rows parsed e Hdf Hparse Hstr) in Hrun.
      discriminate. }
  rewrite (apply_fixed_rules_run h df rows parsed Hdf Hparse Hans) in Hrun.
  injection Hrun as <-.
  set (g := fun (i : nat) t =>
              categorized fixed_rules (nth i (recurring_flags parsed) false) t).
  assert (Hkeys : Forall2 same_keys rows (imap g rows)).
  { apply imap_keys. intros i t. apply categorized_keys. }
  pose proof (parse_date_column_rel rows (imap g rows) Hkeys) as Hrel.
  rewrite Hparse in Hrel.
  destruct (parse_date_column (imap g rows)) as [parsed1|] eqn:Hparse1; [| destruct Hrel].
  eexists. split.
  - apply (apply_fixed_rules_run _ df (imap g rows) parsed1);
      [apply lookup_insert_eq | exact Hparse1 |].
    rewrite <- Hans. symmetry.
    apply forallb_answers_descriptions, same_keys_descriptions, Hkeys.
  - rewrite !lookup_insert_eq. f_equal.
    rewrite <- (recurring_flags_rel parsed parsed1 Hrel). fold g.
    apply list_eq. intros i. rewrite !list_lookup_imap.
    destruct (rows !! i) as [t|]; simpl; [| reflexivity].
    f_equal. apply categorized_idem.
Qed.

End AnnotationColumns.

Lemma flag_recurring_reads_three_columns_witness :
  ({[ 1%positive := [Sample.shop_at_station] ]} : Heap) !! 1%positive
  = Some [Sample.shop_at_station]
  /\ ({[ 1%positive := [set_is_essential true (set_concept "Rent" Sample.shop_at_station)] ]}
      : Heap) !! 1%positive
     = Some [set_is_essential true (set_concept "Rent" Sample.shop_at_station)]
  /\ Forall2 same_keys [Sample.shop_at_station]
       [set_is_essential true (set_concept "Rent" Sample.shop_at_station)]
  /\ fst (@flag_recurring Reference.backend 1%positive
            {[ 1%positive := [Sample.shop_at_station] ]})
     = fst (@flag_recurring Reference.backend 1%positive
              {[ 1%positive :=
                   [set_is_essential true (set_concept "Rent" Sample.shop_at_station)] ]}).
Proof.
  assert (Hkeys : Forall2 same_keys [Sample.shop_at_station]
                    [set_is_essential true (set_concept "Rent" Sample.shop_at_station)])
    by (constructor; [repeat split | constructor]).
  split; [reflexivity |]. split; [reflexivity |]. split; [exact Hkeys |].
  apply (@flag_recurring_reads_three_columns Reference.backend
           {[ 1%positive := [Sample.shop_at_station] ]}
           {[ 1%positive :=
                [set_is_essential true (set_concept "Rent" Sample.shop_at_station)] ]}
           1%positive 1%positive
           [Sample.shop_at_station]
           [set_is_essential true (set_concept "Rent" Sample.shop_at_station)]);
    [reflexivity | reflexivity | exact Hkeys].
Defined.

Lemma apply_fixed_rules_idempotent_witness :
  @apply_fixed_rules Reference.backend 1%positive
    {[ 1%positive := [Sample.shop_at_station] ]}
  = (Ok tt,
     snd (@apply_fixed_rules Reference.backend 1%positive
            {[ 1%positive := [Sample.shop_at_station] ]}))
  /\ exists h2,
       @apply_fixed_rules Reference.backend 1%positive
         (snd (@apply_fixed_rules Reference.backend 1%positive
                 {[ 1%positive := [Sample.shop_at_station] ]}))
       = (Ok tt, h2)
       /\ h2 !! 1%positive
          = snd (@apply_fixed_rules Reference.backend 1%positive
                   {[ 1%positive := [Sample.shop_at_station] ]}) !! 1%positive.
Proof.
  assert (Hrun : @apply_fixed_rules Reference.backend 1%positive
                   {[ 1%positive := [Sample.shop_at_station] ]}
                 = (Ok tt,
                    snd (@apply_fixed_rules Reference.backend 1%positive
                           {[ 1%positive := [Sample.shop_at_station] ]})))
    by (vm_compute; reflexivity).
  split; [exact Hrun |].
  apply (@apply_fixed_rules_idempotent Reference.backend
           {[ 1%positive := [Sample.shop_at_station] ]} _ 1%positive Hrun).
Defined.
